(** * The Allegro 5 backend of Dear ImGui: draw translation, device
      resources, event translation, the per-frame refresh and the life
      cycle

    Shallow embedding of [imgui_impl_allegro5.cpp].  The host library
    (Allegro) is a state that the backend's functions read and update; the
    calls the backend makes that draw, allocate or release something are
    kept in a log, in call order.  C [float] and [double] values are IEEE
    binary32 and binary64 numbers ([spec_float]); C [int] values are
    integers with the wrap-around written out; pointers are addresses,
    [NULL] being 0. *)

From Stdlib Require Import ZArith Bool Lia.
From Stdlib Require Import Floats.SpecFloat.
From stdpp Require Import base option list.
From stdpp Require Import strings.

Local Open Scope Z_scope.

(** ** Machine numbers *)

Definition float := spec_float.
Definition double := spec_float.

Definition fadd : float -> float -> float := SFadd 24 128.
Definition fsub : float -> float -> float := SFsub 24 128.
Definition fdiv : float -> float -> float := SFdiv 24 128.
Definition fltb : float -> float -> bool := SFltb.
Definition fleb : float -> float -> bool := SFleb.
Definition dsub : double -> double -> double := SFsub 53 1024.
Definition dltb : double -> double -> bool := SFltb.

(** [(float)z] for an integer [z]. *)
Definition float_of_int (z : Z) : float := binary_normalize 24 128 z 0 false.

(** [(float)d] for a double [d]: rounding to nearest, ties to even. *)
Definition float_of_double (d : double) : float :=
  match d with
  | S754_finite s m e => binary_normalize 24 128 (cond_Zopp s (Zpos m)) e s
  | _ => d
  end.

Definition float_zero : float := S754_zero false.
Definition double_zero : double := S754_zero false.
Definition FLT_MAX : float := S754_finite false 16777215 104.

Definition INT_MIN : Z := - 2 ^ 31.
Definition INT_MAX : Z := 2 ^ 31 - 1.

(** Conversion of a 32-bit pattern to [int] (two's complement). *)
Definition to_int (z : Z) : Z := (z + 2 ^ 31) mod 2 ^ 32 - 2 ^ 31.

(** Conversion to [unsigned int]. *)
Definition to_uint (z : Z) : Z := z mod 2 ^ 32.

(** [(int)f]: truncation toward zero.  C leaves the result open when the
    value does not fit an [int]; the model returns [INT_MIN] there, the
    value x86 conversions give. *)
Definition int_of_float (f : float) : Z :=
  match f with
  | S754_zero _ => 0
  | S754_finite s m e =>
      let a := if 0 <=? e then Zpos m * 2 ^ e else Zpos m / 2 ^ (- e) in
      let v := cond_Zopp s a in
      if (INT_MIN <=? v) && (v <=? INT_MAX) then v else INT_MIN
  | _ => INT_MIN
  end.

(** Pointers. *)
Abbreviation ptr := Z (only parsing).
Definition NULL : ptr := 0.
Definition is_null (p : ptr) : bool := p =? NULL.

(** ** Dear ImGui draw data *)

Record ImVec2 := mkImVec2 { vec2_x : float; vec2_y : float }.
Record ImVec4 := mkImVec4
  { vec4_x : float; vec4_y : float; vec4_z : float; vec4_w : float }.

(** [col] is the packed 32-bit colour (IM_COL32: red in bits 0-7, green in
    8-15, blue in 16-23, alpha in 24-31). *)
Record ImDrawVert := mkImDrawVert { pos : ImVec2; uv : ImVec2; col : Z }.

(** Byte [i] of a 32-bit value as [((unsigned char* )&v)[i]] reads it
    (least significant byte first). *)
Definition byte_at (v : Z) (i : Z) : Z := Z.land (Z.shiftr v (8 * i)) 255.

(** [ImVector<T>::operator[]]: an index outside the vector is an
    out-of-range access, [None]. *)
Definition ImVector_at {A} (v : list A) (i : Z) : option A :=
  if 0 <=? i then v !! Z.to_nat i else None.

(** [ImVector<T>::resize]: keeps the leading elements and leaves whatever
    the storage holds ([fill]) in the slots it adds. *)
Definition ImVector_resize {A} (fill : A) (n : nat) (v : list A) : list A :=
  take n v ++ replicate (n - length v)%nat fill.

(** ** The host: Allegro's render state *)

Inductive ALLEGRO_BLEND_OPERATIONS :=
  ALLEGRO_ADD | ALLEGRO_SRC_MINUS_DEST | ALLEGRO_DEST_MINUS_SRC.

Inductive ALLEGRO_BLEND_MODE :=
  ALLEGRO_ZERO | ALLEGRO_ONE | ALLEGRO_ALPHA | ALLEGRO_INVERSE_ALPHA
| ALLEGRO_SRC_COLOR | ALLEGRO_DEST_COLOR
| ALLEGRO_INVERSE_SRC_COLOR | ALLEGRO_INVERSE_DEST_COLOR.

Inductive ALLEGRO_PRIM_TYPE :=
  ALLEGRO_PRIM_LINE_LIST | ALLEGRO_PRIM_LINE_STRIP | ALLEGRO_PRIM_LINE_LOOP
| ALLEGRO_PRIM_TRIANGLE_LIST | ALLEGRO_PRIM_TRIANGLE_STRIP
| ALLEGRO_PRIM_TRIANGLE_FAN | ALLEGRO_PRIM_POINT_LIST.

(** The blender Allegro keeps: one operation and two factors for the colour
    channels, and the same again for the alpha channel. *)
Record Blender := mkBlender
  { blend_op : ALLEGRO_BLEND_OPERATIONS;
    blend_src : ALLEGRO_BLEND_MODE;
    blend_dst : ALLEGRO_BLEND_MODE;
    blend_alpha_op : ALLEGRO_BLEND_OPERATIONS;
    blend_alpha_src : ALLEGRO_BLEND_MODE;
    blend_alpha_dst : ALLEGRO_BLEND_MODE }.

Record ALLEGRO_COLOR := mkColor
  { col_r : float; col_g : float; col_b : float; col_a : float }.

Record ImDrawVertAllegro := mkImDrawVertAllegro
  { a_pos : ImVec2; a_uv : ImVec2; a_col : ALLEGRO_COLOR }.

(** One [al_draw_prim] call: the vertex array handed over, the vertex
    declaration, the texture, the range [start, end) and the primitive. *)
Record DrawPrim := mkDrawPrim
  { prim_vtxs : list ImDrawVertAllegro;
    prim_decl : ptr;
    prim_texture : ptr;
    prim_start : Z;
    prim_end : Z;
    prim_type : ALLEGRO_PRIM_TYPE }.

Record ClipRectangle := mkClip
  { clip_x : Z; clip_y : Z; clip_w : Z; clip_h : Z }.

(** ** The backend data *)

Record ImGui_ImplAllegro5_Data := mkData
  { Display : ptr;
    Texture : ptr;
    Time : double;
    MouseCursorInvisible : ptr;
    VertexDecl : ptr;
    ClipboardTextData : ptr }.

(** The constructor: [memset(this, 0, sizeof( *this))]. *)
Definition ImGui_ImplAllegro5_Data_new : ImGui_ImplAllegro5_Data :=
  mkData NULL NULL double_zero NULL NULL NULL.

Definition set_Texture (v : ptr) (b : ImGui_ImplAllegro5_Data) :=
  mkData (Display b) v (Time b) (MouseCursorInvisible b) (VertexDecl b)
         (ClipboardTextData b).
Definition set_Time (v : double) (b : ImGui_ImplAllegro5_Data) :=
  mkData (Display b) (Texture b) v (MouseCursorInvisible b) (VertexDecl b)
         (ClipboardTextData b).
Definition set_MouseCursorInvisible (v : ptr) (b : ImGui_ImplAllegro5_Data) :=
  mkData (Display b) (Texture b) (Time b) v (VertexDecl b)
         (ClipboardTextData b).

(** What the headers of Allegro and Dear ImGui and the build configuration
    supply and this file only uses: the transform type with its two
    constructors, the colour conversion [al_map_rgba], the contents of
    storage that [resize] exposes without initialising,
    [sizeof(ImDrawIdx)], and the values of the named constants. *)
Class Platform := mkPlatform
  { ALLEGRO_TRANSFORM : Type;
    al_identity_transform : ALLEGRO_TRANSFORM;
    al_orthographic_transform :
      ALLEGRO_TRANSFORM -> float -> float -> float -> float -> float -> float ->
      ALLEGRO_TRANSFORM;
    al_map_rgba : Z -> Z -> Z -> Z -> ALLEGRO_COLOR;
    uninit_vert : ImDrawVertAllegro;
    uninit_int : Z;
    sizeof_ImDrawIdx : Z;
    ALLEGRO_MEMORY_BITMAP : Z;
    ALLEGRO_MIN_LINEAR : Z;
    ALLEGRO_MAG_LINEAR : Z;
    ALLEGRO_PIXEL_FORMAT_ABGR_8888_LE : Z;
    ALLEGRO_KEY_LCTRL : Z;
    ALLEGRO_KEY_RCTRL : Z;
    ALLEGRO_KEY_LSHIFT : Z;
    ALLEGRO_KEY_RSHIFT : Z;
    ALLEGRO_KEY_ALT : Z;
    ALLEGRO_KEY_ALTGR : Z;
    ALLEGRO_KEY_LWIN : Z;
    ALLEGRO_KEY_RWIN : Z;
    ImGuiConfigFlags_NoMouseCursorChange : Z }.

Section Renderer.

Context `{Platform}.

(** The render state of the target: the four components the renderer
    touches, and the primitives drawn so far. *)
Record Target := mkTarget
  { current_transform : ALLEGRO_TRANSFORM;
    current_projection_transform : ALLEGRO_TRANSFORM;
    clipping_rectangle : ClipRectangle;
    blender : Blender;
    drawn : list DrawPrim }.

Definition al_use_transform (m : ALLEGRO_TRANSFORM) (t : Target) : Target :=
  mkTarget m (current_projection_transform t) (clipping_rectangle t)
           (blender t) (drawn t).

Definition al_use_projection_transform (m : ALLEGRO_TRANSFORM) (t : Target)
  : Target :=
  mkTarget (current_transform t) m (clipping_rectangle t)
           (blender t) (drawn t).

Definition al_set_clipping_rectangle (cx cy cw ch : Z) (t : Target) : Target :=
  mkTarget (current_transform t) (current_projection_transform t)
           (mkClip cx cy cw ch) (blender t) (drawn t).

Definition al_get_clipping_rectangle (t : Target) : ClipRectangle :=
  clipping_rectangle t.

Definition al_set_separate_blender
    (op : ALLEGRO_BLEND_OPERATIONS) (src dst : ALLEGRO_BLEND_MODE)
    (alpha_op : ALLEGRO_BLEND_OPERATIONS)
    (alpha_src alpha_dst : ALLEGRO_BLEND_MODE) (t : Target) : Target :=
  mkTarget (current_transform t) (current_projection_transform t)
           (clipping_rectangle t)
           (mkBlender op src dst alpha_op alpha_src alpha_dst) (drawn t).

(** [al_set_blender] is [al_set_separate_blender] with the colour
    arguments repeated for alpha. *)
Definition al_set_blender
    (op : ALLEGRO_BLEND_OPERATIONS) (src dst : ALLEGRO_BLEND_MODE)
    (t : Target) : Target :=
  al_set_separate_blender op src dst op src dst t.

(** [al_get_blender] reports the colour part only. *)
Definition al_get_blender (t : Target)
  : ALLEGRO_BLEND_OPERATIONS * ALLEGRO_BLEND_MODE * ALLEGRO_BLEND_MODE :=
  (blend_op (blender t), blend_src (blender t), blend_dst (blender t)).

Definition al_draw_prim (vtxs : list ImDrawVertAllegro) (decl texture : ptr)
    (start end_ : Z) (type : ALLEGRO_PRIM_TYPE) (t : Target) : Target :=
  mkTarget (current_transform t) (current_projection_transform t)
           (clipping_rectangle t) (blender t)
           (drawn t ++ [mkDrawPrim vtxs decl texture start end_ type]).

(** *** Draw commands *)

(** [UserCallback]: [NULL], the reset-render-state sentinel, or a user
    function, which may do anything to the target. *)
Inductive ImDrawCallback :=
| NoCallback
| ImDrawCallback_ResetRenderState
| UserFunction (f : Target -> Target).

Record ImDrawCmd := mkImDrawCmd
  { ClipRect : ImVec4;
    TextureId : ptr;
    ElemCount : Z;
    UserCallback : ImDrawCallback }.

Record ImDrawList := mkImDrawList
  { VtxBuffer : list ImDrawVert;
    IdxBuffer : list Z;
    CmdBuffer : list ImDrawCmd }.

Record ImDrawData := mkImDrawData
  { DisplayPos : ImVec2;
    DisplaySize : ImVec2;
    CmdLists : list ImDrawList }.

(** The two function-local [static] vectors of the renderer. *)
Record Scratch := mkScratch
  { vertices : list ImDrawVertAllegro;
    indices_converted : list Z }.

(** *** ImGui_ImplAllegro5_SetupRenderState *)

Definition ImGui_ImplAllegro5_SetupRenderState (draw_data : ImDrawData)
    (t : Target) : Target :=
  let t := al_set_separate_blender ALLEGRO_ADD ALLEGRO_ALPHA
             ALLEGRO_INVERSE_ALPHA ALLEGRO_ADD ALLEGRO_ONE
             ALLEGRO_INVERSE_ALPHA t in
  let L := vec2_x (DisplayPos draw_data) in
  let R := fadd (vec2_x (DisplayPos draw_data))
                (vec2_x (DisplaySize draw_data)) in
  let T := vec2_y (DisplayPos draw_data) in
  let B := fadd (vec2_y (DisplayPos draw_data))
                (vec2_y (DisplaySize draw_data)) in
  let transform := al_identity_transform in
  let t := al_use_transform transform t in
  let transform :=
    al_orthographic_transform transform L T (float_of_int 1) R B
                              (float_of_int (-1)) in
  al_use_projection_transform transform t.

(** *** The unindexing loop *)

Definition convert_vert (src_v : ImDrawVert) : ImDrawVertAllegro :=
  mkImDrawVertAllegro (pos src_v) (uv src_v)
    (al_map_rgba (byte_at (col src_v) 0) (byte_at (col src_v) 1)
                 (byte_at (col src_v) 2) (byte_at (col src_v) 3)).

(** [for (i = 0; i < IdxBuffer.Size; i++)], entered at index [i] with
    the indices still to visit. *)
Fixpoint unindex_from (VtxBuffer : list ImDrawVert) (idxs : list Z) (i : nat)
    (vertices : list ImDrawVertAllegro) : option (list ImDrawVertAllegro) :=
  match idxs with
  | [] => Some vertices
  | idx :: idxs' =>
      src_v ← ImVector_at VtxBuffer idx;
      unindex_from VtxBuffer idxs' (S i) (<[i := convert_vert src_v]> vertices)
  end.

Definition unindex (cmd_list : ImDrawList)
    (vertices : list ImDrawVertAllegro) : option (list ImDrawVertAllegro) :=
  unindex_from (VtxBuffer cmd_list) (IdxBuffer cmd_list) 0
    (ImVector_resize uninit_vert (length (IdxBuffer cmd_list)) vertices).

(** The widening of 16-bit indices, done only when [ImDrawIdx] is two
    bytes wide; the widened copy is not read again. *)
Fixpoint widen_from (idxs : list Z) (i : nat) (out : list Z) : list Z :=
  match idxs with
  | [] => out
  | idx :: idxs' => widen_from idxs' (S i) (<[i := to_int idx]> out)
  end.

Definition convert_indices (cmd_list : ImDrawList) (indices_converted : list Z)
  : list Z :=
  if sizeof_ImDrawIdx =? 2 then
    widen_from (IdxBuffer cmd_list) 0
      (ImVector_resize uninit_int (length (IdxBuffer cmd_list))
                       indices_converted)
  else indices_converted.

(** *** The command loop *)

(** How the body of the loop over [CmdBuffer] is left: by falling through
    the [if]/[else] to the statement after it, or by the [continue] of the
    degenerate-rectangle test, which goes straight to the next iteration. *)
Inductive Flow :=
| FallThrough (t : Target)
| Continue (t : Target).

(** The [if (pcmd->UserCallback) ... else ...] of the loop body. *)
Definition render_cmd_body (draw_data : ImDrawData)
    (bd : ImGui_ImplAllegro5_Data)
    (vertices : list ImDrawVertAllegro) (pcmd : ImDrawCmd)
    (idx_offset : Z) (t : Target) : Flow :=
  let clip_off := DisplayPos draw_data in
  match UserCallback pcmd with
  | ImDrawCallback_ResetRenderState =>
      FallThrough (ImGui_ImplAllegro5_SetupRenderState draw_data t)
  | UserFunction f =>
      FallThrough (f t)
  | NoCallback =>
      let clip_min :=
        mkImVec2 (fsub (vec4_x (ClipRect pcmd)) (vec2_x clip_off))
                 (fsub (vec4_y (ClipRect pcmd)) (vec2_y clip_off)) in
      let clip_max :=
        mkImVec2 (fsub (vec4_z (ClipRect pcmd)) (vec2_x clip_off))
                 (fsub (vec4_w (ClipRect pcmd)) (vec2_y clip_off)) in
      if fltb (vec2_x clip_max) (vec2_x clip_min)
         || fltb (vec2_y clip_max) (vec2_y clip_min)
      then Continue t
      else
        let texture := TextureId pcmd in
        let t := al_set_clipping_rectangle
                   (int_of_float (vec2_x clip_min))
                   (int_of_float (vec2_y clip_min))
                   (int_of_float (fsub (vec2_x clip_max) (vec2_x clip_min)))
                   (int_of_float (fsub (vec2_y clip_max) (vec2_y clip_min)))
                   t in
        FallThrough
          (al_draw_prim vertices (VertexDecl bd) texture idx_offset
             (to_int (idx_offset + ElemCount pcmd))
             ALLEGRO_PRIM_TRIANGLE_LIST t)
  end.

(** One iteration of the loop: the body, and after it
    [idx_offset += pcmd->ElemCount], which only a body that falls through
    reaches. *)
Definition render_cmd (draw_data : ImDrawData)
    (bd : ImGui_ImplAllegro5_Data)
    (vertices : list ImDrawVertAllegro) (pcmd : ImDrawCmd)
    (st : Target * Z) : Target * Z :=
  let '(t, idx_offset) := st in
  match render_cmd_body draw_data bd vertices pcmd idx_offset t with
  | Continue t => (t, idx_offset)
  | FallThrough t => (t, to_int (idx_offset + ElemCount pcmd))
  end.

Fixpoint render_cmds (draw_data : ImDrawData)
    (bd : ImGui_ImplAllegro5_Data)
    (vertices : list ImDrawVertAllegro) (cmds : list ImDrawCmd)
    (st : Target * Z) : Target * Z :=
  match cmds with
  | [] => st
  | pcmd :: cmds' =>
      render_cmds draw_data bd vertices cmds'
        (render_cmd draw_data bd vertices pcmd st)
  end.

(** The test that makes the loop skip a command, on the rectangle moved
    into the target's space. *)
Definition degenerate (draw_data : ImDrawData) (pcmd : ImDrawCmd) : bool :=
  fltb (fsub (vec4_z (ClipRect pcmd)) (vec2_x (DisplayPos draw_data)))
       (fsub (vec4_x (ClipRect pcmd)) (vec2_x (DisplayPos draw_data)))
  || fltb (fsub (vec4_w (ClipRect pcmd)) (vec2_y (DisplayPos draw_data)))
          (fsub (vec4_y (ClipRect pcmd)) (vec2_y (DisplayPos draw_data))).

Definition is_callback (pcmd : ImDrawCmd) : bool :=
  match UserCallback pcmd with NoCallback => false | _ => true end.

(** The commands the loop skips: no callback, and a degenerate rectangle. *)
Definition skipped (draw_data : ImDrawData) (pcmd : ImDrawCmd) : bool :=
  negb (is_callback pcmd) && degenerate draw_data pcmd.

Fixpoint total_elems (cmds : list ImDrawCmd) : Z :=
  match cmds with
  | [] => 0
  | pcmd :: cmds' => ElemCount pcmd + total_elems cmds'
  end.

(** One iteration of the loop over [CmdLists]. *)
Definition render_list (draw_data : ImDrawData)
    (bd : ImGui_ImplAllegro5_Data) (cmd_list : ImDrawList) (w : Target * Scratch)
  : option (Target * Scratch) :=
  let '(t, s) := w in
  vs ← unindex cmd_list (vertices s);
  let ic := convert_indices cmd_list (indices_converted s) in
  let '(t', _) :=
    render_cmds draw_data bd vs (CmdBuffer cmd_list) (t, 0) in
  Some (t', mkScratch vs ic).

Fixpoint render_lists (draw_data : ImDrawData)
    (bd : ImGui_ImplAllegro5_Data) (lists : list ImDrawList) (w : Target * Scratch)
  : option (Target * Scratch) :=
  match lists with
  | [] => Some w
  | cmd_list :: lists' =>
      w' ← render_list draw_data bd cmd_list w;
      render_lists draw_data bd lists' w'
  end.

(** *** ImGui_ImplAllegro5_RenderDrawData

    [None] stands for a run that read a vertex outside [VtxBuffer]. *)
Definition ImGui_ImplAllegro5_RenderDrawData (bd : ImGui_ImplAllegro5_Data)
    (draw_data : ImDrawData) (w : Target * Scratch)
  : option (Target * Scratch) :=
  if fleb (vec2_x (DisplaySize draw_data)) float_zero
     || fleb (vec2_y (DisplaySize draw_data)) float_zero
  then Some w
  else
    let '(t, s) := w in
    let last_transform := current_transform t in
    let last_projection_transform := current_projection_transform t in
    let last_clip := al_get_clipping_rectangle t in
    let '(last_blender_op, last_blender_src, last_blender_dst) :=
      al_get_blender t in
    let t := ImGui_ImplAllegro5_SetupRenderState draw_data t in
    '(t, s) ← render_lists draw_data bd (CmdLists draw_data) (t, s);
    let t := al_set_blender last_blender_op last_blender_src
                            last_blender_dst t in
    let t := al_set_clipping_rectangle (clip_x last_clip) (clip_y last_clip)
               (clip_w last_clip) (clip_h last_clip) t in
    let t := al_use_transform last_transform t in
    let t := al_use_projection_transform last_projection_transform t in
    Some (t, s).

End Renderer.

(** ** The host: bitmaps, cursors, display, clock and keyboard *)

Inductive ALLEGRO_SYSTEM_MOUSE_CURSOR :=
  ALLEGRO_SYSTEM_MOUSE_CURSOR_DEFAULT
| ALLEGRO_SYSTEM_MOUSE_CURSOR_EDIT
| ALLEGRO_SYSTEM_MOUSE_CURSOR_MOVE
| ALLEGRO_SYSTEM_MOUSE_CURSOR_RESIZE_N
| ALLEGRO_SYSTEM_MOUSE_CURSOR_RESIZE_E
| ALLEGRO_SYSTEM_MOUSE_CURSOR_RESIZE_NE
| ALLEGRO_SYSTEM_MOUSE_CURSOR_RESIZE_NW
| ALLEGRO_SYSTEM_MOUSE_CURSOR_UNAVAILABLE.

(** The calls that create, lock, release or show a resource, with their
    arguments and, where there is one, the result. *)
Inductive DeviceCall :=
| call_create_bitmap (w h flags format : Z) (result : ptr)
| call_lock_bitmap (bitmap : ptr) (locked : bool)
| call_unlock_bitmap (bitmap : ptr)
| call_clone_bitmap (bitmap result : ptr)
| call_destroy_bitmap (bitmap : ptr)
| call_create_mouse_cursor (bitmap result : ptr)
| call_destroy_mouse_cursor (cursor : ptr)
| call_set_mouse_cursor (display cursor : ptr)
| call_set_system_mouse_cursor (display : ptr)
                               (cursor_id : ALLEGRO_SYSTEM_MOUSE_CURSOR).

(** [answers] scripts the host: each call that can fail takes the next
    entry, [true] for success; once the script is used up every call
    succeeds.  A successful creation returns [next_handle], an address not
    handed out before.  [bitmaps] and [cursors] are the resources alive. *)
Record Device := mkDevice
  { new_bitmap_flags : Z;
    new_bitmap_format : Z;
    bitmaps : list ptr;
    cursors : list ptr;
    next_handle : ptr;
    answers : list bool;
    calls : list DeviceCall;
    display_width : Z;
    display_height : Z;
    clock : double;
    keyboard : list Z }.

Definition set_new_bitmap_flags (v : Z) (d : Device) : Device :=
  mkDevice v (new_bitmap_format d) (bitmaps d) (cursors d) (next_handle d)
    (answers d) (calls d) (display_width d) (display_height d) (clock d)
    (keyboard d).

Definition set_new_bitmap_format (v : Z) (d : Device) : Device :=
  mkDevice (new_bitmap_flags d) v (bitmaps d) (cursors d) (next_handle d)
    (answers d) (calls d) (display_width d) (display_height d) (clock d)
    (keyboard d).

(** The device after a call: the resources alive, the next fresh address,
    what is left of the script, and the log with the call added. *)
Definition after_call (bs cs : list ptr) (next : ptr) (ans : list bool)
    (c : DeviceCall) (d : Device) : Device :=
  mkDevice (new_bitmap_flags d) (new_bitmap_format d) bs cs next ans
    (calls d ++ [c]) (display_width d) (display_height d) (clock d)
    (keyboard d).

Fixpoint release (p : ptr) (l : list ptr) : list ptr :=
  match l with
  | [] => []
  | q :: l' => if q =? p then release p l' else q :: release p l'
  end.

Definition al_get_new_bitmap_flags (d : Device) : Z := new_bitmap_flags d.
Definition al_get_new_bitmap_format (d : Device) : Z := new_bitmap_format d.
Definition al_set_new_bitmap_flags := set_new_bitmap_flags.
Definition al_set_new_bitmap_format := set_new_bitmap_format.

Definition al_create_bitmap (w h : Z) (d : Device) : ptr * Device :=
  if hd true (answers d) then
    let p := next_handle d in
    (p, after_call (bitmaps d ++ [p]) (cursors d) (p + 1) (tl (answers d))
          (call_create_bitmap w h (new_bitmap_flags d) (new_bitmap_format d) p)
          d)
  else
    (NULL, after_call (bitmaps d) (cursors d) (next_handle d) (tl (answers d))
             (call_create_bitmap w h (new_bitmap_flags d)
                                 (new_bitmap_format d) NULL) d).

(** [al_lock_bitmap]: whether a locked region was returned. *)
Definition al_lock_bitmap (bitmap : ptr) (d : Device) : bool * Device :=
  let ok := hd true (answers d) in
  (ok, after_call (bitmaps d) (cursors d) (next_handle d) (tl (answers d))
         (call_lock_bitmap bitmap ok) d).

Definition al_unlock_bitmap (bitmap : ptr) (d : Device) : Device :=
  after_call (bitmaps d) (cursors d) (next_handle d) (answers d)
    (call_unlock_bitmap bitmap) d.

Definition al_clone_bitmap (bitmap : ptr) (d : Device) : ptr * Device :=
  if hd true (answers d) then
    let p := next_handle d in
    (p, after_call (bitmaps d ++ [p]) (cursors d) (p + 1) (tl (answers d))
          (call_clone_bitmap bitmap p) d)
  else
    (NULL, after_call (bitmaps d) (cursors d) (next_handle d) (tl (answers d))
             (call_clone_bitmap bitmap NULL) d).

(** [al_destroy_bitmap] does nothing to the resources when given [NULL]. *)
Definition al_destroy_bitmap (bitmap : ptr) (d : Device) : Device :=
  after_call (if is_null bitmap then bitmaps d else release bitmap (bitmaps d))
    (cursors d) (next_handle d) (answers d) (call_destroy_bitmap bitmap) d.

(** [al_create_mouse_cursor]: no cursor can be made from a [NULL] bitmap;
    otherwise the script decides. *)
Definition al_create_mouse_cursor (bitmap : ptr) (d : Device) : ptr * Device :=
  if is_null bitmap then
    (NULL, after_call (bitmaps d) (cursors d) (next_handle d) (answers d)
             (call_create_mouse_cursor bitmap NULL) d)
  else if hd true (answers d) then
    let p := next_handle d in
    (p, after_call (bitmaps d) (cursors d ++ [p]) (p + 1) (tl (answers d))
          (call_create_mouse_cursor bitmap p) d)
  else
    (NULL, after_call (bitmaps d) (cursors d) (next_handle d) (tl (answers d))
             (call_create_mouse_cursor bitmap NULL) d).

Definition al_destroy_mouse_cursor (cursor : ptr) (d : Device) : Device :=
  after_call (bitmaps d)
    (if is_null cursor then cursors d else release cursor (cursors d))
    (next_handle d) (answers d) (call_destroy_mouse_cursor cursor) d.

Definition al_set_mouse_cursor (display cursor : ptr) (d : Device) : Device :=
  after_call (bitmaps d) (cursors d) (next_handle d) (answers d)
    (call_set_mouse_cursor display cursor) d.

Definition al_set_system_mouse_cursor (display : ptr)
    (cursor_id : ALLEGRO_SYSTEM_MOUSE_CURSOR) (d : Device) : Device :=
  after_call (bitmaps d) (cursors d) (next_handle d) (answers d)
    (call_set_system_mouse_cursor display cursor_id) d.

Definition al_get_display_width (display : ptr) (d : Device) : Z :=
  display_width d.
Definition al_get_display_height (display : ptr) (d : Device) : Z :=
  display_height d.
Definition al_get_time (d : Device) : double := clock d.

(** [al_key_down] on the keyboard state [keys], the key codes held. *)
Definition al_key_down (keys : list Z) (keycode : Z) : bool :=
  existsb (Z.eqb keycode) keys.

(** A device hands out addresses above [NULL] and above every bitmap
    alive. *)
Definition device_ok (d : Device) : bool :=
  (0 <? next_handle d) && forallb (fun p => p <? next_handle d) (bitmaps d).

(** The answer the host will give to the [k]-th call that can fail, counted
    from the present state. *)
Definition answer (d : Device) (k : nat) : bool := nth k (answers d) true.

(** ** The input/output state of Dear ImGui *)

Inductive ImGuiMouseCursor :=
  ImGuiMouseCursor_None | ImGuiMouseCursor_Arrow | ImGuiMouseCursor_TextInput
| ImGuiMouseCursor_ResizeAll | ImGuiMouseCursor_ResizeNS
| ImGuiMouseCursor_ResizeEW | ImGuiMouseCursor_ResizeNESW
| ImGuiMouseCursor_ResizeNWSE | ImGuiMouseCursor_Hand
| ImGuiMouseCursor_NotAllowed.

(** The fields of [ImGuiIO] the backend reads or writes, the font atlas
    ([Fonts_]) and the cursor that [ImGui::GetMouseCursor] reports.
    [MouseDown] and [KeysDown] are the flag arrays, of the length the
    header gives them. *)
Record ImGuiIO := mkIO
  { ConfigFlags : Z;
    IO_DisplaySize : ImVec2;
    DeltaTime : float;
    MouseDrawCursor : bool;
    Fonts_TexWidth : Z;
    Fonts_TexHeight : Z;
    Fonts_TexID : ptr;
    MousePos : ImVec2;
    MouseDown : list bool;
    MouseWheel : float;
    MouseWheelH : float;
    KeyCtrl : bool;
    KeyShift : bool;
    KeyAlt : bool;
    KeySuper : bool;
    KeysDown : list bool;
    InputQueueCharacters : list Z;
    AppFocused : bool;
    MouseCursor : ImGuiMouseCursor }.

Definition set_IO_DisplaySize (v : ImVec2) (i : ImGuiIO) : ImGuiIO :=
  let 'mkIO cf _ dt dc tw th ti mp md mw mh kc ks ka ku kd q f c := i in
  mkIO cf v dt dc tw th ti mp md mw mh kc ks ka ku kd q f c.
Definition set_DeltaTime (v : float) (i : ImGuiIO) : ImGuiIO :=
  let 'mkIO cf ds _ dc tw th ti mp md mw mh kc ks ka ku kd q f c := i in
  mkIO cf ds v dc tw th ti mp md mw mh kc ks ka ku kd q f c.
Definition set_Fonts_TexID (v : ptr) (i : ImGuiIO) : ImGuiIO :=
  let 'mkIO cf ds dt dc tw th _ mp md mw mh kc ks ka ku kd q f c := i in
  mkIO cf ds dt dc tw th v mp md mw mh kc ks ka ku kd q f c.
Definition set_MousePos (v : ImVec2) (i : ImGuiIO) : ImGuiIO :=
  let 'mkIO cf ds dt dc tw th ti _ md mw mh kc ks ka ku kd q f c := i in
  mkIO cf ds dt dc tw th ti v md mw mh kc ks ka ku kd q f c.
Definition set_MouseDown (v : list bool) (i : ImGuiIO) : ImGuiIO :=
  let 'mkIO cf ds dt dc tw th ti mp _ mw mh kc ks ka ku kd q f c := i in
  mkIO cf ds dt dc tw th ti mp v mw mh kc ks ka ku kd q f c.
Definition set_MouseWheel (v : float) (i : ImGuiIO) : ImGuiIO :=
  let 'mkIO cf ds dt dc tw th ti mp md _ mh kc ks ka ku kd q f c := i in
  mkIO cf ds dt dc tw th ti mp md v mh kc ks ka ku kd q f c.
Definition set_MouseWheelH (v : float) (i : ImGuiIO) : ImGuiIO :=
  let 'mkIO cf ds dt dc tw th ti mp md mw _ kc ks ka ku kd q f c := i in
  mkIO cf ds dt dc tw th ti mp md mw v kc ks ka ku kd q f c.
Definition set_KeyCtrl (v : bool) (i : ImGuiIO) : ImGuiIO :=
  let 'mkIO cf ds dt dc tw th ti mp md mw mh _ ks ka ku kd q f c := i in
  mkIO cf ds dt dc tw th ti mp md mw mh v ks ka ku kd q f c.
Definition set_KeyShift (v : bool) (i : ImGuiIO) : ImGuiIO :=
  let 'mkIO cf ds dt dc tw th ti mp md mw mh kc _ ka ku kd q f c := i in
  mkIO cf ds dt dc tw th ti mp md mw mh kc v ka ku kd q f c.
Definition set_KeyAlt (v : bool) (i : ImGuiIO) : ImGuiIO :=
  let 'mkIO cf ds dt dc tw th ti mp md mw mh kc ks _ ku kd q f c := i in
  mkIO cf ds dt dc tw th ti mp md mw mh kc ks v ku kd q f c.
Definition set_KeySuper (v : bool) (i : ImGuiIO) : ImGuiIO :=
  let 'mkIO cf ds dt dc tw th ti mp md mw mh kc ks ka _ kd q f c := i in
  mkIO cf ds dt dc tw th ti mp md mw mh kc ks ka v kd q f c.
Definition set_KeysDown (v : list bool) (i : ImGuiIO) : ImGuiIO :=
  let 'mkIO cf ds dt dc tw th ti mp md mw mh kc ks ka ku _ q f c := i in
  mkIO cf ds dt dc tw th ti mp md mw mh kc ks ka ku v q f c.
Definition set_InputQueueCharacters (v : list Z) (i : ImGuiIO) : ImGuiIO :=
  let 'mkIO cf ds dt dc tw th ti mp md mw mh kc ks ka ku kd _ f c := i in
  mkIO cf ds dt dc tw th ti mp md mw mh kc ks ka ku kd v f c.
Definition set_AppFocused (v : bool) (i : ImGuiIO) : ImGuiIO :=
  let 'mkIO cf ds dt dc tw th ti mp md mw mh kc ks ka ku kd q _ c := i in
  mkIO cf ds dt dc tw th ti mp md mw mh kc ks ka ku kd q v c.

(** Modelled from the spec: [ImGuiIO::AddInputCharacter] of imgui.cpp,
    which is not among the sources; the character is appended to the text
    input queue. *)
Definition AddInputCharacter (c : Z) (i : ImGuiIO) : ImGuiIO :=
  set_InputQueueCharacters (InputQueueCharacters i ++ [c]) i.

(** Modelled from the spec: [ImGuiIO::AddFocusEvent] of imgui.cpp, which is
    not among the sources; the focus flag is set. *)
Definition AddFocusEvent (focused : bool) (i : ImGuiIO) : ImGuiIO :=
  set_AppFocused focused i.

(** The process-wide state: the host, [ImGui::GetIO()] and the backend
    data that [ImGui_ImplAllegro5_GetBackendData] returns. *)
Record World := mkWorld
  { host : Device; io : ImGuiIO; bd : ImGui_ImplAllegro5_Data }.

(** ** Device resources *)

Section DeviceObjects.

Context `{Platform}.

(** *** ImGui_ImplAllegro5_CreateDeviceObjects

    [GetTexDataAsRGBA32] yields the atlas size; the pixels that [memcpy]
    moves into the locked region are not part of the model. *)
Definition ImGui_ImplAllegro5_CreateDeviceObjects (w : World) : bool * World :=
  let d := host w in
  let width := Fonts_TexWidth (io w) in
  let height := Fonts_TexHeight (io w) in
  let flags := al_get_new_bitmap_flags d in
  let fmt := al_get_new_bitmap_format d in
  let d := al_set_new_bitmap_flags
             (Z.lor (Z.lor ALLEGRO_MEMORY_BITMAP ALLEGRO_MIN_LINEAR)
                    ALLEGRO_MAG_LINEAR) d in
  let d := al_set_new_bitmap_format ALLEGRO_PIXEL_FORMAT_ABGR_8888_LE d in
  let '(img, d) := al_create_bitmap width height d in
  let d := al_set_new_bitmap_flags flags d in
  let d := al_set_new_bitmap_format fmt d in
  if is_null img then (false, mkWorld d (io w) (bd w))
  else
    let '(locked_img, d) := al_lock_bitmap img d in
    if negb locked_img then
      let d := al_destroy_bitmap img d in
      (false, mkWorld d (io w) (bd w))
    else
      let d := al_unlock_bitmap img d in
      let '(cloned_img, d) := al_clone_bitmap img d in
      let d := al_destroy_bitmap img d in
      if is_null cloned_img then (false, mkWorld d (io w) (bd w))
      else
        let io' := set_Fonts_TexID cloned_img (io w) in
        let bd' := set_Texture cloned_img (bd w) in
        let '(mouse_cursor, d) := al_create_bitmap 8 8 d in
        let '(cursor, d) := al_create_mouse_cursor mouse_cursor d in
        let bd' := set_MouseCursorInvisible cursor bd' in
        let d := al_destroy_bitmap mouse_cursor d in
        (true, mkWorld d io' bd').

End DeviceObjects.

(** *** ImGui_ImplAllegro5_InvalidateDeviceObjects *)

Definition ImGui_ImplAllegro5_InvalidateDeviceObjects (w : World) : World :=
  let w :=
    if negb (is_null (Texture (bd w))) then
      let io' := set_Fonts_TexID NULL (io w) in
      let d := al_destroy_bitmap (Texture (bd w)) (host w) in
      mkWorld d io' (set_Texture NULL (bd w))
    else w in
  if negb (is_null (MouseCursorInvisible (bd w))) then
    let d := al_destroy_mouse_cursor (MouseCursorInvisible (bd w)) (host w) in
    mkWorld d (io w) (set_MouseCursorInvisible NULL (bd w))
  else w.

(** ** Events *)

(** The event types of Allegro 5, and [ALLEGRO_EVENT_USER] for the type
    codes that programs define themselves. *)
Inductive ALLEGRO_EVENT_TYPE :=
| ALLEGRO_EVENT_JOYSTICK_AXIS
| ALLEGRO_EVENT_JOYSTICK_BUTTON_DOWN
| ALLEGRO_EVENT_JOYSTICK_BUTTON_UP
| ALLEGRO_EVENT_JOYSTICK_CONFIGURATION
| ALLEGRO_EVENT_KEY_DOWN
| ALLEGRO_EVENT_KEY_CHAR
| ALLEGRO_EVENT_KEY_UP
| ALLEGRO_EVENT_MOUSE_AXES
| ALLEGRO_EVENT_MOUSE_BUTTON_DOWN
| ALLEGRO_EVENT_MOUSE_BUTTON_UP
| ALLEGRO_EVENT_MOUSE_ENTER_DISPLAY
| ALLEGRO_EVENT_MOUSE_LEAVE_DISPLAY
| ALLEGRO_EVENT_MOUSE_WARPED
| ALLEGRO_EVENT_TIMER
| ALLEGRO_EVENT_DISPLAY_EXPOSE
| ALLEGRO_EVENT_DISPLAY_RESIZE
| ALLEGRO_EVENT_DISPLAY_CLOSE
| ALLEGRO_EVENT_DISPLAY_LOST
| ALLEGRO_EVENT_DISPLAY_FOUND
| ALLEGRO_EVENT_DISPLAY_SWITCH_IN
| ALLEGRO_EVENT_DISPLAY_SWITCH_OUT
| ALLEGRO_EVENT_DISPLAY_ORIENTATION
| ALLEGRO_EVENT_DISPLAY_HALT_DRAWING
| ALLEGRO_EVENT_DISPLAY_RESUME_DRAWING
| ALLEGRO_EVENT_TOUCH_BEGIN
| ALLEGRO_EVENT_TOUCH_END
| ALLEGRO_EVENT_TOUCH_MOVE
| ALLEGRO_EVENT_TOUCH_CANCEL
| ALLEGRO_EVENT_DISPLAY_CONNECTED
| ALLEGRO_EVENT_DISPLAY_DISCONNECTED
| ALLEGRO_EVENT_USER (code : Z).

#[global] Instance ALLEGRO_EVENT_TYPE_eq_dec : EqDecision ALLEGRO_EVENT_TYPE.
Proof. solve_decision. Defined.

(** [button] is an [unsigned int]; the coordinates and deltas are [int]. *)
Record ALLEGRO_MOUSE_EVENT := mkMouseEvent
  { mouse_display : ptr;
    mouse_x : Z; mouse_y : Z; mouse_z : Z; mouse_w : Z;
    mouse_dx : Z; mouse_dy : Z; mouse_dz : Z; mouse_dw : Z;
    mouse_button : Z }.

Record ALLEGRO_TOUCH_EVENT := mkTouchEvent
  { touch_display : ptr;
    touch_id : Z;
    touch_x : float; touch_y : float;
    touch_primary : bool }.

Record ALLEGRO_KEYBOARD_EVENT := mkKeyboardEvent
  { keyboard_display : ptr;
    keyboard_keycode : Z;
    keyboard_unichar : Z }.

Record ALLEGRO_DISPLAY_EVENT := mkDisplayEvent { display_source : ptr }.

(** [ALLEGRO_EVENT] is a union; the translator reads the member that goes
    with the type. *)
Record ALLEGRO_EVENT := mkEvent
  { ev_type : ALLEGRO_EVENT_TYPE;
    ev_mouse : ALLEGRO_MOUSE_EVENT;
    ev_touch : ALLEGRO_TOUCH_EVENT;
    ev_keyboard : ALLEGRO_KEYBOARD_EVENT;
    ev_display : ALLEGRO_DISPLAY_EVENT }.

(** What an event leaves of the input state: the state after it, or the
    index of a store that fell outside the flag array it was aimed at. *)
Inductive Stored :=
| InBounds (io' : ImGuiIO)
| OutOfBounds (index : Z).

(** [a[i] = v] on a flag array. *)
Definition array_store (a : list bool) (i : Z) (v : bool)
  : option (list bool) :=
  if (0 <=? i) && (i <? Z.of_nat (length a))
  then Some (<[Z.to_nat i := v]> a) else None.

(** [a == b] on event types. *)
Definition is_type (a b : ALLEGRO_EVENT_TYPE) : bool := bool_decide (a = b).

(** *** ImGui_ImplAllegro5_ProcessEvent

    The flag returned, and what became of the input state.  The build
    without [ALLEGRO_UNSTABLE] is the one modelled. *)
Definition ImGui_ImplAllegro5_ProcessEvent (io : ImGuiIO)
    (bd : ImGui_ImplAllegro5_Data) (ev : ALLEGRO_EVENT) : bool * Stored :=
  match ev_type ev with
  | ALLEGRO_EVENT_MOUSE_AXES =>
      if mouse_display (ev_mouse ev) =? Display bd then
        let io := set_MouseWheel
                    (fadd (MouseWheel io)
                          (float_of_int (mouse_dz (ev_mouse ev)))) io in
        let io := set_MouseWheelH
                    (fsub (MouseWheelH io)
                          (float_of_int (mouse_dw (ev_mouse ev)))) io in
        let io := set_MousePos
                    (mkImVec2 (float_of_int (mouse_x (ev_mouse ev)))
                              (float_of_int (mouse_y (ev_mouse ev)))) io in
        (true, InBounds io)
      else (true, InBounds io)
  | ALLEGRO_EVENT_MOUSE_BUTTON_DOWN
  | ALLEGRO_EVENT_MOUSE_BUTTON_UP =>
      if (mouse_display (ev_mouse ev) =? Display bd)
         && (mouse_button (ev_mouse ev) <=? 5)
      then
        let index := to_uint (mouse_button (ev_mouse ev) - 1) in
        match array_store (MouseDown io) index
                (is_type (ev_type ev) ALLEGRO_EVENT_MOUSE_BUTTON_DOWN) with
        | Some flags => (true, InBounds (set_MouseDown flags io))
        | None => (true, OutOfBounds index)
        end
      else (true, InBounds io)
  | ALLEGRO_EVENT_TOUCH_MOVE =>
      if touch_display (ev_touch ev) =? Display bd then
        (true, InBounds
                 (set_MousePos (mkImVec2 (touch_x (ev_touch ev))
                                         (touch_y (ev_touch ev))) io))
      else (true, InBounds io)
  | ALLEGRO_EVENT_TOUCH_BEGIN
  | ALLEGRO_EVENT_TOUCH_END
  | ALLEGRO_EVENT_TOUCH_CANCEL =>
      if (touch_display (ev_touch ev) =? Display bd)
         && touch_primary (ev_touch ev)
      then
        match array_store (MouseDown io) 0
                (is_type (ev_type ev) ALLEGRO_EVENT_TOUCH_BEGIN) with
        | Some flags => (true, InBounds (set_MouseDown flags io))
        | None => (true, OutOfBounds 0)
        end
      else (true, InBounds io)
  | ALLEGRO_EVENT_MOUSE_LEAVE_DISPLAY =>
      if mouse_display (ev_mouse ev) =? Display bd then
        (true, InBounds
                 (set_MousePos (mkImVec2 (SFopp FLT_MAX) (SFopp FLT_MAX)) io))
      else (true, InBounds io)
  | ALLEGRO_EVENT_KEY_CHAR =>
      if keyboard_display (ev_keyboard ev) =? Display bd then
        if negb (keyboard_unichar (ev_keyboard ev) =? 0) then
          (true, InBounds
                   (AddInputCharacter
                      (to_uint (keyboard_unichar (ev_keyboard ev))) io))
        else (true, InBounds io)
      else (true, InBounds io)
  | ALLEGRO_EVENT_KEY_DOWN
  | ALLEGRO_EVENT_KEY_UP =>
      if keyboard_display (ev_keyboard ev) =? Display bd then
        let index := keyboard_keycode (ev_keyboard ev) in
        match array_store (KeysDown io) index
                (is_type (ev_type ev) ALLEGRO_EVENT_KEY_DOWN) with
        | Some flags => (true, InBounds (set_KeysDown flags io))
        | None => (true, OutOfBounds index)
        end
      else (true, InBounds io)
  | ALLEGRO_EVENT_DISPLAY_SWITCH_OUT =>
      if display_source (ev_display ev) =? Display bd then
        (true, InBounds (AddFocusEvent false io))
      else (true, InBounds io)
  | ALLEGRO_EVENT_DISPLAY_SWITCH_IN =>
      if display_source (ev_display ev) =? Display bd then
        (true, InBounds (AddFocusEvent true io))
      else (true, InBounds io)
  | _ => (false, InBounds io)
  end.

(** The event kinds the backend recognizes: mouse axes, mouse button
    down and up, touch move, touch begin, end and cancel, mouse leave
    display, key char, key down and up, display switch in and out. *)
Definition recognized (ty : ALLEGRO_EVENT_TYPE) : bool :=
  match ty with
  | ALLEGRO_EVENT_MOUSE_AXES
  | ALLEGRO_EVENT_MOUSE_BUTTON_DOWN | ALLEGRO_EVENT_MOUSE_BUTTON_UP
  | ALLEGRO_EVENT_TOUCH_MOVE
  | ALLEGRO_EVENT_TOUCH_BEGIN | ALLEGRO_EVENT_TOUCH_END
  | ALLEGRO_EVENT_TOUCH_CANCEL
  | ALLEGRO_EVENT_MOUSE_LEAVE_DISPLAY
  | ALLEGRO_EVENT_KEY_CHAR
  | ALLEGRO_EVENT_KEY_DOWN | ALLEGRO_EVENT_KEY_UP
  | ALLEGRO_EVENT_DISPLAY_SWITCH_IN | ALLEGRO_EVENT_DISPLAY_SWITCH_OUT => true
  | _ => false
  end.

(** The display an event is for: the [display] (for display events the
    [source]) field of the member that goes with its type. *)
Definition event_display (ev : ALLEGRO_EVENT) : ptr :=
  match ev_type ev with
  | ALLEGRO_EVENT_MOUSE_AXES | ALLEGRO_EVENT_MOUSE_BUTTON_DOWN
  | ALLEGRO_EVENT_MOUSE_BUTTON_UP | ALLEGRO_EVENT_MOUSE_ENTER_DISPLAY
  | ALLEGRO_EVENT_MOUSE_LEAVE_DISPLAY | ALLEGRO_EVENT_MOUSE_WARPED =>
      mouse_display (ev_mouse ev)
  | ALLEGRO_EVENT_TOUCH_MOVE | ALLEGRO_EVENT_TOUCH_BEGIN
  | ALLEGRO_EVENT_TOUCH_END | ALLEGRO_EVENT_TOUCH_CANCEL =>
      touch_display (ev_touch ev)
  | ALLEGRO_EVENT_KEY_CHAR | ALLEGRO_EVENT_KEY_DOWN | ALLEGRO_EVENT_KEY_UP =>
      keyboard_display (ev_keyboard ev)
  | _ => display_source (ev_display ev)
  end.

(** ** The per-frame refresh *)

Section Frame.

Context `{Platform}.

(** *** ImGui_ImplAllegro5_UpdateMouseCursor *)
Definition ImGui_ImplAllegro5_UpdateMouseCursor (w : World) : World :=
  if negb (Z.land (ConfigFlags (io w)) ImGuiConfigFlags_NoMouseCursorChange
           =? 0)
  then w
  else
    let imgui_cursor := MouseCursor (io w) in
    let hidden :=
      match imgui_cursor with ImGuiMouseCursor_None => true | _ => false end in
    if MouseDrawCursor (io w) || hidden then
      mkWorld (al_set_mouse_cursor (Display (bd w))
                 (MouseCursorInvisible (bd w)) (host w))
              (io w) (bd w)
    else
      let cursor_id :=
        match imgui_cursor with
        | ImGuiMouseCursor_TextInput => ALLEGRO_SYSTEM_MOUSE_CURSOR_EDIT
        | ImGuiMouseCursor_ResizeAll => ALLEGRO_SYSTEM_MOUSE_CURSOR_MOVE
        | ImGuiMouseCursor_ResizeNS => ALLEGRO_SYSTEM_MOUSE_CURSOR_RESIZE_N
        | ImGuiMouseCursor_ResizeEW => ALLEGRO_SYSTEM_MOUSE_CURSOR_RESIZE_E
        | ImGuiMouseCursor_ResizeNESW => ALLEGRO_SYSTEM_MOUSE_CURSOR_RESIZE_NE
        | ImGuiMouseCursor_ResizeNWSE => ALLEGRO_SYSTEM_MOUSE_CURSOR_RESIZE_NW
        | ImGuiMouseCursor_NotAllowed =>
            ALLEGRO_SYSTEM_MOUSE_CURSOR_UNAVAILABLE
        | _ => ALLEGRO_SYSTEM_MOUSE_CURSOR_DEFAULT
        end in
      mkWorld (al_set_system_mouse_cursor (Display (bd w)) cursor_id (host w))
              (io w) (bd w).

(** *** ImGui_ImplAllegro5_NewFrame *)
Definition ImGui_ImplAllegro5_NewFrame (w : World) : World :=
  let w :=
    if is_null (Texture (bd w))
    then snd (ImGui_ImplAllegro5_CreateDeviceObjects w) else w in
  let width := al_get_display_width (Display (bd w)) (host w) in
  let height := al_get_display_height (Display (bd w)) (host w) in
  let io' :=
    set_IO_DisplaySize (mkImVec2 (float_of_int width) (float_of_int height))
                       (io w) in
  let current_time := al_get_time (host w) in
  let io' :=
    set_DeltaTime
      (if dltb double_zero (Time (bd w))
       then float_of_double (dsub current_time (Time (bd w)))
       else fdiv (float_of_int 1) (float_of_int 60)) io' in
  let bd' := set_Time current_time (bd w) in
  let keys := keyboard (host w) in
  let io' := set_KeyCtrl (al_key_down keys ALLEGRO_KEY_LCTRL
                          || al_key_down keys ALLEGRO_KEY_RCTRL) io' in
  let io' := set_KeyShift (al_key_down keys ALLEGRO_KEY_LSHIFT
                           || al_key_down keys ALLEGRO_KEY_RSHIFT) io' in
  let io' := set_KeyAlt (al_key_down keys ALLEGRO_KEY_ALT
                         || al_key_down keys ALLEGRO_KEY_ALTGR) io' in
  let io' := set_KeySuper (al_key_down keys ALLEGRO_KEY_LWIN
                           || al_key_down keys ALLEGRO_KEY_RWIN) io' in
  ImGui_ImplAllegro5_UpdateMouseCursor (mkWorld (host w) io' bd').

End Frame.

(** ** A concrete platform

    Transforms kept as the terms that build them, a colour channel as its
    byte scaled by 2^-8, 16-bit indices and the constant values of the
    Allegro 5 and Dear ImGui headers; used where a statement is evaluated
    on an input. *)

Inductive SymbolicTransform :=
| sym_identity
| sym_orthographic (m : SymbolicTransform) (l t n r b f : float)
| sym_given (k : Z).

Definition channel (c : Z) : float :=
  match c with
  | Zpos p => S754_finite false p (-8)
  | _ => float_zero
  end.

Definition example_platform : Platform :=
  {| ALLEGRO_TRANSFORM := SymbolicTransform;
     al_identity_transform := sym_identity;
     al_orthographic_transform := sym_orthographic;
     al_map_rgba := fun r g b a =>
       mkColor (channel r) (channel g) (channel b) (channel a);
     uninit_vert :=
       mkImDrawVertAllegro (mkImVec2 float_zero float_zero)
         (mkImVec2 float_zero float_zero)
         (mkColor float_zero float_zero float_zero float_zero);
     uninit_int := 0;
     sizeof_ImDrawIdx := 2;
     ALLEGRO_MEMORY_BITMAP := 1;
     ALLEGRO_MIN_LINEAR := 64;
     ALLEGRO_MAG_LINEAR := 128;
     ALLEGRO_PIXEL_FORMAT_ABGR_8888_LE := 25;
     ALLEGRO_KEY_LCTRL := 217;
     ALLEGRO_KEY_RCTRL := 218;
     ALLEGRO_KEY_LSHIFT := 215;
     ALLEGRO_KEY_RSHIFT := 216;
     ALLEGRO_KEY_ALT := 219;
     ALLEGRO_KEY_ALTGR := 220;
     ALLEGRO_KEY_LWIN := 221;
     ALLEGRO_KEY_RWIN := 222;
     ImGuiConfigFlags_NoMouseCursorChange := 32 |}.

Definition vec2 (a b : Z) : ImVec2 := mkImVec2 (float_of_int a) (float_of_int b).
Definition vec4 (a b c d : Z) : ImVec4 :=
  mkImVec4 (float_of_int a) (float_of_int b) (float_of_int c) (float_of_int d).

(** Inputs on which statements are evaluated. *)

Definition example_target (b : Blender) : @Target example_platform :=
  @mkTarget example_platform (sym_given 1) (sym_given 2)
            (mkClip 0 0 640 480) b [].

Definition default_blender : Blender :=
  mkBlender ALLEGRO_ADD ALLEGRO_ONE ALLEGRO_INVERSE_ALPHA
            ALLEGRO_ADD ALLEGRO_ONE ALLEGRO_INVERSE_ALPHA.

(** A blender whose alpha part differs from its colour part, as
    [al_set_separate_blender] installs it. *)
Definition separate_blender : Blender :=
  mkBlender ALLEGRO_ADD ALLEGRO_ALPHA ALLEGRO_INVERSE_ALPHA
            ALLEGRO_ADD ALLEGRO_ONE ALLEGRO_ONE.

Definition example_scratch : Scratch := mkScratch [] [].

Definition example_vertices : list ImDrawVert :=
  [ mkImDrawVert (vec2 0 0) (vec2 0 0) 0xFF0000FF;
    mkImDrawVert (vec2 40 0) (vec2 1 0) 0xFF00FF00;
    mkImDrawVert (vec2 0 40) (vec2 0 1) 0x80FF0000 ].

(** A command whose rectangle is degenerate once moved (right edge 5 left
    of left edge 10), and a command with a proper rectangle. *)
Definition degenerate_cmd : @ImDrawCmd example_platform :=
  @mkImDrawCmd example_platform (vec4 10 10 5 20) 7 3 NoCallback.
Definition proper_cmd : @ImDrawCmd example_platform :=
  @mkImDrawCmd example_platform (vec4 0 0 50 50) 7 3 NoCallback.

Definition example_list (cmds : list (@ImDrawCmd example_platform))
  : @ImDrawList example_platform :=
  mkImDrawList example_vertices [0; 1; 2; 0; 1; 2] cmds.

Definition example_draw_data (size : ImVec2)
    (lists : list (@ImDrawList example_platform))
  : @ImDrawData example_platform :=
  mkImDrawData (vec2 0 0) size lists.

Definition example_io : ImGuiIO :=
  mkIO 0 (vec2 640 480) float_zero false 512 64 NULL (vec2 10 10)
       [false; false; false; false; false] float_zero float_zero
       false false false false (replicate 512 false) [] true
       ImGuiMouseCursor_Arrow.

(** Backend data bound to the display at address 100, with the texture
    and the invisible cursor given. *)
Definition example_bd (texture cursor : ptr) (time : double)
  : ImGui_ImplAllegro5_Data :=
  mkData 100 texture time cursor 9 NULL.

(** A device with bitmaps 20 and 21 and cursor 30 alive, the script
    [ans] and the clock at [now]. *)
Definition example_device (ans : list bool) (now : double) : Device :=
  mkDevice 0 0 [20; 21] [30] 1000 ans [] 640 480 now [].

Definition example_world (ans : list bool) (texture cursor : ptr)
    (time now : double) : World :=
  mkWorld (example_device ans now) example_io (example_bd texture cursor time).

Definition double_of_int (z : Z) : double := binary_normalize 53 1024 z 0 false.

Definition mouse_event (ty : ALLEGRO_EVENT_TYPE) (display : ptr) (button : Z)
  : ALLEGRO_EVENT :=
  mkEvent ty (mkMouseEvent display 3 4 0 0 0 0 1 0 button)
          (mkTouchEvent display 0 float_zero float_zero true)
          (mkKeyboardEvent display 65 97) (mkDisplayEvent display).

(** The range of each [al_draw_prim] call of a log. *)
Definition slices (log : list DrawPrim) : list (Z * Z) :=
  map (fun p => (prim_start p, prim_end p)) log.


(** ** What a batch should draw

    The host vertex array of a batch, read off its index buffer, and the
    primitives of its commands: each command that is not a callback draws
    the range that starts where the commands before it end. *)

Section Expected.

Context `{Platform}.

Definition converted_vertices (cmd_list : ImDrawList)
  : list ImDrawVertAllegro :=
  omap (fun idx => convert_vert <$> ImVector_at (VtxBuffer cmd_list) idx)
       (IdxBuffer cmd_list).



Definition indices_in_range (cmd_list : ImDrawList) : Prop :=
  Forall (fun idx => 0 <= idx < Z.of_nat (length (VtxBuffer cmd_list)))
         (IdxBuffer cmd_list).


End Expected.

(** A user callback that replaces the whole render state, and commands
    that run it and that reset the render state. *)
Definition scramble (t : @Target example_platform) : @Target example_platform :=
  @mkTarget example_platform (sym_given 77) (sym_given 78) (mkClip 1 2 3 4)
            separate_blender (drawn t).

Definition scramble_cmd : @ImDrawCmd example_platform :=
  @mkImDrawCmd example_platform (vec4 0 0 50 50) 0 0 (UserFunction scramble).




(** ** Well-formed devices and owned handles *)

(** Every bitmap and cursor alive is at an address the device has handed
    out, below [next_handle]. *)
Definition handles_below (d : Device) : Prop :=
  0 < next_handle d
  /\ Forall (fun p => p < next_handle d) (bitmaps d)
  /\ Forall (fun p => p < next_handle d) (cursors d).

(** The resource a handle stands for, if any: nothing for [NULL]. *)
Definition owned (p : ptr) : list ptr := if is_null p then [] else [p].

(** ** Further inputs *)

(** A keyboard event for [display] with the key code and the character
    code given, and a touch event at ([x], [y]). *)
Definition key_event (ty : ALLEGRO_EVENT_TYPE) (display : ptr)
    (keycode unichar : Z) : ALLEGRO_EVENT :=
  mkEvent ty (mkMouseEvent display 3 4 0 0 0 0 1 0 1)
          (mkTouchEvent display 0 float_zero float_zero true)
          (mkKeyboardEvent display keycode unichar) (mkDisplayEvent display).

Definition touch_event (ty : ALLEGRO_EVENT_TYPE) (display : ptr)
    (x y : Z) (primary : bool) : ALLEGRO_EVENT :=
  mkEvent ty (mkMouseEvent display 3 4 0 0 0 0 1 0 1)
          (mkTouchEvent display 0 (float_of_int x) (float_of_int y) primary)
          (mkKeyboardEvent display 65 97) (mkDisplayEvent display).

(** The example input/output state with Dear ImGui wanting the cursor
    shape [c]. *)
Definition example_io_cursor (c : ImGuiMouseCursor) : ImGuiIO :=
  mkIO 0 (vec2 640 480) float_zero false 512 64 NULL (vec2 10 10)
       [false; false; false; false; false] float_zero float_zero
       false false false false (replicate 512 false) [] true c.

Definition example_world_cursor (c : ImGuiMouseCursor) : World :=
  mkWorld (example_device [] double_zero) (example_io_cursor c)
          (example_bd 21 30 double_zero).

(** ** The life cycle: initialisation, shutdown and the clipboard hooks *)

(** The keys that [ImGui_ImplAllegro5_Init] maps, by their Dear ImGui
    names, and the Allegro key constants it maps them to, by their names
    without the [ALLEGRO_] prefix. *)
Inductive ImGuiKey :=
  ImGuiKey_Tab | ImGuiKey_LeftArrow | ImGuiKey_RightArrow | ImGuiKey_UpArrow
| ImGuiKey_DownArrow | ImGuiKey_PageUp | ImGuiKey_PageDown | ImGuiKey_Home
| ImGuiKey_End | ImGuiKey_Insert | ImGuiKey_Delete | ImGuiKey_Backspace
| ImGuiKey_Space | ImGuiKey_Enter | ImGuiKey_Escape | ImGuiKey_Apostrophe
| ImGuiKey_Comma | ImGuiKey_Minus | ImGuiKey_Period | ImGuiKey_Slash
| ImGuiKey_Semicolon | ImGuiKey_Equal | ImGuiKey_LeftBracket
| ImGuiKey_Backslash | ImGuiKey_RightBracket | ImGuiKey_GraveAccent
| ImGuiKey_CapsLock | ImGuiKey_ScrollLock | ImGuiKey_NumLock
| ImGuiKey_PrintScreen | ImGuiKey_Pause | ImGuiKey_KeyPad0
| ImGuiKey_KeyPad1 | ImGuiKey_KeyPad2 | ImGuiKey_KeyPad3 | ImGuiKey_KeyPad4
| ImGuiKey_KeyPad5 | ImGuiKey_KeyPad6 | ImGuiKey_KeyPad7 | ImGuiKey_KeyPad8
| ImGuiKey_KeyPad9 | ImGuiKey_KeyPadDecimal | ImGuiKey_KeyPadDivide
| ImGuiKey_KeyPadMultiply | ImGuiKey_KeyPadSubtract | ImGuiKey_KeyPadAdd
| ImGuiKey_KeyPadEnter | ImGuiKey_KeyPadEqual | ImGuiKey_LeftShift
| ImGuiKey_LeftControl | ImGuiKey_LeftAlt | ImGuiKey_LeftSuper
| ImGuiKey_RightShift | ImGuiKey_RightControl | ImGuiKey_RightAlt
| ImGuiKey_RightSuper | ImGuiKey_Menu | ImGuiKey_0 | ImGuiKey_1 | ImGuiKey_2
| ImGuiKey_3 | ImGuiKey_4 | ImGuiKey_5 | ImGuiKey_6 | ImGuiKey_7
| ImGuiKey_8 | ImGuiKey_9 | ImGuiKey_A | ImGuiKey_B | ImGuiKey_C
| ImGuiKey_D | ImGuiKey_E | ImGuiKey_F | ImGuiKey_G | ImGuiKey_H
| ImGuiKey_I | ImGuiKey_J | ImGuiKey_K | ImGuiKey_L | ImGuiKey_M
| ImGuiKey_N | ImGuiKey_O | ImGuiKey_P | ImGuiKey_Q | ImGuiKey_R
| ImGuiKey_S | ImGuiKey_T | ImGuiKey_U | ImGuiKey_V | ImGuiKey_W
| ImGuiKey_X | ImGuiKey_Y | ImGuiKey_Z | ImGuiKey_F1 | ImGuiKey_F2
| ImGuiKey_F3 | ImGuiKey_F4 | ImGuiKey_F5 | ImGuiKey_F6 | ImGuiKey_F7
| ImGuiKey_F8 | ImGuiKey_F9 | ImGuiKey_F10 | ImGuiKey_F11 | ImGuiKey_F12.

Inductive AllegroKeyName :=
  KEY_TAB | KEY_LEFT | KEY_RIGHT | KEY_UP | KEY_DOWN | KEY_PGUP | KEY_PGDN
| KEY_HOME | KEY_END | KEY_INSERT | KEY_DELETE | KEY_BACKSPACE | KEY_SPACE
| KEY_ENTER | KEY_ESCAPE | KEY_QUOTE | KEY_COMMA | KEY_MINUS | KEY_FULLSTOP
| KEY_SLASH | KEY_SEMICOLON | KEY_EQUALS | KEY_OPENBRACE | KEY_BACKSLASH
| KEY_CLOSEBRACE | KEY_TILDE | KEY_CAPSLOCK | KEY_SCROLLLOCK | KEY_NUMLOCK
| KEY_PRINTSCREEN | KEY_PAUSE | KEY_PAD_0 | KEY_PAD_1 | KEY_PAD_2
| KEY_PAD_3 | KEY_PAD_4 | KEY_PAD_5 | KEY_PAD_6 | KEY_PAD_7 | KEY_PAD_8
| KEY_PAD_9 | KEY_PAD_DELETE | KEY_PAD_SLASH | KEY_PAD_ASTERISK
| KEY_PAD_MINUS | KEY_PAD_PLUS | KEY_PAD_ENTER | KEY_PAD_EQUALS | KEY_LSHIFT
| KEY_LCTRL | KEY_ALT | KEY_LWIN | KEY_RSHIFT | KEY_RCTRL | KEY_ALTGR
| KEY_RWIN | KEY_MENU | KEY_0 | KEY_1 | KEY_2 | KEY_3 | KEY_4 | KEY_5
| KEY_6 | KEY_7 | KEY_8 | KEY_9 | KEY_A | KEY_B | KEY_C | KEY_D | KEY_E
| KEY_F | KEY_G | KEY_H | KEY_I | KEY_J | KEY_K | KEY_L | KEY_M | KEY_N
| KEY_O | KEY_P | KEY_Q | KEY_R | KEY_S | KEY_T | KEY_U | KEY_V | KEY_W
| KEY_X | KEY_Y | KEY_Z | KEY_F1 | KEY_F2 | KEY_F3 | KEY_F4 | KEY_F5
| KEY_F6 | KEY_F7 | KEY_F8 | KEY_F9 | KEY_F10 | KEY_F11 | KEY_F12.

#[global] Instance ImGuiKey_eq_dec : EqDecision ImGuiKey.
Proof. solve_decision. Defined.

#[global] Instance AllegroKeyName_eq_dec : EqDecision AllegroKeyName.
Proof. solve_decision. Defined.

(** The statements [io.KeyMap[ImGuiKey_...] = ALLEGRO_KEY_...;] of
    [ImGui_ImplAllegro5_Init], in the order they are written. *)
Definition key_assignments : list (ImGuiKey * AllegroKeyName) :=
  [ (ImGuiKey_Tab, KEY_TAB); (ImGuiKey_LeftArrow, KEY_LEFT);
    (ImGuiKey_RightArrow, KEY_RIGHT); (ImGuiKey_UpArrow, KEY_UP);
    (ImGuiKey_DownArrow, KEY_DOWN); (ImGuiKey_PageUp, KEY_PGUP);
    (ImGuiKey_PageDown, KEY_PGDN); (ImGuiKey_Home, KEY_HOME);
    (ImGuiKey_End, KEY_END); (ImGuiKey_Insert, KEY_INSERT);
    (ImGuiKey_Delete, KEY_DELETE); (ImGuiKey_Backspace, KEY_BACKSPACE);
    (ImGuiKey_Space, KEY_SPACE); (ImGuiKey_Enter, KEY_ENTER);
    (ImGuiKey_Escape, KEY_ESCAPE); (ImGuiKey_Apostrophe, KEY_QUOTE);
    (ImGuiKey_Comma, KEY_COMMA); (ImGuiKey_Minus, KEY_MINUS);
    (ImGuiKey_Period, KEY_FULLSTOP); (ImGuiKey_Slash, KEY_SLASH);
    (ImGuiKey_Semicolon, KEY_SEMICOLON); (ImGuiKey_Equal, KEY_EQUALS);
    (ImGuiKey_LeftBracket, KEY_OPENBRACE);
    (ImGuiKey_Backslash, KEY_BACKSLASH);
    (ImGuiKey_RightBracket, KEY_CLOSEBRACE);
    (ImGuiKey_GraveAccent, KEY_TILDE); (ImGuiKey_CapsLock, KEY_CAPSLOCK);
    (ImGuiKey_ScrollLock, KEY_SCROLLLOCK); (ImGuiKey_NumLock, KEY_NUMLOCK);
    (ImGuiKey_PrintScreen, KEY_PRINTSCREEN); (ImGuiKey_Pause, KEY_PAUSE);
    (ImGuiKey_KeyPad0, KEY_PAD_0); (ImGuiKey_KeyPad1, KEY_PAD_1);
    (ImGuiKey_KeyPad2, KEY_PAD_2); (ImGuiKey_KeyPad3, KEY_PAD_3);
    (ImGuiKey_KeyPad4, KEY_PAD_4); (ImGuiKey_KeyPad5, KEY_PAD_5);
    (ImGuiKey_KeyPad6, KEY_PAD_6); (ImGuiKey_KeyPad7, KEY_PAD_7);
    (ImGuiKey_KeyPad8, KEY_PAD_8); (ImGuiKey_KeyPad9, KEY_PAD_9);
    (ImGuiKey_KeyPadDecimal, KEY_PAD_DELETE);
    (ImGuiKey_KeyPadDivide, KEY_PAD_SLASH);
    (ImGuiKey_KeyPadMultiply, KEY_PAD_ASTERISK);
    (ImGuiKey_KeyPadSubtract, KEY_PAD_MINUS);
    (ImGuiKey_KeyPadAdd, KEY_PAD_PLUS);
    (ImGuiKey_KeyPadEnter, KEY_PAD_ENTER);
    (ImGuiKey_KeyPadEqual, KEY_PAD_EQUALS); (ImGuiKey_LeftShift, KEY_LSHIFT);
    (ImGuiKey_LeftControl, KEY_LCTRL); (ImGuiKey_LeftAlt, KEY_ALT);
    (ImGuiKey_LeftSuper, KEY_LWIN); (ImGuiKey_RightShift, KEY_RSHIFT);
    (ImGuiKey_RightControl, KEY_RCTRL); (ImGuiKey_RightAlt, KEY_ALTGR);
    (ImGuiKey_RightSuper, KEY_RWIN); (ImGuiKey_Menu, KEY_MENU);
    (ImGuiKey_0, KEY_0); (ImGuiKey_1, KEY_1); (ImGuiKey_2, KEY_2);
    (ImGuiKey_3, KEY_3); (ImGuiKey_4, KEY_4); (ImGuiKey_5, KEY_5);
    (ImGuiKey_6, KEY_6); (ImGuiKey_7, KEY_7); (ImGuiKey_8, KEY_8);
    (ImGuiKey_9, KEY_9); (ImGuiKey_A, KEY_A); (ImGuiKey_B, KEY_B);
    (ImGuiKey_C, KEY_C); (ImGuiKey_D, KEY_D); (ImGuiKey_E, KEY_E);
    (ImGuiKey_F, KEY_F); (ImGuiKey_G, KEY_G); (ImGuiKey_H, KEY_H);
    (ImGuiKey_I, KEY_I); (ImGuiKey_J, KEY_J); (ImGuiKey_K, KEY_K);
    (ImGuiKey_L, KEY_L); (ImGuiKey_M, KEY_M); (ImGuiKey_N, KEY_N);
    (ImGuiKey_O, KEY_O); (ImGuiKey_P, KEY_P); (ImGuiKey_Q, KEY_Q);
    (ImGuiKey_R, KEY_R); (ImGuiKey_S, KEY_S); (ImGuiKey_T, KEY_T);
    (ImGuiKey_U, KEY_U); (ImGuiKey_V, KEY_V); (ImGuiKey_W, KEY_W);
    (ImGuiKey_X, KEY_X); (ImGuiKey_Y, KEY_Y); (ImGuiKey_Z, KEY_Z);
    (ImGuiKey_F1, KEY_F1); (ImGuiKey_F2, KEY_F2); (ImGuiKey_F3, KEY_F3);
    (ImGuiKey_F4, KEY_F4); (ImGuiKey_F5, KEY_F5); (ImGuiKey_F6, KEY_F6);
    (ImGuiKey_F7, KEY_F7); (ImGuiKey_F8, KEY_F8); (ImGuiKey_F9, KEY_F9);
    (ImGuiKey_F10, KEY_F10); (ImGuiKey_F11, KEY_F11);
    (ImGuiKey_F12, KEY_F12) ].

(** What the headers and the build configuration supply for
    initialisation: the backend flag, whether Allegro is recent enough to
    have a clipboard ([ALLEGRO_HAS_CLIPBOARD]), and the values of the key
    constants other than the eight modifier keys. *)
Class Headers := mkHeaders
  { ImGuiBackendFlags_HasMouseCursors : Z;
    ALLEGRO_HAS_CLIPBOARD : bool;
    ALLEGRO_KEY : AllegroKeyName -> Z }.

(** *** The host: vertex declarations, text buffers and the clipboard *)

(** The device with the vertex declarations alive, the text buffers that
    [al_get_clipboard_text] has handed out and [al_free] has not released
    (address and content), and the text on the system clipboard.  Calls
    on vertex declarations and text buffers are seen through the
    resources alive; they are not in the call log. *)
Record Host := mkHost
  { device : Device;
    vertex_decls : list ptr;
    text_buffers : list (ptr * string);
    clipboard_text : option string }.

(** The device once a call has taken a script entry and possibly an
    address. *)
Definition advance (next : ptr) (ans : list bool) (d : Device) : Device :=
  mkDevice (new_bitmap_flags d) (new_bitmap_format d) (bitmaps d) (cursors d)
    next ans (calls d) (display_width d) (display_height d) (clock d)
    (keyboard d).

Definition al_create_vertex_decl (h : Host) : ptr * Host :=
  let d := device h in
  if hd true (answers d) then
    let p := next_handle d in
    (p, mkHost (advance (p + 1) (tl (answers d)) d) (vertex_decls h ++ [p])
          (text_buffers h) (clipboard_text h))
  else
    (NULL, mkHost (advance (next_handle d) (tl (answers d)) d)
             (vertex_decls h) (text_buffers h) (clipboard_text h)).

Definition al_destroy_vertex_decl (decl : ptr) (h : Host) : Host :=
  mkHost (device h) (release decl (vertex_decls h)) (text_buffers h)
         (clipboard_text h).

(** [al_get_clipboard_text]: [NULL] when the clipboard holds no text or
    the host fails, otherwise a new buffer with a copy of the text. *)
Definition al_get_clipboard_text (display : ptr) (h : Host) : ptr * Host :=
  let d := device h in
  match clipboard_text h with
  | None => (NULL, h)
  | Some text =>
      if hd true (answers d) then
        let p := next_handle d in
        (p, mkHost (advance (p + 1) (tl (answers d)) d) (vertex_decls h)
              (text_buffers h ++ [(p, text)]) (clipboard_text h))
      else
        (NULL, mkHost (advance (next_handle d) (tl (answers d)) d)
                 (vertex_decls h) (text_buffers h) (clipboard_text h))
  end.

Definition al_set_clipboard_text (display : ptr) (text : string) (h : Host)
  : bool * Host :=
  let d := device h in
  if hd true (answers d) then
    (true, mkHost (advance (next_handle d) (tl (answers d)) d)
             (vertex_decls h) (text_buffers h) (Some text))
  else
    (false, mkHost (advance (next_handle d) (tl (answers d)) d)
              (vertex_decls h) (text_buffers h) (clipboard_text h)).

Fixpoint release_text (p : ptr) (l : list (ptr * string))
  : list (ptr * string) :=
  match l with
  | [] => []
  | b :: l' => if fst b =? p then release_text p l' else b :: release_text p l'
  end.

Definition al_free (p : ptr) (h : Host) : Host :=
  mkHost (device h) (vertex_decls h) (release_text p (text_buffers h))
         (clipboard_text h).

(** The text a [char*] points to, if it points to a buffer alive. *)
Definition text_at (p : ptr) (h : Host) : option string :=
  if is_null p then None
  else snd <$> find (fun b => fst b =? p) (text_buffers h).

(** *** Dear ImGui's side *)

(** The functions a clipboard hook can point to. *)
Inductive ClipboardFn :=
| fn_ImGui_ImplAllegro5_SetClipboardText
| fn_ImGui_ImplAllegro5_GetClipboardText
| fn_other (address : ptr).

(** The fields of [ImGuiIO] that only initialisation and shutdown write.
    [BackendPlatformUserData] is the backend data it points to, [None]
    for [NULL]; likewise the two names and the two hooks. *)
Record BackendIO := mkBackendIO
  { BackendPlatformUserData : option ImGui_ImplAllegro5_Data;
    BackendPlatformName : option string;
    BackendRendererName : option string;
    BackendFlags : Z;
    KeyMap : ImGuiKey -> Z;
    SetClipboardTextFn : option ClipboardFn;
    GetClipboardTextFn : option ClipboardFn;
    ClipboardUserData : ptr }.

(** The process: the host, whether there is a current Dear ImGui context,
    and the context's input/output state. *)
Record Process := mkProcess
  { machine : Host;
    has_context : bool;
    imgui_io : ImGuiIO;
    backend_io : BackendIO }.

(** How a call ends: it returns, or an [IM_ASSERT] fails, or [bd] is
    dereferenced while [NULL], or a flag is stored outside its array, or
    [ImGui::GetIO] finds no current context. *)
Inductive Outcome (A : Type) : Type :=
| Returns (a : A)
| AssertionFailure (message : string)
| NullDereference
| OutOfBoundsStore (index : Z)
| NoCurrentContext.

Arguments Returns {A} a.
Arguments AssertionFailure {A} message.
Arguments NullDereference {A}.
Arguments OutOfBoundsStore {A} index.
Arguments NoCurrentContext {A}.

(** Modelled from the spec: [ImGui::GetIO] of imgui.cpp, which is not
    among the sources; a call without a current context is a contract
    violation, and what follows the call is not run. *)
Definition ImGui_GetIO {A} (p : Process) (rest : Outcome A) : Outcome A :=
  if has_context p then rest else NoCurrentContext.

Definition set_Display (v : ptr) (b : ImGui_ImplAllegro5_Data) :=
  mkData v (Texture b) (Time b) (MouseCursorInvisible b) (VertexDecl b)
         (ClipboardTextData b).
Definition set_VertexDecl (v : ptr) (b : ImGui_ImplAllegro5_Data) :=
  mkData (Display b) (Texture b) (Time b) (MouseCursorInvisible b) v
         (ClipboardTextData b).
Definition set_ClipboardTextData (v : ptr) (b : ImGui_ImplAllegro5_Data) :=
  mkData (Display b) (Texture b) (Time b) (MouseCursorInvisible b)
         (VertexDecl b) v.

Definition set_device (d : Device) (h : Host) : Host :=
  mkHost d (vertex_decls h) (text_buffers h) (clipboard_text h).

Definition set_BackendPlatformUserData
    (v : option ImGui_ImplAllegro5_Data) (b : BackendIO) : BackendIO :=
  mkBackendIO v (BackendPlatformName b) (BackendRendererName b)
    (BackendFlags b) (KeyMap b) (SetClipboardTextFn b) (GetClipboardTextFn b)
    (ClipboardUserData b).

(** *** ImGui_ImplAllegro5_GetBackendData *)
Definition ImGui_ImplAllegro5_GetBackendData (p : Process)
  : option ImGui_ImplAllegro5_Data :=
  if has_context p then BackendPlatformUserData (backend_io p) else None.

(** The state the functions that work under a backend see, and the
    process once such a function has run. *)
Definition world_of (p : Process) (b : ImGui_ImplAllegro5_Data) : World :=
  mkWorld (device (machine p)) (imgui_io p) b.

Definition put_world (w : World) (p : Process) : Process :=
  mkProcess (set_device (host w) (machine p)) (has_context p) (io w)
            (set_BackendPlatformUserData (Some (bd w)) (backend_io p)).

Definition put_host (h : Host) (b : ImGui_ImplAllegro5_Data) (p : Process)
  : Process :=
  mkProcess h (has_context p) (imgui_io p)
            (set_BackendPlatformUserData (Some b) (backend_io p)).

(** *** ImGui_ImplAllegro5_GetClipboardText and
        ImGui_ImplAllegro5_SetClipboardText

    The functions of a build with [ALLEGRO_HAS_CLIPBOARD]. *)
Definition ImGui_ImplAllegro5_GetClipboardText (p : Process)
  : Outcome (ptr * Process) :=
  match ImGui_ImplAllegro5_GetBackendData p with
  | None => NullDereference
  | Some b =>
      let h := machine p in
      let h := if negb (is_null (ClipboardTextData b))
               then al_free (ClipboardTextData b) h else h in
      let '(text, h) := al_get_clipboard_text (Display b) h in
      let b := set_ClipboardTextData text b in
      Returns (ClipboardTextData b, put_host h b p)
  end.

Definition ImGui_ImplAllegro5_SetClipboardText (text : string) (p : Process)
  : Outcome Process :=
  match ImGui_ImplAllegro5_GetBackendData p with
  | None => NullDereference
  | Some b =>
      let '(_, h) := al_set_clipboard_text (Display b) text (machine p) in
      Returns (put_host h b p)
  end.

Section Lifecycle.

Context `{Platform} `{Headers}.

(** The value of an Allegro key constant. *)
Definition keycode (k : AllegroKeyName) : Z :=
  match k with
  | KEY_LCTRL => ALLEGRO_KEY_LCTRL
  | KEY_RCTRL => ALLEGRO_KEY_RCTRL
  | KEY_LSHIFT => ALLEGRO_KEY_LSHIFT
  | KEY_RSHIFT => ALLEGRO_KEY_RSHIFT
  | KEY_ALT => ALLEGRO_KEY_ALT
  | KEY_ALTGR => ALLEGRO_KEY_ALTGR
  | KEY_LWIN => ALLEGRO_KEY_LWIN
  | KEY_RWIN => ALLEGRO_KEY_RWIN
  | _ => ALLEGRO_KEY k
  end.

(** [io.KeyMap[k] = a;] *)
Definition assign_key (m : ImGuiKey -> Z) (ka : ImGuiKey * AllegroKeyName)
  : ImGuiKey -> Z :=
  fun k => if decide (k = fst ka) then keycode (snd ka) else m k.

(** *** ImGui_ImplAllegro5_Init

    The vertex declaration is asked for with the three elements of
    [ImDrawVertAllegro]; what comes back is stored without a test. *)
Definition ImGui_ImplAllegro5_Init (display : ptr) (p : Process)
  : Outcome (bool * Process) :=
  ImGui_GetIO p
    (match BackendPlatformUserData (backend_io p) with
    | Some _ => AssertionFailure "Already initialized a platform backend!"
    | None =>
        let bio := backend_io p in
        let bd := ImGui_ImplAllegro5_Data_new in
        let name := Some "imgui_impl_allegro5" in
        let flags := Z.lor (BackendFlags bio)
                           ImGuiBackendFlags_HasMouseCursors in
        let bd := set_Display display bd in
        let '(decl, h) := al_create_vertex_decl (machine p) in
        let bd := set_VertexDecl decl bd in
        let key_map := foldl assign_key (KeyMap bio) key_assignments in
        let io :=
          set_MousePos (mkImVec2 (SFopp FLT_MAX) (SFopp FLT_MAX))
                       (imgui_io p) in
        let bio :=
          if ALLEGRO_HAS_CLIPBOARD then
            mkBackendIO (Some bd) name name flags key_map
              (Some fn_ImGui_ImplAllegro5_SetClipboardText)
              (Some fn_ImGui_ImplAllegro5_GetClipboardText) NULL
          else
            mkBackendIO (Some bd) name name flags key_map
              (SetClipboardTextFn bio) (GetClipboardTextFn bio)
              (ClipboardUserData bio) in
        Returns (true, mkProcess h (has_context p) io bio)
    end).

End Lifecycle.

(** *** ImGui_ImplAllegro5_Shutdown *)
Definition ImGui_ImplAllegro5_Shutdown (p : Process) : Outcome Process :=
  match ImGui_ImplAllegro5_GetBackendData p with
  | None =>
      AssertionFailure "No platform backend to shutdown, or already shutdown?"
  | Some b =>
      let w := ImGui_ImplAllegro5_InvalidateDeviceObjects (world_of p b) in
      let h := set_device (host w) (machine p) in
      let h := if negb (is_null (VertexDecl (bd w)))
               then al_destroy_vertex_decl (VertexDecl (bd w)) h else h in
      let h := if negb (is_null (ClipboardTextData (bd w)))
               then al_free (ClipboardTextData (bd w)) h else h in
      let bio := backend_io p in
      Returns
        (mkProcess h (has_context p) (io w)
           (mkBackendIO None None None (BackendFlags bio) (KeyMap bio)
              (SetClipboardTextFn bio) (GetClipboardTextFn bio)
              (ClipboardUserData bio)))
  end.

(** *** The other functions, as the application calls them

    [ImGui_ImplAllegro5_NewFrame] asserts that there is a backend;
    [ImGui_ImplAllegro5_InvalidateDeviceObjects] and, for the events it
    has a case for, [ImGui_ImplAllegro5_ProcessEvent] dereference it. *)
Definition entry_InvalidateDeviceObjects (p : Process) : Outcome Process :=
  match ImGui_ImplAllegro5_GetBackendData p with
  | None => NullDereference
  | Some b =>
      Returns (put_world
                 (ImGui_ImplAllegro5_InvalidateDeviceObjects (world_of p b)) p)
  end.

Definition entry_ProcessEvent (ev : ALLEGRO_EVENT) (p : Process)
  : Outcome (bool * Process) :=
  ImGui_GetIO p
    (match ImGui_ImplAllegro5_GetBackendData p with
    | None =>
        if recognized (ev_type ev) then NullDereference
        else Returns (false, p)
    | Some b =>
        match ImGui_ImplAllegro5_ProcessEvent (imgui_io p) b ev with
        | (consumed, InBounds io') =>
            Returns (consumed,
                     mkProcess (machine p) (has_context p) io' (backend_io p))
        | (_, OutOfBounds index) => OutOfBoundsStore index
        end
    end).

Definition entry_NewFrame `{Platform} (p : Process) : Outcome Process :=
  match ImGui_ImplAllegro5_GetBackendData p with
  | None => AssertionFailure "Did you call ImGui_ImplAllegro5_Init()?"
  | Some b =>
      Returns (put_world (ImGui_ImplAllegro5_NewFrame (world_of p b)) p)
  end.

(** *** Sessions *)

(** What an application does between initialisation and shutdown. *)
Inductive Request :=
| do_NewFrame
| do_ProcessEvent (ev : ALLEGRO_EVENT)
| do_GetClipboardText
| do_SetClipboardText (text : string)
| do_InvalidateDeviceObjects.

Definition then_ {A B} (o : Outcome A) (f : A -> Outcome B) : Outcome B :=
  match o with
  | Returns a => f a
  | AssertionFailure message => AssertionFailure message
  | NullDereference => NullDereference
  | OutOfBoundsStore index => OutOfBoundsStore index
  | NoCurrentContext => NoCurrentContext
  end.

Definition serve `{Platform} (r : Request) (p : Process) : Outcome Process :=
  match r with
  | do_NewFrame => entry_NewFrame p
  | do_ProcessEvent ev =>
      then_ (entry_ProcessEvent ev p) (fun '(_, p') => Returns p')
  | do_GetClipboardText =>
      then_ (ImGui_ImplAllegro5_GetClipboardText p)
            (fun '(_, p') => Returns p')
  | do_SetClipboardText text => ImGui_ImplAllegro5_SetClipboardText text p
  | do_InvalidateDeviceObjects => entry_InvalidateDeviceObjects p
  end.

Fixpoint serve_all `{Platform} (rs : list Request) (p : Process)
  : Outcome Process :=
  match rs with
  | [] => Returns p
  | r :: rs' => then_ (serve r p) (serve_all rs')
  end.

(** The text a keyboard delivers: one key-char event for [display] for
    each character code. *)
Definition key_char_requests (display : ptr) (unichars : list Z)
  : list Request :=
  map (fun c => do_ProcessEvent (key_event ALLEGRO_EVENT_KEY_CHAR display 0 c))
      unichars.

(** Initialisation for [display], the requests, then shutdown. *)
Definition session `{Platform} `{Headers} (display : ptr)
    (rs : list Request) (p : Process) : Outcome Process :=
  then_ (ImGui_ImplAllegro5_Init display p)
        (fun '(_, p1) => then_ (serve_all rs p1) ImGui_ImplAllegro5_Shutdown).

(** Every handle alive is below the next address the host hands out. *)
Definition host_ok (h : Host) : Prop :=
  handles_below (device h)
  /\ Forall (fun q => q < next_handle (device h)) (vertex_decls h)
  /\ Forall (fun q => q < next_handle (device h)) (map fst (text_buffers h)).

(** The resources alive on a host. *)
Definition resources (h : Host)
  : list ptr * list ptr * list ptr * list (ptr * string) :=
  (bitmaps (device h), cursors (device h), vertex_decls h, text_buffers h).

(** *** A concrete build and process

    Key constants numbered from 1 in the order [Init] names them (the
    eight modifier keys have the values of the concrete platform), the
    backend flag of the Dear ImGui header, and a clipboard. *)
Definition example_headers : Headers :=
  mkHeaders 2 true
    (fun k =>
       match list_find (fun a => a = k) (map snd key_assignments) with
       | Some (i, _) => Z.of_nat i + 1
       | None => 0
       end).

(** A host with a vertex declaration and a text buffer that are not the
    backend's, and the text [copied] on the clipboard. *)
Definition example_host (ans : list bool) (copied : option string) : Host :=
  mkHost (example_device ans double_zero) [40] [(50, "kept")] copied.

Definition example_process (ans : list bool) (copied : option string)
  : Process :=
  mkProcess (example_host ans copied) true example_io
            (mkBackendIO None None None 0 (fun _ => -1) None None NULL).

(** The backend holds a handle to everything alive on the host that was
    not alive on the host [before] initialisation, and to nothing else:
    its texture, its invisible cursor, its vertex declaration and its
    clipboard text buffer, each [NULL] or handed out since. *)
Definition backend_owns (before : Host) (p : Process) : Prop :=
  exists b texts,
    ImGui_ImplAllegro5_GetBackendData p = Some b
    /\ host_ok (machine p)
    /\ next_handle (device before) <= next_handle (device (machine p))
    /\ bitmaps (device (machine p))
       = bitmaps (device before) ++ owned (Texture b)
    /\ cursors (device (machine p))
       = cursors (device before) ++ owned (MouseCursorInvisible b)
    /\ vertex_decls (machine p) = vertex_decls before ++ owned (VertexDecl b)
    /\ text_buffers (machine p) = text_buffers before ++ texts
    /\ map fst texts = owned (ClipboardTextData b)
    /\ Forall (fun q => q = NULL \/ next_handle (device before) <= q)
         [Texture b; MouseCursorInvisible b; VertexDecl b;
          ClipboardTextData b]
    /\ (Texture b = NULL -> MouseCursorInvisible b = NULL).

(** * Properties of the unindexing loop *)

Section UnindexFacts.

Context `{Platform}.

Lemma ImVector_resize_length {A} (fill : A) n v :
  length (ImVector_resize fill n v) = n.
Proof.
  unfold ImVector_resize.
  rewrite length_app, length_take, length_replicate. lia.
Qed.

Lemma ImVector_at_in_range {A} (v : list A) (i : Z) :
  0 <= i < Z.of_nat (length v) -> is_Some (ImVector_at v i).
Proof.
  intros [Hlo Hhi]. unfold ImVector_at.
  destruct (Z.leb_spec 0 i) as [_|]; [|lia].
  apply lookup_lt_is_Some. lia.
Qed.

(** The loop entered at [i]: the slots from [i] on receive the converted
    vertices, the slots below [i] are left alone. *)
Lemma unindex_from_spec (Vtx : list ImDrawVert) :
  forall (idxs : list Z) (i : nat) (vs : list ImDrawVertAllegro),
    (i + length idxs <= length vs)%nat ->
    Forall (fun idx => 0 <= idx < Z.of_nat (length Vtx)) idxs ->
    exists out,
      unindex_from Vtx idxs i vs = Some out
      /\ length out = length vs
      /\ (forall k idx, idxs !! k = Some idx ->
            exists src_v, ImVector_at Vtx idx = Some src_v
                          /\ out !! (i + k)%nat = Some (convert_vert src_v))
      /\ (forall j, (j < i)%nat -> out !! j = vs !! j).
Proof.
  induction idxs as [|idx idxs IH]; intros i vs Hlen Hrange; simpl.
  - exists vs. repeat split; try done.
  - inversion Hrange as [|? ? Hidx Hrest]; subst.
    destruct (ImVector_at_in_range Vtx idx Hidx) as [src_v Hsrc].
    rewrite Hsrc. simpl in *.
    destruct (IH (S i) (<[i := convert_vert src_v]> vs)) as
      (out & Hout & Hl & Hnew & Hold).
    { rewrite length_insert. lia. }
    { exact Hrest. }
    exists out. rewrite length_insert in Hl.
    split; [exact Hout|]. split; [exact Hl|]. split.
    + intros [|k] idx' Hk; simpl in Hk.
      * inversion Hk; subst idx'. exists src_v. split; [exact Hsrc|].
        rewrite Nat.add_0_r, Hold by lia.
        apply list_lookup_insert_eq. lia.
      * destruct (Hnew k idx' Hk) as (src' & Hs' & Ho').
        exists src'. split; [exact Hs'|].
        replace (i + S k)%nat with (S i + k)%nat by lia. exact Ho'.
    + intros j Hj. rewrite Hold by lia.
      apply list_lookup_insert_ne. lia.
Qed.

(** C4: for a batch whose indices all refer to vertices of its vertex
    buffer, and whatever the scratch vector held before, the rebuilt host
    vertex array has as many entries as the index buffer, and entry [i]
    has the position and texture coordinate of the vertex that index [i]
    refers to, with the colour [al_map_rgba] makes of the four bytes
    (red, green, blue, alpha) of that vertex's packed colour. *)
Theorem unindex_rebuilds_vertex_array (cmd_list : ImDrawList)
    (scratch : list ImDrawVertAllegro) :
  Forall (fun idx => 0 <= idx < Z.of_nat (length (VtxBuffer cmd_list)))
         (IdxBuffer cmd_list) ->
  exists vs,
    unindex cmd_list scratch = Some vs
    /\ length vs = length (IdxBuffer cmd_list)
    /\ forall (i : nat) (idx : Z),
         IdxBuffer cmd_list !! i = Some idx ->
         exists src_v,
           ImVector_at (VtxBuffer cmd_list) idx = Some src_v
           /\ vs !! i =
              Some (mkImDrawVertAllegro (pos src_v) (uv src_v)
                      (al_map_rgba (Z.land (col src_v) 255)
                                   (Z.land (Z.shiftr (col src_v) 8) 255)
                                   (Z.land (Z.shiftr (col src_v) 16) 255)
                                   (Z.land (Z.shiftr (col src_v) 24) 255))).
Proof.
  intros Hrange. unfold unindex.
  destruct (unindex_from_spec (VtxBuffer cmd_list) (IdxBuffer cmd_list) 0%nat
              (ImVector_resize uninit_vert (length (IdxBuffer cmd_list))
                               scratch))
    as (out & Hout & Hl & Hnew & _).
  { rewrite ImVector_resize_length. lia. }
  { exact Hrange. }
  exists out. split; [exact Hout|].
  rewrite ImVector_resize_length in Hl. split; [exact Hl|].
  intros i idx Hi. destruct (Hnew i idx Hi) as (src_v & Hs & Ho).
  exists src_v. split; [exact Hs|]. exact Ho.
Qed.

End UnindexFacts.

(** The example batch: six indices into three vertices; entry 3 is made
    from vertex 0, whose packed colour 0xFF0000FF has the bytes 255, 0, 0,
    255. *)
Lemma unindex_rebuilds_vertex_array_witness :
  exists vs,
    @unindex example_platform (example_list []) [] = Some vs
    /\ length vs = 6%nat
    /\ vs !! 3%nat
       = Some (mkImDrawVertAllegro (vec2 0 0) (vec2 0 0)
                 (mkColor (channel 255) (channel 0) (channel 0)
                          (channel 255))).
Proof.
  destruct (@unindex_rebuilds_vertex_array example_platform
              (example_list []) [])
    as (vs & Hu & Hl & Hv).
  { repeat (apply List.Forall_cons; [simpl; lia|]). apply List.Forall_nil. }
  exists vs. split; [exact Hu|]. split; [exact Hl|].
  destruct (Hv 3%nat 0 eq_refl) as (src_v & Hs & Hvs).
  vm_compute in Hs. inversion Hs; subst src_v. exact Hvs.
Defined.

(** * Properties of the draw translator *)

Section RenderFacts.

Context `{Platform}.

(** A callback command and a command that is drawn both advance the
    running offset by the element count. *)
Lemma render_cmd_advances draw_data bd vs pcmd t idx_offset :
  skipped draw_data pcmd = false ->
  snd (render_cmd draw_data bd vs pcmd (t, idx_offset))
  = to_int (idx_offset + ElemCount pcmd).
Proof.
  unfold skipped, is_callback, degenerate, render_cmd, render_cmd_body.
  destruct (UserCallback pcmd); simpl; try reflexivity.
  intros ->. reflexivity.
Qed.


(** A command skipped for its degenerate rectangle leaves the target and
    the running offset as they were: the offset is not advanced. *)
Lemma render_cmd_skipped_keeps_offset draw_data bd vs pcmd t idx_offset :
  skipped draw_data pcmd = true ->
  render_cmd draw_data bd vs pcmd (t, idx_offset) = (t, idx_offset).
Proof.
  unfold skipped, is_callback, degenerate, render_cmd, render_cmd_body.
  destruct (UserCallback pcmd); simpl; try discriminate.
  intros ->. reflexivity.
Qed.

Lemma to_int_add_l a b : to_int (to_int a + b) = to_int (a + b).
Proof.
  unfold to_int. f_equal.
  replace (((a + 2 ^ 31) mod 2 ^ 32 - 2 ^ 31) + b + 2 ^ 31)
    with ((a + 2 ^ 31) mod 2 ^ 32 + b) by lia.
  replace (a + b + 2 ^ 31) with ((a + 2 ^ 31) + b) by lia.
  rewrite Zplus_mod_idemp_l. reflexivity.
Qed.

Lemma to_int_small a : INT_MIN <= a <= INT_MAX -> to_int a = a.
Proof.
  unfold to_int, INT_MIN, INT_MAX. intros Ha.
  rewrite Z.mod_small; lia.
Qed.

Lemma render_cmds_app draw_data bd vs cmds1 cmds2 st :
  render_cmds draw_data bd vs (cmds1 ++ cmds2) st
  = render_cmds draw_data bd vs cmds2
      (render_cmds draw_data bd vs cmds1 st).
Proof.
  revert st.
  induction cmds1 as [|pcmd cmds1 IH]; intros st; cbn [render_cmds app].
  - reflexivity.
  - apply IH.
Qed.

(** Over commands none of which is skipped, the running offset ends at
    the sum of the element counts, in [int] arithmetic. *)
Lemma render_cmds_offset_no_skip draw_data bd vs :
  forall cmds t off,
    forallb (fun pcmd => negb (skipped draw_data pcmd)) cmds = true ->
    snd (render_cmds draw_data bd vs cmds (t, to_int off))
    = to_int (off + total_elems cmds).
Proof.
  induction cmds as [|pcmd cmds IH]; intros t off Hall;
    cbn [render_cmds total_elems].
  - rewrite Z.add_0_r. reflexivity.
  - cbn [forallb] in Hall. apply andb_prop in Hall as [Hp Hall].
    apply negb_true_iff in Hp.
    pose proof (render_cmd_advances draw_data bd vs pcmd t (to_int off) Hp)
      as Hadv.
    destruct (render_cmd draw_data bd vs pcmd (t, to_int off))
      as [t1 off1].
    simpl in Hadv. subst off1. rewrite to_int_add_l.
    rewrite IH by exact Hall. f_equal. lia.
Qed.

(** So a command that follows commands none of which was skipped is
    processed with the running offset at the sum of their element
    counts. *)
Lemma render_cmds_slice_after_no_skip draw_data bd vs pre pcmd post t :
  forallb (fun c => negb (skipped draw_data c)) pre = true ->
  0 <= total_elems pre <= INT_MAX ->
  render_cmds draw_data bd vs (pre ++ pcmd :: post) (t, 0)
  = render_cmds draw_data bd vs post
      (render_cmd draw_data bd vs pcmd
         (fst (render_cmds draw_data bd vs pre (t, 0)),
          total_elems pre)).
Proof.
  intros Hpre Hsum. rewrite render_cmds_app. cbn [render_cmds].
  pose proof (render_cmds_offset_no_skip draw_data bd vs pre t 0 Hpre)
    as Hoff.
  change (to_int 0) with 0 in Hoff.
  destruct (render_cmds draw_data bd vs pre (t, 0)) as [t1 off1].
  simpl in *. subst off1.
  rewrite to_int_small by (unfold INT_MIN; lia). reflexivity.
Qed.

(** What [ImGui_ImplAllegro5_RenderDrawData] gives back of the target: the
    transforms and the clipping rectangle it found, and the colour part
    of the blender it found. *)
Lemma RenderDrawData_restores bd draw_data t s t' s' :
  ImGui_ImplAllegro5_RenderDrawData bd draw_data (t, s) = Some (t', s') ->
  current_transform t' = current_transform t
  /\ current_projection_transform t' = current_projection_transform t
  /\ clipping_rectangle t' = clipping_rectangle t
  /\ blend_op (blender t') = blend_op (blender t)
  /\ blend_src (blender t') = blend_src (blender t)
  /\ blend_dst (blender t') = blend_dst (blender t).
Proof.
  unfold ImGui_ImplAllegro5_RenderDrawData.
  destruct (fleb _ _ || fleb _ _).
  - intros [= <- <-]. repeat split.
  - simpl.
    destruct (render_lists _ _ _ _) as [[t2 s2]|]; simpl; [|discriminate].
    intros [= <- <-]. simpl. unfold al_get_clipping_rectangle.
    destruct (clipping_rectangle t). repeat split.
Qed.

(** When it does not return early, the alpha part of the blender it
    leaves is a copy of the colour part it found. *)
Lemma RenderDrawData_blender_after bd draw_data t s t' s' :
  fleb (vec2_x (DisplaySize draw_data)) float_zero = false ->
  fleb (vec2_y (DisplaySize draw_data)) float_zero = false ->
  ImGui_ImplAllegro5_RenderDrawData bd draw_data (t, s) = Some (t', s') ->
  blender t'
  = mkBlender (blend_op (blender t)) (blend_src (blender t))
              (blend_dst (blender t)) (blend_op (blender t))
              (blend_src (blender t)) (blend_dst (blender t)).
Proof.
  unfold ImGui_ImplAllegro5_RenderDrawData. intros -> ->. simpl.
  destruct (render_lists _ _ _ _) as [[t2 s2]|]; simpl; [|discriminate].
  intros [= <- <-]. reflexivity.
Qed.

(** C5: for a draw data whose display size is not positive on either
    axis, rendering returns at once: the target (render state and log of
    drawing calls) and the scratch vectors are what they were. *)
Theorem RenderDrawData_nonpositive_display_size bd draw_data
    (w : Target * Scratch) :
  fleb (vec2_x (DisplaySize draw_data)) float_zero = true
  \/ fleb (vec2_y (DisplaySize draw_data)) float_zero = true ->
  ImGui_ImplAllegro5_RenderDrawData bd draw_data w = Some w.
Proof.
  unfold ImGui_ImplAllegro5_RenderDrawData.
  intros [-> | ->]; [reflexivity|].
  rewrite orb_true_r. reflexivity.
Qed.

End RenderFacts.

(** Display sizes (0, h), (w, 0), (0, 0) and one that is negative, with a
    batch that would draw. *)
Lemma RenderDrawData_nonpositive_display_size_witness :
  let w := (example_target default_blender, example_scratch) in
  let lists := [example_list [proper_cmd]] in
  let render := @ImGui_ImplAllegro5_RenderDrawData example_platform
                  (example_bd 0 0 double_zero) in
  render (example_draw_data (vec2 0 480) lists) w = Some w
  /\ render (example_draw_data (vec2 640 0) lists) w = Some w
  /\ render (example_draw_data (vec2 0 0) lists) w = Some w
  /\ render (example_draw_data (vec2 (-1) 480) lists) w = Some w.
Proof.
  intros w lists render.
  split; [|split; [|split]];
    apply (@RenderDrawData_nonpositive_display_size example_platform);
    vm_compute; auto.
Defined.

(** C1: a batch of two commands of three elements each, the first with a
    degenerate clip rectangle.  The loop leaves the first command by
    [continue], so the running offset is still 0, not 3, when the second
    command is drawn: its slice is [0, 3) where the sum of the preceding
    element counts is 3, and the offset ends at 3, not 6. *)
Theorem render_cmds_skip_does_not_advance_offset :
  let dd := example_draw_data (vec2 640 480)
              [example_list [degenerate_cmd; proper_cmd]] in
  let t := example_target default_blender in
  let bd := example_bd 0 0 double_zero in
  @skipped example_platform dd degenerate_cmd = true
  /\ @total_elems example_platform [degenerate_cmd] = 3
  /\ snd (@render_cmd example_platform dd bd [] degenerate_cmd (t, 0)) = 0
  /\ snd (@render_cmds example_platform dd bd []
             [degenerate_cmd; proper_cmd] (t, 0)) = 3
  /\ (slices ∘ drawn ∘ fst <$>
      @ImGui_ImplAllegro5_RenderDrawData example_platform bd dd
        (t, example_scratch))
     = Some [(0, 3)].
Proof. vm_compute. repeat split. Qed.

(** C3: a target whose blender has an alpha part different from its colour
    part, a positive display size and no batch at all.  The blender is
    saved with [al_get_blender] (colour part only) and put back with
    [al_set_blender] (colour part copied to alpha), so the alpha part is
    not what it was; transforms and clipping rectangle are. *)
Theorem RenderDrawData_loses_separate_alpha_blender :
  let dd := example_draw_data (vec2 640 480) [] in
  let before :=
    example_target (mkBlender ALLEGRO_ADD ALLEGRO_ALPHA ALLEGRO_INVERSE_ALPHA
                              ALLEGRO_ADD ALLEGRO_ONE ALLEGRO_ONE) in
  let after :=
    example_target (mkBlender ALLEGRO_ADD ALLEGRO_ALPHA ALLEGRO_INVERSE_ALPHA
                              ALLEGRO_ADD ALLEGRO_ALPHA ALLEGRO_INVERSE_ALPHA) in
  @ImGui_ImplAllegro5_RenderDrawData example_platform
    (example_bd 0 0 double_zero) dd (before, example_scratch)
  = Some (after, example_scratch)
  /\ blender after <> blender before.
Proof.
  intros dd before after. split.
  - reflexivity.
  - discriminate.
Qed.

(** * Properties of the event translator *)

Lemma array_store_in_range (a : list bool) (i : Z) (v : bool) :
  0 <= i < Z.of_nat (length a) ->
  array_store a i v = Some (<[Z.to_nat i := v]> a).
Proof.
  intros [Hlo Hhi]. unfold array_store.
  destruct (Z.leb_spec 0 i); [|lia].
  destruct (Z.ltb_spec i (Z.of_nat (length a))); [|lia]. reflexivity.
Qed.

Lemma array_store_out_of_range (a : list bool) (i : Z) (v : bool) :
  i < 0 \/ Z.of_nat (length a) <= i -> array_store a i v = None.
Proof.
  intros Hout. unfold array_store.
  destruct (Z.leb_spec 0 i); destruct (Z.ltb_spec i (Z.of_nat (length a)));
    simpl; try reflexivity; lia.
Qed.

(** A button event with an index above 5 changes nothing. *)
Lemma ProcessEvent_button_above_five io bd ev :
  ev_type ev = ALLEGRO_EVENT_MOUSE_BUTTON_DOWN
  \/ ev_type ev = ALLEGRO_EVENT_MOUSE_BUTTON_UP ->
  5 < mouse_button (ev_mouse ev) ->
  ImGui_ImplAllegro5_ProcessEvent io bd ev = (true, InBounds io).
Proof.
  intros Hty Hb. unfold ImGui_ImplAllegro5_ProcessEvent.
  destruct Hty as [-> | ->];
    (destruct (Z.leb_spec (mouse_button (ev_mouse ev)) 5); [lia|]);
    rewrite andb_false_r; reflexivity.
Qed.

(** X3: a button event for the bound display with an index from 1 to 5
    sets the flag at index [button - 1], and that flag only, to whether
    the event is a button-down event. *)
Lemma ProcessEvent_button_in_range io bd ev :
  ev_type ev = ALLEGRO_EVENT_MOUSE_BUTTON_DOWN
  \/ ev_type ev = ALLEGRO_EVENT_MOUSE_BUTTON_UP ->
  mouse_display (ev_mouse ev) = Display bd ->
  1 <= mouse_button (ev_mouse ev) <= 5 ->
  length (MouseDown io) = 5%nat ->
  ImGui_ImplAllegro5_ProcessEvent io bd ev
  = (true,
     InBounds
       (set_MouseDown
          (<[Z.to_nat (mouse_button (ev_mouse ev) - 1) :=
               is_type (ev_type ev) ALLEGRO_EVENT_MOUSE_BUTTON_DOWN]>
             (MouseDown io)) io)).
Proof.
  intros Hty Hd Hb Hlen. unfold ImGui_ImplAllegro5_ProcessEvent.
  assert (Hidx : to_uint (mouse_button (ev_mouse ev) - 1)
                 = mouse_button (ev_mouse ev) - 1).
  { unfold to_uint. apply Z.mod_small. lia. }
  destruct Hty as [-> | ->];
    rewrite Hd, Z.eqb_refl, Hidx;
    (destruct (Z.leb_spec (mouse_button (ev_mouse ev)) 5); [|lia]);
    cbn [andb]; rewrite array_store_in_range by (rewrite Hlen; lia);
    reflexivity.
Qed.

(** A button event for the bound display with index 0 passes the guard and
    stores at index [0u - 1], outside any flag array of fewer than 2^32
    entries. *)
Lemma ProcessEvent_button_zero io bd ev :
  ev_type ev = ALLEGRO_EVENT_MOUSE_BUTTON_DOWN
  \/ ev_type ev = ALLEGRO_EVENT_MOUSE_BUTTON_UP ->
  mouse_display (ev_mouse ev) = Display bd ->
  mouse_button (ev_mouse ev) = 0 ->
  Z.of_nat (length (MouseDown io)) < 2 ^ 32 ->
  ImGui_ImplAllegro5_ProcessEvent io bd ev = (true, OutOfBounds 4294967295).
Proof.
  intros Hty Hd Hb Hlen. unfold ImGui_ImplAllegro5_ProcessEvent.
  destruct Hty as [-> | ->];
    rewrite Hd, Hb, Z.eqb_refl;
    change (to_uint (0 - 1)) with 4294967295; cbn [andb Z.leb Z.compare];
    rewrite array_store_out_of_range by lia; reflexivity.
Qed.

(** C6: the flag returned is [true] exactly for the event types the
    translator has a case for, whether or not the event is for the bound
    display; and an event for another display, like an event of any other
    type, leaves the input state as it was. *)
Theorem ProcessEvent_consumed_iff_recognized io bd ev :
  fst (ImGui_ImplAllegro5_ProcessEvent io bd ev) = recognized (ev_type ev)
  /\ (event_display ev <> Display bd ->
      snd (ImGui_ImplAllegro5_ProcessEvent io bd ev) = InBounds io)
  /\ (recognized (ev_type ev) = false ->
      snd (ImGui_ImplAllegro5_ProcessEvent io bd ev) = InBounds io).
Proof.
  unfold ImGui_ImplAllegro5_ProcessEvent, event_display, recognized.
  destruct (ev_type ev); simpl;
    (split;
     [ repeat match goal with
              | |- context [if ?b then _ else _] => destruct b
              | |- context [match ?o with Some _ => _ | None => _ end] =>
                  destruct o
              end; reflexivity
     | split; [ intros Hne; apply Z.eqb_neq in Hne; rewrite ?Hne; reflexivity
              | intros; first [reflexivity | discriminate] ] ]).
Qed.

(** One event of each recognized kind for display 101, the backend being
    bound to display 100, and a timer event. *)
Lemma ProcessEvent_consumed_iff_recognized_witness :
  let bd := example_bd 0 0 double_zero in
  Forall
    (fun ty =>
       ImGui_ImplAllegro5_ProcessEvent example_io bd (mouse_event ty 101 1)
       = (true, InBounds example_io))
    [ ALLEGRO_EVENT_MOUSE_AXES; ALLEGRO_EVENT_MOUSE_BUTTON_DOWN;
      ALLEGRO_EVENT_MOUSE_BUTTON_UP; ALLEGRO_EVENT_TOUCH_MOVE;
      ALLEGRO_EVENT_TOUCH_BEGIN; ALLEGRO_EVENT_TOUCH_END;
      ALLEGRO_EVENT_TOUCH_CANCEL; ALLEGRO_EVENT_MOUSE_LEAVE_DISPLAY;
      ALLEGRO_EVENT_KEY_CHAR; ALLEGRO_EVENT_KEY_DOWN; ALLEGRO_EVENT_KEY_UP;
      ALLEGRO_EVENT_DISPLAY_SWITCH_OUT; ALLEGRO_EVENT_DISPLAY_SWITCH_IN ]
  /\ ImGui_ImplAllegro5_ProcessEvent example_io bd
       (mouse_event (ALLEGRO_EVENT_TIMER) 100 1)
     = (false, InBounds example_io).
Proof.
  intros bd.
  assert (Hpair : forall ev,
             event_display ev <> Display bd ->
             recognized (ev_type ev) = true ->
             ImGui_ImplAllegro5_ProcessEvent example_io bd ev
             = (true, InBounds example_io)).
  { intros ev Hne Hrec.
    destruct (ProcessEvent_consumed_iff_recognized example_io bd ev)
      as (Hfst & Hsnd & _).
    rewrite Hrec in Hfst. specialize (Hsnd Hne).
    destruct (ImGui_ImplAllegro5_ProcessEvent example_io bd ev).
    simpl in *. congruence. }
  split.
  - repeat (apply List.Forall_cons; [apply Hpair; vm_compute; congruence|]).
    apply List.Forall_nil.
  - destruct (ProcessEvent_consumed_iff_recognized example_io bd
                (mouse_event (ALLEGRO_EVENT_TIMER) 100 1))
      as (Hfst & _ & Hsnd).
    specialize (Hsnd eq_refl).
    destruct (ImGui_ImplAllegro5_ProcessEvent example_io bd _).
    simpl in *. congruence.
Defined.

(** C2: a button-down event for the bound display with button index 0.
    The guard tests [button <= 5] only, so the store goes to index
    [0u - 1 = 4294967295] of the five-entry flag array. *)
Theorem ProcessEvent_button_zero_out_of_bounds :
  ImGui_ImplAllegro5_ProcessEvent example_io (example_bd 0 0 double_zero)
    (mouse_event ALLEGRO_EVENT_MOUSE_BUTTON_DOWN 100 0)
  = (true, OutOfBounds 4294967295)
  /\ length (MouseDown example_io) = 5%nat.
Proof. split; reflexivity. Qed.

(** * Properties of the device resources *)

Lemma release_app p l1 l2 :
  release p (l1 ++ l2) = release p l1 ++ release p l2.
Proof.
  induction l1 as [|q l1 IH]; simpl; [reflexivity|].
  destruct (q =? p); simpl; congruence.
Qed.

Lemma release_absent p l :
  forallb (fun q => negb (q =? p)) l = true -> release p l = l.
Proof.
  induction l as [|q l IH]; simpl; [reflexivity|].
  intros Hall. apply andb_prop in Hall as [Hq Hall].
  apply negb_true_iff in Hq. rewrite Hq, IH by exact Hall. reflexivity.
Qed.

Lemma release_self p : release p [p] = [].
Proof. simpl. rewrite Z.eqb_refl. reflexivity. Qed.

Lemma release_other p q : q <> p -> release p [q] = [q].
Proof. intros Hne. simpl. apply Z.eqb_neq in Hne. rewrite Hne. reflexivity. Qed.

(** No bitmap alive on a well-formed device is at an address the device
    has still to hand out. *)
Lemma device_ok_release d p :
  device_ok d = true ->
  next_handle d <= p ->
  release p (bitmaps d) = bitmaps d.
Proof.
  unfold device_ok. intros Hok Hp.
  apply andb_prop in Hok as [_ Hall]. apply release_absent.
  induction (bitmaps d) as [|q l IH]; simpl in *; [reflexivity|].
  apply andb_prop in Hall as [Hq Hall].
  apply Z.ltb_lt in Hq. rewrite IH by exact Hall.
  rewrite andb_true_r. apply negb_true_iff, Z.eqb_neq. lia.
Qed.

Lemma device_ok_next d : device_ok d = true -> 0 < next_handle d.
Proof.
  unfold device_ok. intros Hok. apply andb_prop in Hok as [Hn _].
  apply Z.ltb_lt in Hn. exact Hn.
Qed.

Lemma answer_hd d :
  answer d 0 = hd true (answers d)
  /\ answer d 1 = hd true (tl (answers d))
  /\ answer d 2 = hd true (tl (tl (answers d)))
  /\ answer d 3 = hd true (tl (tl (tl (answers d))))
  /\ answer d 4 = hd true (tl (tl (tl (tl (answers d))))).
Proof.
  unfold answer.
  destruct (answers d) as [|? [|? [|? [|? [|? ?]]]]]; repeat split.
Qed.

Section DeviceFacts.

Context `{Platform}.

Ltac unfold_host :=
  unfold ImGui_ImplAllegro5_CreateDeviceObjects, al_create_mouse_cursor,
    al_create_bitmap, al_lock_bitmap, al_unlock_bitmap, al_clone_bitmap,
    al_destroy_bitmap, al_set_new_bitmap_flags, al_set_new_bitmap_format,
    al_get_new_bitmap_flags, al_get_new_bitmap_format.

Ltac no_null :=
  unfold is_null, NULL;
  repeat match goal with
         | |- context [?p =? 0] =>
             let E := fresh in
             assert (E : (p =? 0) = false) by (apply Z.eqb_neq; lia);
             rewrite E; clear E
         end.

Ltac next_answer :=
  match goal with
  | |- context [hd true ?l] => destruct (hd true l); simpl
  end.

(** C7: on a well-formed device, creating the device objects reports
    failure when creating, locking or cloning the font-atlas bitmap
    fails, and then the bitmaps alive are those alive before, and the
    backend data and the font system are untouched; when the three steps
    succeed it reports success, and the handle [al_clone_bitmap] returned
    is stored in the backend data and in the font system. *)
Theorem CreateDeviceObjects_failure_releases_success_stores (w : World) :
  device_ok (host w) = true ->
  let r := ImGui_ImplAllegro5_CreateDeviceObjects w in
  let img := next_handle (host w) in
  let cloned_img := next_handle (host w) + 1 in
  if answer (host w) 0 && answer (host w) 1 && answer (host w) 2
  then fst r = true
       /\ In (call_clone_bitmap img cloned_img) (calls (host (snd r)))
       /\ cloned_img <> NULL
       /\ Texture (bd (snd r)) = cloned_img
       /\ Fonts_TexID (io (snd r)) = cloned_img
       /\ bitmaps (host (snd r)) = bitmaps (host w) ++ [cloned_img]
  else fst r = false
       /\ bitmaps (host (snd r)) = bitmaps (host w)
       /\ io (snd r) = io w
       /\ bd (snd r) = bd w.
Proof.
  destruct w as [d i b]. destruct i. simpl. intros Hok.
  pose proof (device_ok_next d Hok) as Hnext.
  pose proof (fun p Hp => device_ok_release d p Hok Hp) as Hr.
  destruct (answer_hd d) as (-> & -> & -> & _).
  unfold_host. simpl.
  next_answer; no_null; simpl.
  2: { repeat split. }
  next_answer.
  2: { rewrite release_app, release_self, Hr, app_nil_r by lia.
       repeat split. }
  next_answer; no_null; simpl.
  2: { rewrite release_app, release_self, Hr, app_nil_r by lia.
       repeat split. }
  assert (Hkeep : release (next_handle d)
                    ((bitmaps d ++ [next_handle d]) ++ [next_handle d + 1])
                  = bitmaps d ++ [next_handle d + 1]).
  { rewrite !release_app, release_self, Hr, app_nil_r by lia.
    rewrite release_other by lia. reflexivity. }
  next_answer; no_null; simpl; [next_answer|]; simpl; rewrite Hkeep;
    rewrite ?release_app, ?release_self, ?release_other, ?Hr by lia;
    rewrite ?app_nil_r;
    (repeat split; [rewrite !in_app_iff; simpl; tauto | lia]).
Qed.

(** C10: when creating, locking and cloning the font-atlas bitmap
    succeed, success is reported whatever becomes of the 8x8 bitmap and
    of the cursor made from it; the invisible-cursor handle stored is
    [NULL] unless both of those steps succeed too. *)
Theorem CreateDeviceObjects_success_ignores_cursor_failure (w : World) :
  device_ok (host w) = true ->
  answer (host w) 0 = true ->
  answer (host w) 1 = true ->
  answer (host w) 2 = true ->
  let r := ImGui_ImplAllegro5_CreateDeviceObjects w in
  fst r = true
  /\ MouseCursorInvisible (bd (snd r))
     = if answer (host w) 3 && answer (host w) 4
       then next_handle (host w) + 3 else NULL.
Proof.
  destruct w as [d i b]. destruct i. simpl. intros Hok.
  pose proof (device_ok_next d Hok) as Hnext.
  destruct (answer_hd d) as (-> & -> & -> & -> & ->).
  intros H0 H1 H2.
  unfold_host. simpl. rewrite H0. no_null. simpl. rewrite H1. simpl.
  rewrite H2. no_null. simpl.
  next_answer; no_null; simpl; [next_answer|]; simpl;
    split; try reflexivity; lia.
Qed.

(** Creating the device objects leaves the stored timestamp and the
    clock alone. *)
Lemma CreateDeviceObjects_keeps_time (w : World) :
  Time (bd (snd (ImGui_ImplAllegro5_CreateDeviceObjects w))) = Time (bd w)
  /\ clock (host (snd (ImGui_ImplAllegro5_CreateDeviceObjects w)))
     = clock (host w).
Proof.
  destruct w as [d i b]. destruct b. unfold_host. simpl.
  repeat match goal with
         | |- context [if ?c then _ else _] => destruct c; simpl
         end; split; reflexivity.
Qed.

End DeviceFacts.

(** A run in which the three font-atlas steps succeed, and runs in which
    the first, the second and the third of them fails. *)
Lemma CreateDeviceObjects_failure_releases_success_stores_witness :
  let run ans :=
    @ImGui_ImplAllegro5_CreateDeviceObjects example_platform
      (example_world ans 0 0 double_zero double_zero) in
  (fst (run []) = true
   /\ Texture (bd (snd (run []))) = 1001
   /\ Fonts_TexID (io (snd (run []))) = 1001
   /\ bitmaps (host (snd (run []))) = [20; 21; 1001])
  /\ Forall (fun ans => fst (run ans) = false
                        /\ bitmaps (host (snd (run ans))) = [20; 21])
       [[false]; [true; false]; [true; true; false]].
Proof.
  intros run.
  assert (Hrun : forall ans,
             let w := example_world ans 0 0 double_zero double_zero in
             if answer (host w) 0 && answer (host w) 1 && answer (host w) 2
             then fst (run ans) = true
                  /\ Texture (bd (snd (run ans))) = 1001
                  /\ Fonts_TexID (io (snd (run ans))) = 1001
                  /\ bitmaps (host (snd (run ans))) = [20; 21; 1001]
             else fst (run ans) = false
                  /\ bitmaps (host (snd (run ans))) = [20; 21]).
  { intros ans w.
    pose proof (@CreateDeviceObjects_failure_releases_success_stores
                  example_platform w eq_refl) as Hthm.
    cbv zeta in Hthm. fold (run ans) in Hthm.
    destruct (answer (host w) 0 && answer (host w) 1 && answer (host w) 2).
    - destruct Hthm as (Hf & _ & _ & Ht & Hi & Hb). repeat split; assumption.
    - destruct Hthm as (Hf & Hb & _ & _). split; assumption. }
  split.
  - exact (Hrun []).
  - apply List.Forall_cons; [exact (Hrun [false])|].
    apply List.Forall_cons; [exact (Hrun [true; false])|].
    apply List.Forall_cons; [exact (Hrun [true; true; false])|].
    apply List.Forall_nil.
Defined.

(** The three font-atlas steps succeed and the cursor cannot be made. *)
Lemma CreateDeviceObjects_success_ignores_cursor_failure_witness :
  let r := @ImGui_ImplAllegro5_CreateDeviceObjects example_platform
             (example_world [true; true; true; true; false] 0 0
                            double_zero double_zero) in
  fst r = true /\ MouseCursorInvisible (bd (snd r)) = NULL.
Proof.
  exact (@CreateDeviceObjects_success_ignores_cursor_failure example_platform
           (example_world [true; true; true; true; false] 0 0
                          double_zero double_zero)
           eq_refl eq_refl eq_refl eq_refl).
Defined.

(** C9: invalidating the device objects destroys the font texture exactly
    when its handle is not [NULL], and likewise the invisible cursor,
    makes no other call, leaves both handles [NULL], and changes nothing
    when run again on the state it produced. *)
Theorem InvalidateDeviceObjects_releases_once (w : World) :
  let w' := ImGui_ImplAllegro5_InvalidateDeviceObjects w in
  Texture (bd w') = NULL
  /\ MouseCursorInvisible (bd w') = NULL
  /\ calls (host w')
     = calls (host w)
       ++ (if is_null (Texture (bd w)) then []
           else [call_destroy_bitmap (Texture (bd w))])
       ++ (if is_null (MouseCursorInvisible (bd w)) then []
           else [call_destroy_mouse_cursor (MouseCursorInvisible (bd w))])
  /\ bitmaps (host w')
     = (if is_null (Texture (bd w)) then bitmaps (host w)
        else release (Texture (bd w)) (bitmaps (host w)))
  /\ cursors (host w')
     = (if is_null (MouseCursorInvisible (bd w)) then cursors (host w)
        else release (MouseCursorInvisible (bd w)) (cursors (host w)))
  /\ ImGui_ImplAllegro5_InvalidateDeviceObjects w' = w'.
Proof.
  destruct w as [d i b]. destruct b as [dp tx tm mc vd cb].
  assert (Hnull : is_null NULL = true) by reflexivity.
  cbv zeta. unfold ImGui_ImplAllegro5_InvalidateDeviceObjects.
  cbn [bd host io Texture MouseCursorInvisible].
  destruct (is_null tx) eqn:Htx;
    cbn [negb bd host io Texture MouseCursorInvisible set_Texture
         set_MouseCursorInvisible];
    destruct (is_null mc) eqn:Hmc;
    cbn [negb bd host io Texture MouseCursorInvisible set_Texture
         set_MouseCursorInvisible];
    rewrite ?Htx, ?Hmc, ?Hnull;
    cbn [negb bd host io Texture MouseCursorInvisible set_Texture
         set_MouseCursorInvisible];
    rewrite ?Htx, ?Hmc, ?Hnull;
    unfold is_null in Htx, Hmc;
    try (apply Z.eqb_eq in Htx; subst tx);
    try (apply Z.eqb_eq in Hmc; subst mc);
    unfold al_destroy_bitmap, al_destroy_mouse_cursor;
    cbn [calls bitmaps cursors after_call app];
    rewrite ?app_nil_r, <- ?app_assoc; repeat split;
    unfold is_null; rewrite ?Htx, ?Hmc; reflexivity.
Qed.

(** * Properties of the per-frame refresh *)

Section FrameFacts.

Context `{Platform}.

Lemma UpdateMouseCursor_keeps_io_bd (w : World) :
  io (ImGui_ImplAllegro5_UpdateMouseCursor w) = io w
  /\ bd (ImGui_ImplAllegro5_UpdateMouseCursor w) = bd w.
Proof.
  unfold ImGui_ImplAllegro5_UpdateMouseCursor.
  destruct (negb _); [split; reflexivity|].
  destruct (MouseDrawCursor (io w) || _); split; reflexivity.
Qed.

(** The frame delta and the timestamp a refresh stores, in terms of the
    state the refresh starts from. *)
Lemma NewFrame_time (w : World) :
  DeltaTime (io (ImGui_ImplAllegro5_NewFrame w))
  = (if dltb double_zero (Time (bd w))
     then float_of_double (dsub (al_get_time (host w)) (Time (bd w)))
     else fdiv (float_of_int 1) (float_of_int 60))
  /\ Time (bd (ImGui_ImplAllegro5_NewFrame w)) = al_get_time (host w).
Proof.
  unfold ImGui_ImplAllegro5_NewFrame, al_get_time.
  set (w1 := if is_null (Texture (bd w))
             then snd (ImGui_ImplAllegro5_CreateDeviceObjects w) else w).
  assert (Hkeep : Time (bd w1) = Time (bd w)
                  /\ clock (host w1) = clock (host w)).
  { subst w1. destruct (is_null (Texture (bd w))).
    - apply CreateDeviceObjects_keeps_time.
    - split; reflexivity. }
  destruct Hkeep as [Ht Hc]. clearbody w1.
  match goal with
  | |- context [ImGui_ImplAllegro5_UpdateMouseCursor ?x] =>
      destruct (UpdateMouseCursor_keeps_io_bd x) as [-> ->]
  end.
  cbn [io bd host Time set_Time]. rewrite Ht, Hc. destruct (io w1).
  destruct (bd w1). split; reflexivity.
Qed.

(** C8: on a refresh that finds the stored timestamp at its initial value
    zero, the frame delta written is the [float] constant
    [1.0f / 60.0f], that is 8947849 * 2^-29, the single-precision number
    nearest to 1/60; on a refresh that finds a positive stored timestamp
    it is the clock reading minus the stored timestamp, as a [float];
    and every refresh stores the clock reading as the new timestamp. *)
Theorem NewFrame_delta_time (w : World) :
  (Time (bd w) = double_zero ->
   DeltaTime (io (ImGui_ImplAllegro5_NewFrame w))
   = S754_finite false 8947849 (-29))
  /\ (dltb double_zero (Time (bd w)) = true ->
      DeltaTime (io (ImGui_ImplAllegro5_NewFrame w))
      = float_of_double (dsub (al_get_time (host w)) (Time (bd w))))
  /\ Time (bd (ImGui_ImplAllegro5_NewFrame w)) = al_get_time (host w).
Proof.
  destruct (NewFrame_time w) as [Hd Ht].
  split; [|split].
  - intros Hz. rewrite Hd, Hz. reflexivity.
  - intros Hpos. rewrite Hd, Hpos. reflexivity.
  - exact Ht.
Qed.

(** X18: a refresh that follows a refresh made at a positive clock
    reading, whatever happened to the host and the input state in
    between, writes the difference of the two readings. *)
Lemma NewFrame_after_NewFrame (w w' : World) :
  dltb double_zero (al_get_time (host w)) = true ->
  bd w' = bd (ImGui_ImplAllegro5_NewFrame w) ->
  DeltaTime (io (ImGui_ImplAllegro5_NewFrame w'))
  = float_of_double (dsub (al_get_time (host w')) (al_get_time (host w))).
Proof.
  intros Hpos Hbd.
  destruct (NewFrame_time w) as [_ Hstored].
  destruct (NewFrame_time w') as [Hdelta _].
  rewrite Hdelta, Hbd, Hstored, Hpos. reflexivity.
Qed.

End FrameFacts.

(** The constant is within half a unit in the last place, 2^-30, of 1/60:
    [|60 * 8947849 * 2^-29 - 1| <= 60 * 2^-30]. *)
Lemma one_sixtieth_nearest :
  fdiv (float_of_int 1) (float_of_int 60) = S754_finite false 8947849 (-29)
  /\ Z.abs (2 * 60 * 8947849 - 2 ^ 30) <= 60.
Proof. split; [reflexivity | vm_compute; discriminate]. Qed.

(** The first refresh after the backend data is constructed, with the clock
    at 5 seconds, and the refresh after it, with the clock at 7: the deltas
    are 1/60 (as a [float]) and 2. *)
Lemma NewFrame_delta_time_witness :
  let w0 := example_world [] 0 0 (Time ImGui_ImplAllegro5_Data_new)
                          (double_of_int 5) in
  let w1 := @ImGui_ImplAllegro5_NewFrame example_platform w0 in
  let w1' := mkWorld (example_device [] (double_of_int 7)) (io w1) (bd w1) in
  let w2 := @ImGui_ImplAllegro5_NewFrame example_platform w1' in
  DeltaTime (io w1) = S754_finite false 8947849 (-29)
  /\ Time (bd w1) = double_of_int 5
  /\ DeltaTime (io w2) = float_of_int 2
  /\ Time (bd w2) = double_of_int 7.
Proof.
  intros w0 w1 w1' w2.
  destruct (@NewFrame_delta_time example_platform w0) as (Hfirst & _ & Ht1).
  destruct (@NewFrame_delta_time example_platform w1') as (_ & Hlater & Ht2).
  split; [exact (Hfirst eq_refl)|].
  split; [exact Ht1|].
  split; [|exact Ht2].
  fold w2 in Hlater. rewrite Hlater; vm_compute; reflexivity.
Defined.

(** * Further properties of the event translator *)

(** X1: every event the translator accepts without a stray store keeps the
    two flag arrays at their lengths and leaves alone everything that is
    not mouse, key, text or focus input: configuration, display size,
    frame delta, font atlas, the four modifier flags and the requested
    cursor. *)
Theorem ProcessEvent_keeps_lengths_and_frame_state io bd ev io' :
  snd (ImGui_ImplAllegro5_ProcessEvent io bd ev) = InBounds io' ->
  length (MouseDown io') = length (MouseDown io)
  /\ length (KeysDown io') = length (KeysDown io)
  /\ ConfigFlags io' = ConfigFlags io
  /\ IO_DisplaySize io' = IO_DisplaySize io
  /\ DeltaTime io' = DeltaTime io
  /\ MouseDrawCursor io' = MouseDrawCursor io
  /\ Fonts_TexID io' = Fonts_TexID io
  /\ (KeyCtrl io', KeyShift io', KeyAlt io', KeySuper io')
     = (KeyCtrl io, KeyShift io, KeyAlt io, KeySuper io)
  /\ MouseCursor io' = MouseCursor io.
Proof.
  destruct io. unfold ImGui_ImplAllegro5_ProcessEvent, array_store.
  destruct (ev_type ev); cbn -[to_uint float_of_int fadd fsub FLT_MAX];
    repeat match goal with
           | |- context [if ?b then _ else _] => destruct b
           end;
    cbn -[to_uint float_of_int fadd fsub FLT_MAX];
    intros [= <-]; cbn; rewrite ?length_insert; repeat split.
Qed.

(** A key-down event for the bound display, key code 65, on the example
    input state. *)
Lemma ProcessEvent_keeps_lengths_and_frame_state_witness :
  exists io',
    snd (ImGui_ImplAllegro5_ProcessEvent example_io
           (example_bd 0 0 double_zero)
           (mouse_event ALLEGRO_EVENT_KEY_DOWN 100 1)) = InBounds io'
    /\ KeysDown io' !! 65%nat = Some true
    /\ length (MouseDown io') = 5%nat
    /\ length (KeysDown io') = 512%nat
    /\ (KeyCtrl io', KeyShift io', KeyAlt io', KeySuper io')
       = (false, false, false, false).
Proof.
  eexists. split; [reflexivity|]. split; [reflexivity|].
  pose proof (ProcessEvent_keeps_lengths_and_frame_state example_io
                (example_bd 0 0 double_zero)
                (mouse_event ALLEGRO_EVENT_KEY_DOWN 100 1) _ eq_refl)
    as (Hm & Hk & _ & _ & _ & _ & _ & Hmods & _).
  split; [exact Hm|]. split; [exact Hk|]. exact Hmods.
Defined.

(** X2: on an input state with the five button flags, and for a button
    index that fits an [unsigned int], the translator stores outside a flag
    array in two cases only: a button event for the bound display with
    button index 0, and a key-down or key-up event for the bound display
    whose key code is negative or not below the length of the key
    array. *)
Theorem ProcessEvent_out_of_bounds_iff io bd ev :
  length (MouseDown io) = 5%nat ->
  0 <= mouse_button (ev_mouse ev) < 2 ^ 32 ->
  (exists index,
      snd (ImGui_ImplAllegro5_ProcessEvent io bd ev) = OutOfBounds index)
  <->
  ((ev_type ev = ALLEGRO_EVENT_MOUSE_BUTTON_DOWN
    \/ ev_type ev = ALLEGRO_EVENT_MOUSE_BUTTON_UP)
   /\ mouse_display (ev_mouse ev) = Display bd
   /\ mouse_button (ev_mouse ev) = 0)
  \/
  ((ev_type ev = ALLEGRO_EVENT_KEY_DOWN \/ ev_type ev = ALLEGRO_EVENT_KEY_UP)
   /\ keyboard_display (ev_keyboard ev) = Display bd
   /\ ~ (0 <= keyboard_keycode (ev_keyboard ev)
         < Z.of_nat (length (KeysDown io)))).
Proof.
  intros Hlen Hbtn.
  assert (Hbutton :
    forall down,
      (exists index,
          snd (if (mouse_display (ev_mouse ev) =? Display bd)
                  && (mouse_button (ev_mouse ev) <=? 5)
               then
                 match array_store (MouseDown io)
                         (to_uint (mouse_button (ev_mouse ev) - 1)) down with
                 | Some flags => (true, InBounds (set_MouseDown flags io))
                 | None =>
                     (true,
                      OutOfBounds (to_uint (mouse_button (ev_mouse ev) - 1)))
                 end
               else (true, InBounds io)) = OutOfBounds index)
      <-> mouse_display (ev_mouse ev) = Display bd
          /\ mouse_button (ev_mouse ev) = 0).
  { intros down.
    destruct (Z.eqb_spec (mouse_display (ev_mouse ev)) (Display bd)) as [Hd|Hd];
      destruct (Z.leb_spec (mouse_button (ev_mouse ev)) 5) as [Hb|Hb];
      cbn [andb snd];
      try (split; [intros [? [=]] | intros [? ?]; (congruence || lia)]).
    destruct (Z.eq_dec (mouse_button (ev_mouse ev)) 0) as [Hz|Hz].
    - rewrite Hz. change (to_uint (0 - 1)) with 4294967295.
      rewrite array_store_out_of_range by lia. cbn [snd].
      split; [intros _; split; [exact Hd | reflexivity] | eauto].
    - assert (Hidx : to_uint (mouse_button (ev_mouse ev) - 1)
                     = mouse_button (ev_mouse ev) - 1)
        by (unfold to_uint; apply Z.mod_small; lia).
      rewrite Hidx, array_store_in_range by lia. cbn [snd].
      split; [intros [? [=]] | intros [_ ?]; contradiction]. }
  assert (Hkey :
    forall down,
      (exists index,
          snd (if keyboard_display (ev_keyboard ev) =? Display bd
               then
                 match array_store (KeysDown io)
                         (keyboard_keycode (ev_keyboard ev)) down with
                 | Some flags => (true, InBounds (set_KeysDown flags io))
                 | None =>
                     (true, OutOfBounds (keyboard_keycode (ev_keyboard ev)))
                 end
               else (true, InBounds io)) = OutOfBounds index)
      <-> keyboard_display (ev_keyboard ev) = Display bd
          /\ ~ (0 <= keyboard_keycode (ev_keyboard ev)
                < Z.of_nat (length (KeysDown io)))).
  { intros down.
    destruct (Z.eqb_spec (keyboard_display (ev_keyboard ev)) (Display bd))
      as [Hd|Hd]; cbn [snd];
      [|split; [intros [? [=]] | intros [? _]; contradiction]].
    destruct (Z_le_dec 0 (keyboard_keycode (ev_keyboard ev))) as [Hlo|Hlo];
      [destruct (Z_lt_dec (keyboard_keycode (ev_keyboard ev))
                          (Z.of_nat (length (KeysDown io)))) as [Hhi|Hhi]|].
    - rewrite array_store_in_range by lia. cbn [snd].
      split; [intros [? [=]] | intros [_ Hn]; exfalso; apply Hn; lia].
    - rewrite array_store_out_of_range by lia. cbn [snd].
      split; [intros _; split; [exact Hd | lia] | eauto].
    - rewrite array_store_out_of_range by lia. cbn [snd].
      split; [intros _; split; [exact Hd | lia] | eauto]. }
  unfold ImGui_ImplAllegro5_ProcessEvent.
  destruct (ev_type ev) eqn:Hty;
    try (rewrite Hbutton; split;
         [ intros [Hd Hz]; left; split; [auto | split; assumption]
         | intros [(_ & Hd & Hz) | ([[=] | [=]] & _)]; split; assumption ]);
    try (rewrite Hkey; split;
         [ intros [Hd Hz]; right; split; [auto | split; assumption]
         | intros [([[=] | [=]] & _) | (_ & Hd & Hz)]; split; assumption ]);
    (split;
     [ intros [index Hout];
       repeat match type of Hout with
              | context [if ?b then _ else _] => destruct b
              | context [match ?o with Some _ => _ | None => _ end] =>
                  destruct o eqn:?
              end; cbn in Hout; try discriminate
     | intros [([[=] | [=]] & _) | ([[=] | [=]] & _)] ]).
  all: try (unfold array_store in *;
            rewrite Hlen in *; cbn in *; discriminate).
Qed.

(** A key-down event with key code 600, beyond the 512 key flags, stores
    out of bounds; a button-down event with button index 3 does not. *)
Lemma ProcessEvent_out_of_bounds_iff_witness :
  (exists index,
      snd (ImGui_ImplAllegro5_ProcessEvent example_io
             (example_bd 0 0 double_zero)
             (key_event ALLEGRO_EVENT_KEY_DOWN 100 600 0))
      = OutOfBounds index)
  /\ ~ (exists index,
          snd (ImGui_ImplAllegro5_ProcessEvent example_io
                 (example_bd 0 0 double_zero)
                 (mouse_event ALLEGRO_EVENT_MOUSE_BUTTON_DOWN 100 3))
          = OutOfBounds index).
Proof.
  split.
  - apply (proj2 (ProcessEvent_out_of_bounds_iff example_io
                    (example_bd 0 0 double_zero)
                    (key_event ALLEGRO_EVENT_KEY_DOWN 100 600 0)
                    eq_refl ltac:(simpl; lia))).
    right. split; [left; reflexivity|]. split; [reflexivity|].
    simpl. lia.
  - intros Hout.
    apply (proj1 (ProcessEvent_out_of_bounds_iff example_io
                    (example_bd 0 0 double_zero)
                    (mouse_event ALLEGRO_EVENT_MOUSE_BUTTON_DOWN 100 3)
                    eq_refl ltac:(simpl; lia))) in Hout.
    destruct Hout as [(_ & _ & Hb) | ([Hty | Hty] & _)]; discriminate.
Defined.

(** The middle button (index 3) goes down: flag 2 is set. *)
Lemma ProcessEvent_button_in_range_witness :
  ImGui_ImplAllegro5_ProcessEvent example_io (example_bd 0 0 double_zero)
    (mouse_event ALLEGRO_EVENT_MOUSE_BUTTON_DOWN 100 3)
  = (true,
     InBounds (set_MouseDown [false; false; true; false; false] example_io)).
Proof.
  exact (ProcessEvent_button_in_range example_io (example_bd 0 0 double_zero)
           (mouse_event ALLEGRO_EVENT_MOUSE_BUTTON_DOWN 100 3)
           (or_introl eq_refl) eq_refl ltac:(simpl; lia) eq_refl).
Defined.

(** X4: a key-down or key-up event for the bound display whose key code
    is an index of the key array sets the flag at that index, and that
    flag only, to whether the event is a key-down event; the key code is
    used as it comes, without a look at the modifier flags or the key
    map. *)
Theorem ProcessEvent_key_in_range io bd ev :
  ev_type ev = ALLEGRO_EVENT_KEY_DOWN \/ ev_type ev = ALLEGRO_EVENT_KEY_UP ->
  keyboard_display (ev_keyboard ev) = Display bd ->
  0 <= keyboard_keycode (ev_keyboard ev) < Z.of_nat (length (KeysDown io)) ->
  exists io',
    ImGui_ImplAllegro5_ProcessEvent io bd ev = (true, InBounds io')
    /\ KeysDown io' !! Z.to_nat (keyboard_keycode (ev_keyboard ev))
       = Some (is_type (ev_type ev) ALLEGRO_EVENT_KEY_DOWN)
    /\ (forall k, k <> Z.to_nat (keyboard_keycode (ev_keyboard ev)) ->
          KeysDown io' !! k = KeysDown io !! k)
    /\ set_KeysDown (KeysDown io) io' = io.
Proof.
  intros Hty Hd Hk. unfold ImGui_ImplAllegro5_ProcessEvent.
  destruct Hty as [-> | ->];
    rewrite Hd, Z.eqb_refl, array_store_in_range by exact Hk;
    (eexists; split; [reflexivity|]);
    destruct io; cbn in *;
    (split; [apply list_lookup_insert_eq; lia|]);
    (split; [intros k Hne; apply list_lookup_insert_ne; congruence
            | reflexivity]).
Qed.

(** Key 65 goes down and comes up again: the input state is what it
    was. *)
Lemma ProcessEvent_key_in_range_witness :
  exists io',
    ImGui_ImplAllegro5_ProcessEvent example_io (example_bd 0 0 double_zero)
      (key_event ALLEGRO_EVENT_KEY_DOWN 100 65 0) = (true, InBounds io')
    /\ KeysDown io' !! 65%nat = Some true
    /\ KeysDown io' !! 66%nat = Some false.
Proof.
  destruct (ProcessEvent_key_in_range example_io (example_bd 0 0 double_zero)
              (key_event ALLEGRO_EVENT_KEY_DOWN 100 65 0)
              (or_introl eq_refl) eq_refl ltac:(simpl; lia))
    as (io' & Hev & Hset & Hother & _).
  exists io'. split; [exact Hev|]. split; [exact Hset|].
  rewrite (Hother 66%nat) by (simpl; lia). reflexivity.
Defined.

(** X5: a primary touch on the bound display is handled as the left mouse
    button: a touch-begin event gives the result of a button-down event
    with button index 1, a touch-end or touch-cancel event that of a
    button-up event with button index 1.  A touch that is not primary
    changes nothing. *)
Theorem ProcessEvent_touch_as_left_button io bd ev ev_button :
  ev_type ev = ALLEGRO_EVENT_TOUCH_BEGIN
  \/ ev_type ev = ALLEGRO_EVENT_TOUCH_END
  \/ ev_type ev = ALLEGRO_EVENT_TOUCH_CANCEL ->
  touch_display (ev_touch ev) = Display bd ->
  ev_type ev_button
  = (if is_type (ev_type ev) ALLEGRO_EVENT_TOUCH_BEGIN
     then ALLEGRO_EVENT_MOUSE_BUTTON_DOWN else ALLEGRO_EVENT_MOUSE_BUTTON_UP) ->
  mouse_display (ev_mouse ev_button) = Display bd ->
  mouse_button (ev_mouse ev_button) = 1 ->
  ImGui_ImplAllegro5_ProcessEvent io bd ev
  = if touch_primary (ev_touch ev)
    then ImGui_ImplAllegro5_ProcessEvent io bd ev_button
    else (true, InBounds io).
Proof.
  intros Hty Hd Htyb Hdb Hb. unfold ImGui_ImplAllegro5_ProcessEvent.
  rewrite Htyb, Hd, Z.eqb_refl.
  destruct Hty as [-> | [-> | ->]]; cbn [is_type bool_decide andb];
    rewrite ?Hdb, ?Hb, ?Z.eqb_refl;
    destruct (touch_primary (ev_touch ev)); reflexivity.
Qed.

(** A primary touch begins and ends on the bound display; a second finger
    (not primary) begins. *)
Lemma ProcessEvent_touch_as_left_button_witness :
  let bd := example_bd 0 0 double_zero in
  ImGui_ImplAllegro5_ProcessEvent example_io bd
    (touch_event ALLEGRO_EVENT_TOUCH_BEGIN 100 7 8 true)
  = (true,
     InBounds (set_MouseDown [true; false; false; false; false] example_io))
  /\ ImGui_ImplAllegro5_ProcessEvent example_io bd
       (touch_event ALLEGRO_EVENT_TOUCH_BEGIN 100 7 8 false)
     = (true, InBounds example_io).
Proof.
  intros bd. split.
  - rewrite (ProcessEvent_touch_as_left_button example_io bd
               (touch_event ALLEGRO_EVENT_TOUCH_BEGIN 100 7 8 true)
               (mouse_event ALLEGRO_EVENT_MOUSE_BUTTON_DOWN 100 1)
               (or_introl eq_refl) eq_refl eq_refl eq_refl eq_refl).
    reflexivity.
  - exact (ProcessEvent_touch_as_left_button example_io bd
             (touch_event ALLEGRO_EVENT_TOUCH_BEGIN 100 7 8 false)
             (mouse_event ALLEGRO_EVENT_MOUSE_BUTTON_DOWN 100 1)
             (or_introl eq_refl) eq_refl eq_refl eq_refl eq_refl).
Defined.

(** * Further properties of the draw translator *)

Section MoreRenderFacts.

Context `{Platform}.

Lemma ImVector_at_is_Some {A} (v : list A) (i : Z) :
  is_Some (ImVector_at v i) <-> 0 <= i < Z.of_nat (length v).
Proof.
  split; [|apply ImVector_at_in_range].
  unfold ImVector_at. destruct (Z.leb_spec 0 i) as [Hlo|Hlo].
  - intros Hs. apply lookup_lt_is_Some in Hs. lia.
  - intros [? [=]].
Qed.

(** The unindexing loop runs to its end exactly when every index it meets
    refers to a vertex. *)
Lemma unindex_from_is_Some (Vtx : list ImDrawVert) :
  forall (idxs : list Z) (i : nat) (vs : list ImDrawVertAllegro),
    is_Some (unindex_from Vtx idxs i vs)
    <-> Forall (fun idx => 0 <= idx < Z.of_nat (length Vtx)) idxs.
Proof.
  induction idxs as [|idx idxs IH]; intros i vs; cbn [unindex_from].
  - split; [intros _; apply List.Forall_nil | intros _; eauto].
  - destruct (ImVector_at Vtx idx) as [src_v|] eqn:Hat; cbn.
    + rewrite IH. split.
      * intros Hrest. apply List.Forall_cons; [|exact Hrest].
        apply ImVector_at_is_Some. rewrite Hat. eauto.
      * intros Hall. inversion Hall; assumption.
    + split; [intros [? [=]]|].
      intros Hall. inversion Hall as [|? ? Hidx _]; subst.
      apply ImVector_at_is_Some in Hidx. rewrite Hat in Hidx.
      destruct Hidx as [? [=]].
Qed.




End MoreRenderFacts.


Section DrawLogFacts.

Context `{Platform}.

(** The loop entered at [i] on a vector of [i] slots and one more for
    each index still to visit: the slots below [i] stay, the others are
    the converted vertices, in index order. *)
Lemma unindex_from_result (Vtx : list ImDrawVert) :
  forall (idxs : list Z) (i : nat) (vs : list ImDrawVertAllegro),
    length vs = (i + length idxs)%nat ->
    Forall (fun idx => 0 <= idx < Z.of_nat (length Vtx)) idxs ->
    unindex_from Vtx idxs i vs
    = Some (take i vs
            ++ omap (fun idx => convert_vert <$> ImVector_at Vtx idx) idxs).
Proof.
  induction idxs as [|idx idxs IH]; intros i vs Hlen Hall;
    cbn [unindex_from omap length] in *.
  - rewrite app_nil_r, take_ge by lia. reflexivity.
  - inversion Hall as [|? ? Hidx Hrest]; subst.
    destruct (ImVector_at_in_range Vtx idx Hidx) as [src_v Hat].
    cbn. rewrite Hat. cbn.
    rewrite IH; [|rewrite length_insert; lia|exact Hrest].
    rewrite (take_S_r _ i (convert_vert src_v))
      by (apply list_lookup_insert_eq; lia).
    rewrite take_insert_ge by lia.
    rewrite <- app_assoc. reflexivity.
Qed.

Lemma unindex_in_range cmd_list scratch :
  indices_in_range cmd_list ->
  unindex cmd_list scratch = Some (converted_vertices cmd_list).
Proof.
  intros Hall. unfold unindex, converted_vertices.
  rewrite unindex_from_result;
    [reflexivity | rewrite ImVector_resize_length; lia | exact Hall].
Qed.

(** Whatever the scratch vector holds, unindexing a batch gives the same
    result. *)
Lemma unindex_ignores_scratch cmd_list scratch1 scratch2 :
  unindex cmd_list scratch1 = unindex cmd_list scratch2.
Proof.
  destruct (unindex cmd_list scratch1) as [vs1|] eqn:H1.
  - assert (Hin : indices_in_range cmd_list).
    { apply (unindex_from_is_Some (VtxBuffer cmd_list) (IdxBuffer cmd_list)
               0%nat (ImVector_resize uninit_vert
                        (length (IdxBuffer cmd_list)) scratch1)).
      unfold unindex in H1. rewrite H1. eauto. }
    rewrite unindex_in_range in H1 by exact Hin.
    rewrite unindex_in_range by exact Hin. congruence.
  - destruct (unindex cmd_list scratch2) as [vs2|] eqn:H2; [|reflexivity].
    assert (Hin : indices_in_range cmd_list).
    { apply (unindex_from_is_Some (VtxBuffer cmd_list) (IdxBuffer cmd_list)
               0%nat (ImVector_resize uninit_vert
                        (length (IdxBuffer cmd_list)) scratch2)).
      unfold unindex in H2. rewrite H2. eauto. }
    rewrite unindex_in_range in H1 by exact Hin. discriminate.
Qed.

Lemma render_lists_ignores_scratch draw_data bd :
  forall lists t s1 s2,
    fst <$> render_lists draw_data bd lists (t, s1)
    = fst <$> render_lists draw_data bd lists (t, s2).
Proof.
  induction lists as [|cmd_list lists IH]; intros t s1 s2;
    cbn [render_lists]; [reflexivity|].
  unfold render_list.
  rewrite (unindex_ignores_scratch cmd_list (vertices s1) (vertices s2)).
  destruct (unindex cmd_list (vertices s2)) as [vs|]; cbn; [|reflexivity].
  destruct (render_cmds draw_data bd vs (CmdBuffer cmd_list) (t, 0))
    as [t1 off]. cbn. apply IH.
Qed.

(** X8: what rendering does to the target does not depend on what the two
    function-local [static] scratch vectors hold from earlier calls. *)
Theorem RenderDrawData_ignores_scratch_contents bd draw_data t s1 s2 :
  fst <$> ImGui_ImplAllegro5_RenderDrawData bd draw_data (t, s1)
  = fst <$> ImGui_ImplAllegro5_RenderDrawData bd draw_data (t, s2).
Proof.
  unfold ImGui_ImplAllegro5_RenderDrawData.
  destruct (fleb _ _ || fleb _ _); [reflexivity|].
  cbv zeta. destruct (al_get_blender t) as [[op src] dst].
  pose proof (render_lists_ignores_scratch draw_data bd (CmdLists draw_data)
                (ImGui_ImplAllegro5_SetupRenderState draw_data t) s1 s2)
    as Hsame.
  destruct (render_lists draw_data bd (CmdLists draw_data)
              (ImGui_ImplAllegro5_SetupRenderState draw_data t, s1))
    as [[t1 s1']|];
    destruct (render_lists draw_data bd (CmdLists draw_data)
                (ImGui_ImplAllegro5_SetupRenderState draw_data t, s2))
      as [[t2 s2']|]; cbn in *; congruence.
Qed.






(** X10: rendering gives back the two transforms, the clipping rectangle
    and the colour part of the blender as it found them, whatever the
    commands and their callbacks did to them; and it gives back the whole
    blender when the alpha part found was the same as the colour part. *)
Theorem RenderDrawData_gives_back_render_state bd draw_data t s t' s' :
  ImGui_ImplAllegro5_RenderDrawData bd draw_data (t, s) = Some (t', s') ->
  current_transform t' = current_transform t
  /\ current_projection_transform t' = current_projection_transform t
  /\ clipping_rectangle t' = clipping_rectangle t
  /\ al_get_blender t' = al_get_blender t
  /\ ((blend_alpha_op (blender t), blend_alpha_src (blender t),
       blend_alpha_dst (blender t)) = al_get_blender t ->
      blender t' = blender t).
Proof.
  intros Hrun.
  destruct (RenderDrawData_restores bd draw_data t s t' s' Hrun)
    as (Htr & Hpr & Hclip & Hop & Hsrc & Hdst).
  split; [exact Htr|]. split; [exact Hpr|]. split; [exact Hclip|].
  split; [unfold al_get_blender; congruence|].
  unfold al_get_blender. intros [= Ha Hb Hc].
  destruct (fleb (vec2_x (DisplaySize draw_data)) float_zero) eqn:Hx;
    [|destruct (fleb (vec2_y (DisplaySize draw_data)) float_zero) eqn:Hy].
  - unfold ImGui_ImplAllegro5_RenderDrawData in Hrun. rewrite Hx in Hrun.
    cbn in Hrun. congruence.
  - unfold ImGui_ImplAllegro5_RenderDrawData in Hrun. rewrite Hx, Hy in Hrun.
    cbn in Hrun. congruence.
  - rewrite (RenderDrawData_blender_after bd draw_data t s t' s' Hx Hy Hrun).
    destruct (blender t). cbn in *. congruence.
Qed.

End DrawLogFacts.


(** A user callback replaces the transforms, the clipping rectangle and
    the blender in the middle of a batch. *)
Lemma RenderDrawData_gives_back_render_state_witness :
  exists t' s',
    @ImGui_ImplAllegro5_RenderDrawData example_platform
      (example_bd 0 0 double_zero)
      (example_draw_data (vec2 640 480)
         [example_list [proper_cmd; scramble_cmd; proper_cmd]])
      (example_target default_blender, example_scratch) = Some (t', s')
    /\ current_transform t' = sym_given 1
    /\ current_projection_transform t' = sym_given 2
    /\ clipping_rectangle t' = mkClip 0 0 640 480
    /\ blender t' = default_blender
    /\ length (drawn t') = 2%nat.
Proof.
  destruct (@ImGui_ImplAllegro5_RenderDrawData example_platform
              (example_bd 0 0 double_zero)
              (example_draw_data (vec2 640 480)
                 [example_list [proper_cmd; scramble_cmd; proper_cmd]])
              (example_target default_blender, example_scratch))
    as [[t' s']|] eqn:Hrun; [|exfalso; vm_compute in Hrun; discriminate].
  exists t', s'. split; [reflexivity|].
  destruct (@RenderDrawData_gives_back_render_state example_platform
              _ _ _ _ _ _ Hrun) as (Htr & Hpr & Hclip & _ & Hbl).
  split; [exact Htr|]. split; [exact Hpr|]. split; [exact Hclip|].
  split; [exact (Hbl eq_refl)|].
  vm_compute in Hrun. injection Hrun as <- _. reflexivity.
Defined.

(** * Further properties of the device resources *)

Lemma release_below p l :
  Forall (fun q => q < p) l -> release p l = l.
Proof.
  induction 1 as [|q l Hq _ IH]; cbn [release]; [reflexivity|].
  destruct (Z.eqb_spec q p); [lia|]. rewrite IH. reflexivity.
Qed.

Lemma release_last p l :
  Forall (fun q => q < p) l -> release p (l ++ [p]) = l.
Proof.
  intros Hl. rewrite release_app, release_self, release_below, app_nil_r
    by exact Hl. reflexivity.
Qed.

Lemma Forall_below_mono (l : list Z) (a b : Z) :
  a <= b -> Forall (fun p => p < a) l -> Forall (fun p => p < b) l.
Proof.
  intros Hab. apply List.Forall_impl. intros p Hp. lia.
Qed.

Lemma Forall_below_snoc (l : list Z) (p b : Z) :
  p < b -> Forall (fun q => q < p) l -> Forall (fun q => q < b) (l ++ [p]).
Proof.
  intros Hp Hl. apply Forall_app. split.
  - apply (Forall_below_mono l p b); [lia | exact Hl].
  - apply List.Forall_cons; [exact Hp | apply List.Forall_nil].
Qed.

Lemma owned_non_null p : p <> NULL -> owned p = [p].
Proof.
  intros Hp. unfold owned, is_null.
  destruct (Z.eqb_spec p NULL); [contradiction | reflexivity].
Qed.

(** What invalidating the device objects does to the state. *)
Lemma InvalidateDeviceObjects_effect (w : World) :
  let w' := ImGui_ImplAllegro5_InvalidateDeviceObjects w in
  bitmaps (host w')
  = (if is_null (Texture (bd w)) then bitmaps (host w)
     else release (Texture (bd w)) (bitmaps (host w)))
  /\ cursors (host w')
     = (if is_null (MouseCursorInvisible (bd w)) then cursors (host w)
        else release (MouseCursorInvisible (bd w)) (cursors (host w)))
  /\ next_handle (host w') = next_handle (host w)
  /\ answers (host w') = answers (host w)
  /\ io w' = (if is_null (Texture (bd w)) then io w
              else set_Fonts_TexID NULL (io w))
  /\ bd w' = set_MouseCursorInvisible NULL (set_Texture NULL (bd w)).
Proof.
  destruct w as [d i b]. destruct b as [dp tx tm mc vd cb].
  cbv zeta. unfold ImGui_ImplAllegro5_InvalidateDeviceObjects.
  cbn [bd host io Texture MouseCursorInvisible].
  destruct (is_null tx) eqn:Htx;
    cbn [negb bd host io Texture MouseCursorInvisible set_Texture
         set_MouseCursorInvisible];
    destruct (is_null mc) eqn:Hmc;
    cbn [negb bd host io Texture MouseCursorInvisible set_Texture
         set_MouseCursorInvisible];
    unfold al_destroy_bitmap, al_destroy_mouse_cursor;
    rewrite ?Htx, ?Hmc;
    cbn [bitmaps cursors next_handle answers after_call];
    unfold is_null in Htx, Hmc;
    try (apply Z.eqb_eq in Htx; subst tx);
    try (apply Z.eqb_eq in Hmc; subst mc);
    repeat split.
Qed.

Section MoreDeviceFacts.

Context `{Platform}.

Ltac open_host :=
  unfold ImGui_ImplAllegro5_CreateDeviceObjects, al_create_mouse_cursor,
    al_create_bitmap, al_lock_bitmap, al_unlock_bitmap, al_clone_bitmap,
    al_destroy_bitmap, al_set_new_bitmap_flags, al_set_new_bitmap_format,
    al_get_new_bitmap_flags, al_get_new_bitmap_format.

Ltac not_null :=
  unfold is_null, NULL;
  repeat match goal with
         | |- context [?p =? 0] =>
             let E := fresh in
             assert (E : (p =? 0) = false) by (apply Z.eqb_neq; lia);
             rewrite E; clear E
         end.

Ltac answer_cases :=
  match goal with
  | |- context [hd true ?l] => destruct (hd true l); simpl
  end.

(** What creating the device objects does to the resources alive, on a
    well-formed device: on success the font texture, and the invisible
    cursor if one could be made, are added and are new; on failure
    nothing is added; nothing that was alive is released. *)
Lemma CreateDeviceObjects_resources (w : World) :
  handles_below (host w) ->
  let r := ImGui_ImplAllegro5_CreateDeviceObjects w in
  let w' := snd r in
  handles_below (host w')
  /\ next_handle (host w) <= next_handle (host w')
  /\ (if fst r
      then next_handle (host w) <= Texture (bd w')
           /\ Fonts_TexID (io w') = Texture (bd w')
           /\ io w' = set_Fonts_TexID (Texture (bd w')) (io w)
           /\ bd w' = set_MouseCursorInvisible (MouseCursorInvisible (bd w'))
                        (set_Texture (Texture (bd w')) (bd w))
           /\ (MouseCursorInvisible (bd w') = NULL
               \/ next_handle (host w) <= MouseCursorInvisible (bd w'))
           /\ bitmaps (host w') = bitmaps (host w) ++ [Texture (bd w')]
           /\ cursors (host w')
              = cursors (host w) ++ owned (MouseCursorInvisible (bd w'))
      else io w' = io w /\ bd w' = bd w
           /\ bitmaps (host w') = bitmaps (host w)
           /\ cursors (host w') = cursors (host w)).
Proof.
  destruct w as [d i b]. destruct i, b. cbn [host io bd].
  intros (Hnext & Hbs & Hcs). cbv zeta.
  assert (Hb1 : Forall (fun p => p < next_handle d + 1) (bitmaps d))
    by (apply (Forall_below_mono _ (next_handle d)); [lia | exact Hbs]).
  assert (Hb2 : Forall (fun p => p < next_handle d + 1 + 1) (bitmaps d))
    by (apply (Forall_below_mono _ (next_handle d)); [lia | exact Hbs]).
  assert (Hb3 : Forall (fun p => p < next_handle d + 1 + 1 + 1) (bitmaps d))
    by (apply (Forall_below_mono _ (next_handle d)); [lia | exact Hbs]).
  assert (Hb4 : Forall (fun p => p < next_handle d + 1 + 1 + 1 + 1)
                       (bitmaps d))
    by (apply (Forall_below_mono _ (next_handle d)); [lia | exact Hbs]).
  assert (Hc1 : Forall (fun p => p < next_handle d + 1) (cursors d))
    by (apply (Forall_below_mono _ (next_handle d)); [lia | exact Hcs]).
  assert (Hc2 : Forall (fun p => p < next_handle d + 1 + 1) (cursors d))
    by (apply (Forall_below_mono _ (next_handle d)); [lia | exact Hcs]).
  assert (Hc3 : Forall (fun p => p < next_handle d + 1 + 1 + 1) (cursors d))
    by (apply (Forall_below_mono _ (next_handle d)); [lia | exact Hcs]).
  assert (Hc4 : Forall (fun p => p < next_handle d + 1 + 1 + 1 + 1)
                       (cursors d))
    by (apply (Forall_below_mono _ (next_handle d)); [lia | exact Hcs]).
  assert (Hkeep : release (next_handle d)
                    ((bitmaps d ++ [next_handle d]) ++ [next_handle d + 1])
                  = bitmaps d ++ [next_handle d + 1]).
  { rewrite release_app, release_last by exact Hbs.
    rewrite release_other by lia. reflexivity. }
  assert (Hsnoc : Forall (fun p => p < next_handle d + 1 + 1)
                         (bitmaps d ++ [next_handle d + 1]))
    by (apply Forall_below_snoc; [lia | exact Hb1]).
  unfold handles_below. open_host. simpl.
  answer_cases; not_null; simpl.
  2: { repeat split; (assumption || lia). }
  answer_cases.
  2: { rewrite release_last by exact Hbs.
       repeat split; (assumption || lia). }
  answer_cases; not_null; simpl.
  2: { rewrite release_last by exact Hbs.
       repeat split; (assumption || lia). }
  rewrite Hkeep.
  answer_cases; not_null; simpl; [answer_cases|]; simpl;
    rewrite ?release_last by exact Hsnoc;
    unfold owned, is_null, NULL; not_null; cbn [Z.eqb];
    rewrite ?app_nil_r.
  - split; [split; [lia|]; split|].
    + apply (Forall_below_mono _ (next_handle d + 1 + 1)); [lia|exact Hsnoc].
    + apply Forall_below_snoc; [lia|exact Hc3].
    + repeat split; lia.
  - split; [split; [lia|]; split|].
    + apply (Forall_below_mono _ (next_handle d + 1 + 1)); [lia|exact Hsnoc].
    + exact Hc3.
    + repeat split; lia.
  - split; [split; [lia|]; split|].
    + exact Hsnoc.
    + exact Hc2.
    + repeat split; lia.
Qed.

(** X11: creating the device objects asks for the font-atlas bitmap, of
    the atlas size, as a memory bitmap with linear minification and
    magnification in the ABGR 8888 little-endian format, before any other
    call; the only other bitmap it creates is the 8x8 one for the cursor,
    under the caller's settings; and on every path it leaves the flags
    and the format for new bitmaps as the caller had them. *)
Theorem CreateDeviceObjects_atlas_request_and_settings (w : World) :
  let r := ImGui_ImplAllegro5_CreateDeviceObjects w in
  new_bitmap_flags (host (snd r)) = new_bitmap_flags (host w)
  /\ new_bitmap_format (host (snd r)) = new_bitmap_format (host w)
  /\ exists img rest,
       calls (host (snd r))
       = calls (host w)
         ++ call_create_bitmap (Fonts_TexWidth (io w)) (Fonts_TexHeight (io w))
              (Z.lor (Z.lor ALLEGRO_MEMORY_BITMAP ALLEGRO_MIN_LINEAR)
                     ALLEGRO_MAG_LINEAR)
              ALLEGRO_PIXEL_FORMAT_ABGR_8888_LE img
            :: rest
       /\ Forall (fun c =>
                    match c with
                    | call_create_bitmap bw bh flags format _ =>
                        bw = 8 /\ bh = 8
                        /\ flags = new_bitmap_flags (host w)
                        /\ format = new_bitmap_format (host w)
                    | _ => True
                    end) rest.
Proof.
  destruct w as [d i b]. destruct i. cbv zeta. open_host. simpl.
  repeat match goal with
         | |- context [if ?c then _ else _] => destruct c; simpl
         end;
    (split; [reflexivity|]; split; [reflexivity|]);
    eexists _, _; (split; [rewrite <- ?app_assoc; reflexivity|]);
    repeat (apply List.Forall_cons; [try exact I; repeat split|]);
    apply List.Forall_nil.
Qed.


(** X13: creating the device objects releases no bitmap that was alive
    before it.  So when the backend already holds a texture, a call that
    succeeds leaves that bitmap alive, with neither the backend data nor
    the font atlas referring to it. *)
Theorem CreateDeviceObjects_keeps_earlier_texture_alive (w : World) :
  handles_below (host w) ->
  In (Texture (bd w)) (bitmaps (host w)) ->
  let r := ImGui_ImplAllegro5_CreateDeviceObjects w in
  In (Texture (bd w)) (bitmaps (host (snd r)))
  /\ (fst r = true ->
      Texture (bd (snd r)) <> Texture (bd w)
      /\ Fonts_TexID (io (snd r)) <> Texture (bd w)
      /\ In (Texture (bd (snd r))) (bitmaps (host (snd r)))).
Proof.
  intros Hok Hin. cbv zeta.
  pose proof Hok as (Hnext & Hbs & Hcs).
  assert (Hold : Texture (bd w) < next_handle (host w)).
  { rewrite List.Forall_forall in Hbs. apply Hbs. exact Hin. }
  destruct (CreateDeviceObjects_resources w Hok) as (_ & _ & Hres).
  destruct (ImGui_ImplAllegro5_CreateDeviceObjects w) as [ok w1].
  cbn [fst snd] in *. destruct ok.
  - destruct Hres as (Hnew & Htid & _ & _ & _ & Hbs1 & _).
    rewrite Hbs1, Htid. split; [apply in_or_app; left; exact Hin|].
    intros _. split; [lia|]. split; [lia|].
    apply in_or_app. right. left. reflexivity.
  - destruct Hres as (_ & _ & Hbs1 & _). rewrite Hbs1.
    split; [exact Hin | discriminate].
Qed.

End MoreDeviceFacts.

Lemma example_device_handles_below ans now :
  handles_below (example_device ans now).
Proof.
  split; [cbn; lia|].
  split; repeat (apply List.Forall_cons; [cbn; lia|]); apply List.Forall_nil.
Qed.


(** The backend holds bitmap 21 as its texture and the device objects are
    created again: bitmap 21 stays alive beside the new texture 1001. *)
Lemma CreateDeviceObjects_keeps_earlier_texture_alive_witness :
  let r := @ImGui_ImplAllegro5_CreateDeviceObjects example_platform
             (example_world [] 21 0 double_zero double_zero) in
  fst r = true
  /\ Texture (bd (snd r)) = 1001
  /\ In 21 (bitmaps (host (snd r)))
  /\ In 1001 (bitmaps (host (snd r))).
Proof.
  intros r.
  destruct (@CreateDeviceObjects_keeps_earlier_texture_alive example_platform
              (example_world [] 21 0 double_zero double_zero)
              (example_device_handles_below [] double_zero)
              ltac:(cbn; tauto)) as (Hold & Hnew).
  assert (Hok : fst r = true) by reflexivity.
  assert (Htex : Texture (bd (snd r)) = 1001) by reflexivity.
  destruct (Hnew Hok) as (_ & _ & Hin).
  split; [exact Hok|]. split; [exact Htex|]. split; [exact Hold|].
  rewrite <- Htex. exact Hin.
Defined.

(** * Further properties of the per-frame refresh *)

Section MoreFrameFacts.

Context `{Platform}.

(** Creating the device objects leaves alone what the refresh samples
    and every field of the input/output state but the texture
    identifier. *)
Lemma CreateDeviceObjects_keeps_inputs (w : World) :
  let w' := snd (ImGui_ImplAllegro5_CreateDeviceObjects w) in
  display_width (host w') = display_width (host w)
  /\ display_height (host w') = display_height (host w)
  /\ keyboard (host w') = keyboard (host w)
  /\ Display (bd w') = Display (bd w)
  /\ set_Fonts_TexID NULL (io w') = set_Fonts_TexID NULL (io w).
Proof.
  destruct w as [d i b]. destruct i, b. cbv zeta.
  unfold ImGui_ImplAllegro5_CreateDeviceObjects, al_create_mouse_cursor,
    al_create_bitmap, al_lock_bitmap, al_unlock_bitmap, al_clone_bitmap,
    al_destroy_bitmap, al_set_new_bitmap_flags, al_set_new_bitmap_format,
    al_get_new_bitmap_flags, al_get_new_bitmap_format.
  simpl.
  repeat match goal with
         | |- context [if ?c then _ else _] => destruct c; simpl
         end; repeat split.
Qed.

(** X14: a refresh leaves every input that events deliver as it was (the
    mouse position, buttons and wheels, the key flags, the text queue, the
    focus flag) and the configuration; the display size it writes is the
    size of the display, and the four modifier flags are read from the
    keyboard state, left or right key, not from the key events seen. *)
Theorem NewFrame_samples_display_and_modifiers (w : World) :
  let w' := ImGui_ImplAllegro5_NewFrame w in
  let keys := keyboard (host w) in
  IO_DisplaySize (io w')
  = mkImVec2 (float_of_int (display_width (host w)))
             (float_of_int (display_height (host w)))
  /\ KeyCtrl (io w') = al_key_down keys ALLEGRO_KEY_LCTRL
                       || al_key_down keys ALLEGRO_KEY_RCTRL
  /\ KeyShift (io w') = al_key_down keys ALLEGRO_KEY_LSHIFT
                        || al_key_down keys ALLEGRO_KEY_RSHIFT
  /\ KeyAlt (io w') = al_key_down keys ALLEGRO_KEY_ALT
                      || al_key_down keys ALLEGRO_KEY_ALTGR
  /\ KeySuper (io w') = al_key_down keys ALLEGRO_KEY_LWIN
                        || al_key_down keys ALLEGRO_KEY_RWIN
  /\ (MousePos (io w'), MouseDown (io w'), MouseWheel (io w'),
      MouseWheelH (io w'))
     = (MousePos (io w), MouseDown (io w), MouseWheel (io w),
        MouseWheelH (io w))
  /\ (KeysDown (io w'), InputQueueCharacters (io w'), AppFocused (io w'))
     = (KeysDown (io w), InputQueueCharacters (io w), AppFocused (io w))
  /\ (ConfigFlags (io w'), MouseDrawCursor (io w'), MouseCursor (io w'))
     = (ConfigFlags (io w), MouseDrawCursor (io w), MouseCursor (io w)).
Proof.
  cbv zeta. unfold ImGui_ImplAllegro5_NewFrame, al_get_display_width,
    al_get_display_height.
  set (w1 := if is_null (Texture (bd w))
             then snd (ImGui_ImplAllegro5_CreateDeviceObjects w) else w).
  assert (Hkeep : display_width (host w1) = display_width (host w)
                  /\ display_height (host w1) = display_height (host w)
                  /\ keyboard (host w1) = keyboard (host w)
                  /\ set_Fonts_TexID NULL (io w1)
                     = set_Fonts_TexID NULL (io w)).
  { subst w1. destruct (is_null (Texture (bd w))).
    - destruct (CreateDeviceObjects_keeps_inputs w) as (? & ? & ? & _ & ?).
      repeat split; assumption.
    - repeat split. }
  destruct Hkeep as (Hw & Hh & Hk & Hio). clearbody w1.
  match goal with
  | |- context [ImGui_ImplAllegro5_UpdateMouseCursor ?x] =>
      destruct (UpdateMouseCursor_keeps_io_bd x) as [-> _]
  end.
  cbn [io host]. rewrite Hw, Hh, Hk.
  destruct (io w1), (io w). cbn in Hio. injection Hio as -> -> -> -> -> -> ->
    -> -> -> -> -> -> -> -> -> -> ->.
  cbn. repeat split.
Qed.


(** X16: when the refresh is not to leave the cursor alone, Dear ImGui
    does not draw it and the shape wanted is not [None], two shapes make
    the refresh select the same system cursor exactly when they are the
    same shape or are the arrow and the hand: the hand has no system
    cursor of its own, every other shape has. *)
Theorem UpdateMouseCursor_shapes (w1 w2 : World) :
  host w1 = host w2 ->
  bd w1 = bd w2 ->
  Z.land (ConfigFlags (io w1)) ImGuiConfigFlags_NoMouseCursorChange = 0 ->
  Z.land (ConfigFlags (io w2)) ImGuiConfigFlags_NoMouseCursorChange = 0 ->
  MouseDrawCursor (io w1) = false ->
  MouseDrawCursor (io w2) = false ->
  MouseCursor (io w1) <> ImGuiMouseCursor_None ->
  MouseCursor (io w2) <> ImGuiMouseCursor_None ->
  host (ImGui_ImplAllegro5_UpdateMouseCursor w1)
  = host (ImGui_ImplAllegro5_UpdateMouseCursor w2)
  <-> (MouseCursor (io w1) = MouseCursor (io w2)
       \/ ((MouseCursor (io w1) = ImGuiMouseCursor_Arrow
            \/ MouseCursor (io w1) = ImGuiMouseCursor_Hand)
           /\ (MouseCursor (io w2) = ImGuiMouseCursor_Arrow
               \/ MouseCursor (io w2) = ImGuiMouseCursor_Hand))).
Proof.
  destruct w1 as [d1 i1 b1], w2 as [d2 i2 b2]. cbn [host bd io].
  intros <- <- Hf1 Hf2 Hd1 Hd2 Hn1 Hn2.
  unfold ImGui_ImplAllegro5_UpdateMouseCursor. cbn [host bd io].
  rewrite Hf1, Hf2, Hd1, Hd2. cbn [Z.eqb negb orb].
  unfold al_set_system_mouse_cursor, after_call.
  destruct (MouseCursor i1), (MouseCursor i2);
    try contradiction; cbn [host];
    (split;
     [ intros Heq; apply (f_equal calls) in Heq; cbn [calls] in Heq;
       apply app_inv_head in Heq; try discriminate Heq; tauto
     | intros [Heq | ([Ha | Ha] & [Hb | Hb])];
       try discriminate; reflexivity ]).
Qed.

(** X17: a refresh that finds the clock where the last refresh left it
    (a positive finite reading) writes a frame delta of zero. *)
Theorem NewFrame_stalled_clock (w : World) (m : positive) (e : Z) :
  Time (bd w) = S754_finite false m e ->
  al_get_time (host w) = Time (bd w) ->
  DeltaTime (io (ImGui_ImplAllegro5_NewFrame w)) = float_zero.
Proof.
  intros Htime Hclock. destruct (NewFrame_time w) as [-> _].
  rewrite Hclock, Htime. cbn [dltb SFltb SFcompare double_zero].
  unfold dsub, SFsub. rewrite Z.sub_diag. reflexivity.
Qed.

End MoreFrameFacts.

Lemma bd_mkWorld h i b : bd (mkWorld h i b) = b.
Proof. reflexivity. Qed.


(** The arrow and the hand select the same system cursor; the arrow and
    the text-input shape do not. *)
Lemma UpdateMouseCursor_shapes_witness :
  host (@ImGui_ImplAllegro5_UpdateMouseCursor example_platform
          (example_world_cursor ImGuiMouseCursor_Arrow))
  = host (@ImGui_ImplAllegro5_UpdateMouseCursor example_platform
            (example_world_cursor ImGuiMouseCursor_Hand))
  /\ host (@ImGui_ImplAllegro5_UpdateMouseCursor example_platform
             (example_world_cursor ImGuiMouseCursor_Arrow))
     <> host (@ImGui_ImplAllegro5_UpdateMouseCursor example_platform
                (example_world_cursor ImGuiMouseCursor_TextInput)).
Proof.
  split.
  - apply (proj2 (@UpdateMouseCursor_shapes example_platform
                    (example_world_cursor ImGuiMouseCursor_Arrow)
                    (example_world_cursor ImGuiMouseCursor_Hand)
                    eq_refl eq_refl eq_refl eq_refl eq_refl eq_refl
                    ltac:(discriminate) ltac:(discriminate))).
    right. split; [left | right]; reflexivity.
  - intros Hsame.
    apply (proj1 (@UpdateMouseCursor_shapes example_platform
                    (example_world_cursor ImGuiMouseCursor_Arrow)
                    (example_world_cursor ImGuiMouseCursor_TextInput)
                    eq_refl eq_refl eq_refl eq_refl eq_refl eq_refl
                    ltac:(discriminate) ltac:(discriminate))) in Hsame.
    destruct Hsame as [Heq | (_ & [Heq | Heq])]; discriminate.
Defined.

(** The stored timestamp and the clock are both at 5 seconds. *)
Lemma NewFrame_stalled_clock_witness :
  DeltaTime
    (io (@ImGui_ImplAllegro5_NewFrame example_platform
           (example_world [] 21 30 (double_of_int 5) (double_of_int 5))))
  = float_zero.
Proof.
  exact (@NewFrame_stalled_clock example_platform
           (example_world [] 21 30 (double_of_int 5) (double_of_int 5))
           5629499534213120%positive (-50) eq_refl eq_refl).
Defined.

(** A refresh at 5 seconds, then events and a host whose next call
    fails, then a refresh at 7 seconds. *)
Lemma NewFrame_after_NewFrame_witness :
  let w := example_world [] 0 0 double_zero (double_of_int 5) in
  let w1 := @ImGui_ImplAllegro5_NewFrame example_platform w in
  let w' := mkWorld (example_device [false] (double_of_int 7))
                    (set_MousePos (vec2 1 2) (io w1)) (bd w1) in
  DeltaTime (io (@ImGui_ImplAllegro5_NewFrame example_platform w'))
  = float_of_int 2.
Proof.
  intros w w1 w'.
  etransitivity;
    [exact (@NewFrame_after_NewFrame example_platform w w' eq_refl
              (bd_mkWorld _ _ _))|].
  vm_compute. reflexivity.
Defined.

(** * Properties of the life cycle *)

Lemma release_text_owned p l texts :
  Forall (fun q => q < p) (map fst l) ->
  map fst texts = [p] ->
  release_text p (l ++ texts) = l.
Proof.
  intros Hl Htexts.
  destruct texts as [|[q t] [|? ?]]; try discriminate.
  cbn in Htexts. injection Htexts as ->.
  induction l as [|[q t'] l IH]; cbn [release_text app map fst] in *.
  - rewrite Z.eqb_refl. reflexivity.
  - inversion Hl as [|? ? Hq Hrest]; subst.
    destruct (Z.eqb_spec q p); [lia|]. rewrite IH by exact Hrest.
    reflexivity.
Qed.

Lemma find_text_last p (t : string) l :
  Forall (fun q => q < p) (map fst l) ->
  find (fun b : ptr * string => fst b =? p) (l ++ [(p, t)]) = Some (p, t).
Proof.
  induction l as [|[q t'] l IH]; cbn [find app map fst].
  - intros _. rewrite Z.eqb_refl. reflexivity.
  - intros Hall. inversion Hall as [|? ? Hq Hrest]; subst.
    destruct (Z.eqb_spec q p); [lia|]. apply IH. exact Hrest.
Qed.

Lemma release_owned p n l :
  Forall (fun q => q < n) l -> n <= p -> release p (l ++ [p]) = l.
Proof.
  intros Hl Hp. apply release_last.
  apply (Forall_below_mono l n p); [lia | exact Hl].
Qed.

Lemma owned_cases p : (p = NULL /\ owned p = []) \/ (p <> NULL /\ owned p = [p]).
Proof.
  unfold owned, is_null. destruct (Z.eqb_spec p NULL); [left | right]; auto.
Qed.

Lemma is_null_false p : p <> NULL -> is_null p = false.
Proof. intros Hp. unfold is_null. apply Z.eqb_neq. exact Hp. Qed.

Lemma is_null_true p : is_null p = true -> p = NULL.
Proof. unfold is_null. apply Z.eqb_eq. Qed.

Section FrameResources.

Context `{Platform}.

Lemma UpdateMouseCursor_resources (w : World) :
  bitmaps (host (ImGui_ImplAllegro5_UpdateMouseCursor w)) = bitmaps (host w)
  /\ cursors (host (ImGui_ImplAllegro5_UpdateMouseCursor w))
     = cursors (host w)
  /\ next_handle (host (ImGui_ImplAllegro5_UpdateMouseCursor w))
     = next_handle (host w).
Proof.
  unfold ImGui_ImplAllegro5_UpdateMouseCursor.
  destruct (negb _); [repeat split|].
  destruct (MouseDrawCursor (io w) || _); repeat split.
Qed.

(** What a refresh does to the resources alive and to the handles the
    backend holds. *)
Lemma NewFrame_resources (w : World) :
  handles_below (host w) ->
  (Texture (bd w) = NULL -> MouseCursorInvisible (bd w) = NULL) ->
  let w' := ImGui_ImplAllegro5_NewFrame w in
  handles_below (host w')
  /\ next_handle (host w) <= next_handle (host w')
  /\ VertexDecl (bd w') = VertexDecl (bd w)
  /\ ClipboardTextData (bd w') = ClipboardTextData (bd w)
  /\ Display (bd w') = Display (bd w)
  /\ (Texture (bd w') = NULL -> MouseCursorInvisible (bd w') = NULL)
  /\ if is_null (Texture (bd w))
     then bitmaps (host w') = bitmaps (host w) ++ owned (Texture (bd w'))
          /\ cursors (host w')
             = cursors (host w) ++ owned (MouseCursorInvisible (bd w'))
          /\ (Texture (bd w') = NULL
              \/ next_handle (host w) <= Texture (bd w'))
          /\ (MouseCursorInvisible (bd w') = NULL
              \/ next_handle (host w) <= MouseCursorInvisible (bd w'))
     else bitmaps (host w') = bitmaps (host w)
          /\ cursors (host w') = cursors (host w)
          /\ Texture (bd w') = Texture (bd w)
          /\ MouseCursorInvisible (bd w') = MouseCursorInvisible (bd w).
Proof.
  intros Hok Hpair. cbv zeta. unfold ImGui_ImplAllegro5_NewFrame.
  set (w1 := if is_null (Texture (bd w))
             then snd (ImGui_ImplAllegro5_CreateDeviceObjects w) else w).
  assert (Hw1 :
    handles_below (host w1)
    /\ next_handle (host w) <= next_handle (host w1)
    /\ VertexDecl (bd w1) = VertexDecl (bd w)
    /\ ClipboardTextData (bd w1) = ClipboardTextData (bd w)
    /\ Display (bd w1) = Display (bd w)
    /\ (Texture (bd w1) = NULL -> MouseCursorInvisible (bd w1) = NULL)
    /\ if is_null (Texture (bd w))
       then bitmaps (host w1) = bitmaps (host w) ++ owned (Texture (bd w1))
            /\ cursors (host w1)
               = cursors (host w) ++ owned (MouseCursorInvisible (bd w1))
            /\ (Texture (bd w1) = NULL
                \/ next_handle (host w) <= Texture (bd w1))
            /\ (MouseCursorInvisible (bd w1) = NULL
                \/ next_handle (host w) <= MouseCursorInvisible (bd w1))
       else bitmaps (host w1) = bitmaps (host w)
            /\ cursors (host w1) = cursors (host w)
            /\ Texture (bd w1) = Texture (bd w)
            /\ MouseCursorInvisible (bd w1) = MouseCursorInvisible (bd w)).
  { subst w1. destruct (is_null (Texture (bd w))) eqn:Hnull.
    - apply is_null_true in Hnull. pose proof (Hpair Hnull) as Hcur.
      destruct (CreateDeviceObjects_resources w Hok) as (Hok1 & Hle & Hres).
      pose proof Hok as (Hnext & _ & _).
      destruct (ImGui_ImplAllegro5_CreateDeviceObjects w) as [ok w1].
      cbn [fst snd] in *.
      split; [exact Hok1|]. split; [exact Hle|].
      destruct ok.
      + destruct Hres as (Hnew & _ & _ & Hbd & Hc & Hbs1 & Hcs1).
        rewrite Hbs1, Hcs1.
        rewrite (owned_non_null (Texture (bd w1))) by (unfold NULL; lia).
        rewrite Hbd at 1 2 3. destruct (bd w). cbn.
        repeat split; try tauto.
        intros Hz. unfold NULL in Hz. lia.
      + destruct Hres as (_ & -> & -> & ->). rewrite Hnull, Hcur.
        change (owned NULL) with (@nil Z). rewrite !app_nil_r.
        repeat split; auto.
    - split; [exact Hok|]. split; [lia|]. repeat split; auto. }
  clearbody w1.
  destruct Hw1 as (Hok1 & Hle & Hvd & Hct & Hdp & Hpair1 & Hres).
  match goal with
  | |- context [ImGui_ImplAllegro5_UpdateMouseCursor ?x] =>
      destruct (UpdateMouseCursor_keeps_io_bd x) as [_ ->];
      destruct (UpdateMouseCursor_resources x) as (Hb' & Hc' & Hn')
  end.
  unfold handles_below. rewrite Hb', Hc', Hn'. cbn [host bd].
  destruct (bd w1). cbn in *.
  split; [exact Hok1|]. split; [exact Hle|].
  repeat split; try assumption.
Qed.

End FrameResources.

Lemma GetBackendData_Some p b :
  ImGui_ImplAllegro5_GetBackendData p = Some b ->
  has_context p = true /\ BackendPlatformUserData (backend_io p) = Some b.
Proof.
  unfold ImGui_ImplAllegro5_GetBackendData.
  destruct (has_context p); [auto | discriminate].
Qed.

Lemma owned_nil_texts (texts : list (ptr * string)) :
  map fst texts = owned NULL -> texts = [].
Proof. destruct texts; [reflexivity | discriminate]. Qed.

Ltac open_owns Hown :=
  let b := fresh "b" in
  let texts := fresh "texts" in
  destruct Hown as (b & texts & Hget & (Hdev & Hdecls & Htexts) & Hle & Hbs
                    & Hcs & Hvs & Hts & Hfst & Hfresh & Hpair);
  destruct (GetBackendData_Some _ _ Hget) as [Hctx Hdata];
  apply Forall_cons in Hfresh as [Hf1 Hfresh];
  apply Forall_cons in Hfresh as [Hf2 Hfresh];
  apply Forall_cons in Hfresh as [Hf3 Hfresh];
  apply Forall_cons in Hfresh as [Hf4 _].

Ltac close_fresh :=
  repeat (apply List.Forall_cons; [assumption|]); apply List.Forall_nil.

Ltac owns_goal :=
  repeat match goal with
         | |- _ /\ _ => split
         | |- _ = _ => first [reflexivity | assumption]
         | |- handles_below _ => assumption
         | |- Forall _ (_ :: _) => close_fresh
         | |- Forall (fun _ => _ < _) _ => first [assumption | tauto]
         | |- _ <= _ => first [assumption | lia]
         | |- _ -> _ => assumption
         | |- _ < _ => tauto
         | |- Forall _ _ => tauto
         end.

(** Invalidating the device objects keeps the backend's books. *)
Lemma entry_InvalidateDeviceObjects_owns before p :
  host_ok before ->
  backend_owns before p ->
  exists p',
    entry_InvalidateDeviceObjects p = Returns p' /\ backend_owns before p'.
Proof.
  intros (Hdev0 & Hdecls0 & Htexts0) Hown.
  pose proof Hdev0 as (Hnext0 & Hbs0 & Hcs0).
  open_owns Hown. pose proof Hdev as (Hnext & Hbsd & Hcsd).
  unfold entry_InvalidateDeviceObjects. rewrite Hget.
  eexists. split; [reflexivity|].
  destruct (InvalidateDeviceObjects_effect (world_of p b))
    as (Hb' & Hc' & Hn' & _ & _ & Hbd').
  cbn [world_of host bd io] in *.
  exists (set_MouseCursorInvisible NULL (set_Texture NULL b)), texts.
  unfold ImGui_ImplAllegro5_GetBackendData, put_world, host_ok, handles_below.
  cbn [has_context backend_io set_BackendPlatformUserData
       BackendPlatformUserData machine set_device device vertex_decls
       text_buffers].
  rewrite ?Hctx, Hbd', Hb', Hc', Hn'.
  assert (Hbnew : (if is_null (Texture b) then bitmaps (device (machine p))
                   else release (Texture b) (bitmaps (device (machine p))))
                  = bitmaps (device before)).
  { rewrite Hbs. destruct (owned_cases (Texture b)) as [[Hz ->] | [Hnz ->]].
    - rewrite Hz. cbn. apply app_nil_r.
    - rewrite is_null_false by exact Hnz.
      apply (release_owned _ (next_handle (device before))); [exact Hbs0|].
      destruct Hf1; [contradiction | assumption]. }
  assert (Hcnew : (if is_null (MouseCursorInvisible b)
                   then cursors (device (machine p))
                   else release (MouseCursorInvisible b)
                          (cursors (device (machine p))))
                  = cursors (device before)).
  { rewrite Hcs.
    destruct (owned_cases (MouseCursorInvisible b)) as [[Hz ->] | [Hnz ->]].
    - rewrite Hz. cbn. apply app_nil_r.
    - rewrite is_null_false by exact Hnz.
      apply (release_owned _ (next_handle (device before))); [exact Hcs0|].
      destruct Hf2; [contradiction | assumption]. }
  rewrite Hbnew, Hcnew. destruct b as [dp tx tm mc vd cb]. cbn in *.
  change (owned NULL) with (@nil Z). rewrite !app_nil_r.
  split; [reflexivity|].
  split.
  { split; [split; [exact Hnext|split]|split]; try assumption.
    - apply (Forall_below_mono _ (next_handle (device before)));
        [lia|exact Hbs0].
    - apply (Forall_below_mono _ (next_handle (device before)));
        [lia|exact Hcs0]. }
  repeat split; try assumption.
  repeat (apply List.Forall_cons; [first [left; reflexivity | assumption]|]).
  apply List.Forall_nil.
Qed.

(** So does an event that is stored in bounds; no event trips an
    assertion or dereferences [NULL] under a backend. *)
Lemma entry_ProcessEvent_owns before ev p :
  backend_owns before p ->
  (exists consumed p',
      entry_ProcessEvent ev p = Returns (consumed, p')
      /\ backend_owns before p')
  \/ (exists index, entry_ProcessEvent ev p = OutOfBoundsStore index).
Proof.
  intros Hown. open_owns Hown.
  unfold entry_ProcessEvent, ImGui_GetIO. rewrite Hctx, Hget.
  destruct (ImGui_ImplAllegro5_ProcessEvent (imgui_io p) b ev)
    as [consumed [io'|index]]; [left | right; eauto].
  eexists _, _. split; [reflexivity|].
  exists b, texts. unfold ImGui_ImplAllegro5_GetBackendData, host_ok.
  cbn [has_context backend_io machine]. rewrite ?Hctx, Hdata.
  owns_goal.
Qed.

Lemma SetClipboardText_owns before text p :
  backend_owns before p ->
  exists p',
    ImGui_ImplAllegro5_SetClipboardText text p = Returns p'
    /\ backend_owns before p'.
Proof.
  intros Hown. open_owns Hown.
  unfold ImGui_ImplAllegro5_SetClipboardText, al_set_clipboard_text.
  rewrite Hget.
  destruct (hd true (answers (device (machine p))));
    (eexists; split; [reflexivity|]);
    exists b, texts;
    unfold ImGui_ImplAllegro5_GetBackendData, put_host, host_ok,
      handles_below in *;
    cbn [has_context backend_io set_BackendPlatformUserData
         BackendPlatformUserData machine device vertex_decls text_buffers
         advance next_handle bitmaps cursors];
    rewrite ?Hctx; owns_goal.
Qed.

(** Reading the clipboard releases the buffer of the last reading before
    it takes a new one. *)
Lemma GetClipboardText_owns before p :
  host_ok before ->
  backend_owns before p ->
  exists text p',
    ImGui_ImplAllegro5_GetClipboardText p = Returns (text, p')
    /\ backend_owns before p'
    /\ text_at text (machine p')
       = (if is_null text then None else clipboard_text (machine p))
    /\ clipboard_text (machine p') = clipboard_text (machine p).
Proof.
  intros (Hdev0 & Hdecls0 & Htexts0) Hown.
  pose proof Hdev0 as (Hnext0 & Hbs0 & Hcs0).
  open_owns Hown. pose proof Hdev as (Hnext & Hbsd & Hcsd).
  unfold ImGui_ImplAllegro5_GetClipboardText. rewrite Hget.
  assert (Hfree :
    text_buffers
      (if negb (is_null (ClipboardTextData b))
       then al_free (ClipboardTextData b) (machine p) else machine p)
    = text_buffers before).
  { destruct (owned_cases (ClipboardTextData b)) as [[Hz Ho] | [Hnz Ho]].
    - rewrite Hz. cbn. rewrite Hts.
      rewrite (owned_nil_texts texts) by (rewrite Hfst, Hz; reflexivity).
      apply app_nil_r.
    - rewrite is_null_false by exact Hnz. cbn [negb al_free text_buffers].
      rewrite Hts. apply release_text_owned; [|rewrite Hfst; exact Ho].
      apply (Forall_below_mono _ (next_handle (device before)));
        [|exact Htexts0].
      destruct Hf4; [contradiction | assumption]. }
  set (h1 := if negb (is_null (ClipboardTextData b))
             then al_free (ClipboardTextData b) (machine p) else machine p)
    in *.
  assert (Hh1 : device h1 = device (machine p)
                /\ vertex_decls h1 = vertex_decls (machine p)
                /\ clipboard_text h1 = clipboard_text (machine p)).
  { subst h1. destruct (negb _); repeat split. }
  destruct Hh1 as (Hd1 & Hv1 & Hc1). clearbody h1.
  unfold al_get_clipboard_text. rewrite Hc1, Hd1.
  destruct (clipboard_text (machine p)) as [copied|].
  2: { eexists _, _. split; [reflexivity|]. split; [|split].
       - exists (set_ClipboardTextData NULL b), [].
         unfold ImGui_ImplAllegro5_GetBackendData, put_host, host_ok.
         cbn [has_context backend_io set_BackendPlatformUserData
              BackendPlatformUserData machine].
         rewrite ?Hctx, ?Hd1, Hv1, Hfree, app_nil_r. destruct b as [dp tx tm mc vd cb]. cbn in *.
         repeat split; try assumption.
         + apply (Forall_below_mono _ (next_handle (device before)));
             [lia|exact Htexts0].
         + repeat (apply List.Forall_cons;
                   [first [left; reflexivity | assumption]|]).
           apply List.Forall_nil.
       - destruct b as [dp tx tm mc vd cb]. reflexivity.
       - cbn. first [exact Hc1 | reflexivity]. }
  destruct (hd true (answers (device (machine p)))).
  - eexists _, _. split; [reflexivity|]. split; [|split].
    + exists (set_ClipboardTextData (next_handle (device (machine p))) b),
        [(next_handle (device (machine p)), copied)].
      unfold ImGui_ImplAllegro5_GetBackendData, put_host, host_ok,
        handles_below.
      cbn [has_context backend_io set_BackendPlatformUserData
           BackendPlatformUserData machine device vertex_decls text_buffers
           advance next_handle bitmaps cursors].
      rewrite ?Hctx, Hv1, Hfree. destruct b as [dp tx tm mc vd cb]. cbn in *.
      rewrite (owned_non_null (next_handle (device (machine p))))
        by (unfold NULL; lia).
      split; [reflexivity|].
      split.
      { split; [split; [lia|split]|split].
        - apply (Forall_below_mono _ (next_handle (device (machine p))));
            [lia|exact Hbsd].
        - apply (Forall_below_mono _ (next_handle (device (machine p))));
            [lia|exact Hcsd].
        - apply (Forall_below_mono _ (next_handle (device (machine p))));
            [lia|exact Hdecls].
        - rewrite map_app. cbn [map fst].
          apply Forall_below_snoc; [lia|].
          apply (Forall_below_mono _ (next_handle (device before)));
            [lia|exact Htexts0]. }
      repeat split; try assumption; try lia.
      repeat (apply List.Forall_cons;
              [first [assumption | right; lia]|]).
      apply List.Forall_nil.
    + destruct b as [dp tx tm mc vd cb]. cbn [set_ClipboardTextData ClipboardTextData put_host
                       machine text_buffers].
      unfold text_at. rewrite is_null_false by (unfold NULL; lia).
      cbn [text_buffers]. rewrite Hfree.
      rewrite find_text_last; [reflexivity|].
      apply (Forall_below_mono _ (next_handle (device before)));
        [lia|exact Htexts0].
    + cbn. first [exact Hc1 | reflexivity].
  - eexists _, _. split; [reflexivity|]. split; [|split].
    + exists (set_ClipboardTextData NULL b), [].
      unfold ImGui_ImplAllegro5_GetBackendData, put_host, host_ok,
        handles_below.
      cbn [has_context backend_io set_BackendPlatformUserData
           BackendPlatformUserData machine device vertex_decls text_buffers
           advance next_handle bitmaps cursors].
      rewrite ?Hctx, Hv1, Hfree, app_nil_r. destruct b as [dp tx tm mc vd cb]. cbn in *.
      repeat split; try assumption.
      * apply (Forall_below_mono _ (next_handle (device before)));
          [lia|exact Htexts0].
      * repeat (apply List.Forall_cons;
                [first [left; reflexivity | assumption]|]).
        apply List.Forall_nil.
    + destruct b as [dp tx tm mc vd cb]. reflexivity.
    + cbn. first [exact Hc1 | reflexivity].
Qed.

Lemma SetClipboardText_effect text p b :
  ImGui_ImplAllegro5_GetBackendData p = Some b ->
  exists p',
    ImGui_ImplAllegro5_SetClipboardText text p = Returns p'
    /\ clipboard_text (machine p')
       = (if hd true (answers (device (machine p))) then Some text
          else clipboard_text (machine p))
    /\ answers (device (machine p')) = tl (answers (device (machine p)))
    /\ next_handle (device (machine p')) = next_handle (device (machine p)).
Proof.
  intros Hget.
  unfold ImGui_ImplAllegro5_SetClipboardText, al_set_clipboard_text.
  rewrite Hget.
  destruct (hd true (answers (device (machine p))));
    (eexists; split; [reflexivity|]); repeat split.
Qed.

(** A reading of the clipboard returns a text exactly when the clipboard
    holds one and the host does not fail. *)
Lemma GetClipboardText_non_null p b text p' :
  ImGui_ImplAllegro5_GetBackendData p = Some b ->
  0 < next_handle (device (machine p)) ->
  ImGui_ImplAllegro5_GetClipboardText p = Returns (text, p') ->
  is_null text
  = negb (bool_decide (clipboard_text (machine p) <> None)
          && hd true (answers (device (machine p)))).
Proof.
  intros Hget Hnext.
  unfold ImGui_ImplAllegro5_GetClipboardText. rewrite Hget.
  set (h1 := if negb (is_null (ClipboardTextData b))
             then al_free (ClipboardTextData b) (machine p) else machine p).
  assert (Hh1 : device h1 = device (machine p)
                /\ clipboard_text h1 = clipboard_text (machine p)).
  { subst h1. destruct (negb _); split; reflexivity. }
  destruct Hh1 as (Hd1 & Hc1). clearbody h1.
  unfold al_get_clipboard_text. rewrite Hc1, Hd1.
  destruct (clipboard_text (machine p)) as [copied|];
    [destruct (hd true (answers (device (machine p))))|];
    destruct b as [dp tx tm mc vd cb]; cbn; intros [= <- _];
    try reflexivity.
  apply is_null_false. unfold NULL. lia.
Qed.

Section LifecycleFacts.

Context `{Platform} `{Headers}.

(** Initialisation on a process with a context and no backend. *)
Lemma Init_owns display p :
  has_context p = true ->
  BackendPlatformUserData (backend_io p) = None ->
  host_ok (machine p) ->
  exists p1,
    ImGui_ImplAllegro5_Init display p = Returns (true, p1)
    /\ backend_owns (machine p) p1
    /\ has_context p1 = true.
Proof.
  intros Hctx Hnone (Hdev & Hdecls & Htexts).
  pose proof Hdev as (Hnext & Hbs & Hcs).
  unfold ImGui_ImplAllegro5_Init, ImGui_GetIO. rewrite Hctx, Hnone.
  unfold al_create_vertex_decl, backend_owns, host_ok, handles_below,
    ImGui_ImplAllegro5_GetBackendData.
  destruct (hd true (answers (device (machine p))));
    destruct ALLEGRO_HAS_CLIPBOARD;
    (eexists; split; [reflexivity|]; split; [|reflexivity]);
    eexists _, [];
    cbn [has_context backend_io BackendPlatformUserData machine device
         advance next_handle bitmaps cursors vertex_decls text_buffers
         set_VertexDecl set_Display ImGui_ImplAllegro5_Data_new
         Texture MouseCursorInvisible VertexDecl ClipboardTextData map];
    (split; [reflexivity|]);
    cbn [set_VertexDecl set_Display ImGui_ImplAllegro5_Data_new
         Texture MouseCursorInvisible VertexDecl ClipboardTextData];
    rewrite ?(owned_non_null (next_handle (device (machine p))))
      by (unfold NULL; lia);
    change (owned NULL) with (@nil Z); rewrite ?app_nil_r;
    repeat match goal with
           | |- _ /\ _ => split
           | |- ?x = ?x => reflexivity
           | |- _ <= _ => lia
           | |- _ < _ => lia
           | |- _ -> _ => intros _
           | |- Forall _ (_ ++ [_]) =>
               apply Forall_below_snoc; [lia|assumption]
           | |- Forall (fun q => q < _ + 1) _ =>
               apply (Forall_below_mono _ (next_handle (device (machine p))));
               [lia|assumption]
           | |- Forall _ (_ :: _) =>
               apply List.Forall_cons; [first [left; reflexivity | right; lia]|]
           | |- Forall _ [] => apply List.Forall_nil
           | |- Forall _ _ => assumption
           end.
Qed.

(** A refresh keeps the backend's books: what it creates, the backend
    holds. *)
Lemma entry_NewFrame_owns before p :
  host_ok before ->
  backend_owns before p ->
  exists p', entry_NewFrame p = Returns p' /\ backend_owns before p'.
Proof.
  intros (Hdev0 & Hdecls0 & Htexts0) Hown.
  pose proof Hdev0 as (Hnext0 & Hbs0 & Hcs0).
  open_owns Hown.
  unfold entry_NewFrame. rewrite Hget.
  eexists. split; [reflexivity|].
  destruct (NewFrame_resources (world_of p b) Hdev Hpair)
    as (Hdev' & Hle' & Hvd & Hct & _ & Hpair' & Hres).
  set (w' := ImGui_ImplAllegro5_NewFrame (world_of p b)) in *.
  clearbody w'. cbn [world_of host bd] in *.
  exists (bd w'), texts.
  unfold ImGui_ImplAllegro5_GetBackendData, put_world, host_ok.
  cbn [has_context backend_io set_BackendPlatformUserData
       BackendPlatformUserData machine set_device device vertex_decls
       text_buffers].
  rewrite ?Hctx, Hvd, Hct.
  assert (Hmono : forall l,
             Forall (fun q => q < next_handle (device (machine p))) l ->
             Forall (fun q => q < next_handle (host w')) l).
  { intros l. apply Forall_below_mono. exact Hle'. }
  destruct (is_null (Texture b)) eqn:Hnull.
  - apply is_null_true in Hnull. pose proof (Hpair Hnull) as Hcur.
    rewrite Hnull, Hcur in *. change (owned NULL) with (@nil Z) in *.
    rewrite app_nil_r in Hbs, Hcs.
    destruct Hres as (Hb' & Hc' & Ht' & Hm'). rewrite Hb', Hc', Hbs, Hcs.
    split; [reflexivity|]. split; [auto|]. split; [lia|].
    repeat split; try assumption.
    repeat (apply List.Forall_cons;
            [first [assumption
                   | match goal with
                     | Hd : _ = NULL \/ _ |- _ =>
                         destruct Hd as [Hd | Hd]; [left; exact Hd | right; lia]
                     end]|]).
    apply List.Forall_nil.
  - destruct Hres as (Hb' & Hc' & Ht' & Hm'). rewrite Hb', Hc', Ht', Hm'.
    split; [reflexivity|]. split; [auto|]. split; [lia|].
    repeat split; try assumption. close_fresh.
Qed.

(** Every request keeps the backend's books, unless it is an event that
    is stored out of bounds. *)
Lemma serve_owns before r p :
  host_ok before ->
  backend_owns before p ->
  (exists p', serve r p = Returns p' /\ backend_owns before p')
  \/ (exists index, serve r p = OutOfBoundsStore index).
Proof.
  intros Hok0 Hown. destruct r as [|ev| |text|]; cbn [serve].
  - left. apply entry_NewFrame_owns; assumption.
  - destruct (entry_ProcessEvent_owns before ev p Hown)
      as [(consumed & p' & -> & Hown') | (index & ->)];
      [left; exists p'; split; [reflexivity | exact Hown'] | right; eauto].
  - left. destruct (GetClipboardText_owns before p Hok0 Hown)
      as (text & p' & -> & Hown' & _).
    exists p'. split; [reflexivity | exact Hown'].
  - left. apply SetClipboardText_owns. exact Hown.
  - left. apply entry_InvalidateDeviceObjects_owns; assumption.
Qed.

Lemma serve_all_owns before :
  forall rs p,
    host_ok before ->
    backend_owns before p ->
    (exists p', serve_all rs p = Returns p' /\ backend_owns before p')
    \/ (exists index, serve_all rs p = OutOfBoundsStore index).
Proof.
  induction rs as [|r rs IH]; intros p Hok0 Hown; cbn [serve_all].
  - left. exists p. split; [reflexivity | exact Hown].
  - destruct (serve_owns before r p Hok0 Hown)
      as [(p1 & -> & Hown1) | (index & ->)]; cbn [then_].
    + apply IH; assumption.
    + right. eauto.
Qed.

(** Shutdown under a backend that keeps its books releases what the
    backend holds and nothing else. *)
Lemma Shutdown_releases before p :
  host_ok before ->
  backend_owns before p ->
  exists p',
    ImGui_ImplAllegro5_Shutdown p = Returns p'
    /\ resources (machine p') = resources before
    /\ ImGui_ImplAllegro5_GetBackendData p' = None
    /\ has_context p' = true.
Proof.
  intros (Hdev0 & Hdecls0 & Htexts0) Hown.
  pose proof Hdev0 as (Hnext0 & Hbs0 & Hcs0).
  open_owns Hown.
  unfold ImGui_ImplAllegro5_Shutdown. rewrite Hget.
  eexists. split; [reflexivity|].
  destruct (InvalidateDeviceObjects_effect (world_of p b))
    as (Hb' & Hc' & _ & _ & _ & Hbd').
  set (w := ImGui_ImplAllegro5_InvalidateDeviceObjects (world_of p b)) in *.
  clearbody w. cbn [world_of host bd io] in *.
  assert (Hbnew : bitmaps (host w) = bitmaps (device before)).
  { rewrite Hb', Hbs.
    destruct (owned_cases (Texture b)) as [[Hz ->] | [Hnz ->]].
    - rewrite Hz. cbn. apply app_nil_r.
    - rewrite is_null_false by exact Hnz.
      apply (release_owned _ (next_handle (device before))); [exact Hbs0|].
      destruct Hf1; [contradiction | assumption]. }
  assert (Hcnew : cursors (host w) = cursors (device before)).
  { rewrite Hc', Hcs.
    destruct (owned_cases (MouseCursorInvisible b)) as [[Hz ->] | [Hnz ->]].
    - rewrite Hz. cbn. apply app_nil_r.
    - rewrite is_null_false by exact Hnz.
      apply (release_owned _ (next_handle (device before))); [exact Hcs0|].
      destruct Hf2; [contradiction | assumption]. }
  rewrite Hbd'. destruct b as [dp tx tm mc vd cb].
  cbn [set_MouseCursorInvisible set_Texture VertexDecl ClipboardTextData
       Display Texture Time MouseCursorInvisible] in *.
  unfold ImGui_ImplAllegro5_GetBackendData, resources.
  cbn [has_context backend_io BackendPlatformUserData machine].
  rewrite ?Hctx.
  split; [|split; reflexivity].
  assert (Hvnew : vertex_decls
                    (if negb (is_null vd)
                     then al_destroy_vertex_decl vd
                            (set_device (host w) (machine p))
                     else set_device (host w) (machine p))
                  = vertex_decls before).
  { destruct (owned_cases vd) as [[Hz Ho] | [Hnz Ho]]; rewrite Ho in Hvs.
    - rewrite Hz. cbn. rewrite Hvs. apply app_nil_r.
    - rewrite is_null_false by exact Hnz.
      cbn [negb al_destroy_vertex_decl set_device vertex_decls].
      rewrite Hvs.
      apply (release_owned _ (next_handle (device before)));
        [exact Hdecls0|].
      destruct Hf3; [contradiction | assumption]. }
  set (h1 := if negb (is_null vd)
             then al_destroy_vertex_decl vd (set_device (host w) (machine p))
             else set_device (host w) (machine p)) in *.
  assert (Hh1 : device h1 = host w
                /\ text_buffers h1 = text_buffers (machine p)).
  { subst h1. destruct (negb _); split; reflexivity. }
  destruct Hh1 as (Hd1 & Ht1). clearbody h1.
  assert (Htnew : text_buffers
                    (if negb (is_null cb) then al_free cb h1 else h1)
                  = text_buffers before).
  { destruct (owned_cases cb) as [[Hz Ho] | [Hnz Ho]].
    - rewrite Hz. cbn. rewrite Ht1, Hts.
      rewrite (owned_nil_texts texts) by (rewrite Hfst, Hz; reflexivity).
      apply app_nil_r.
    - rewrite is_null_false by exact Hnz. cbn [negb al_free text_buffers].
      rewrite Ht1, Hts. apply release_text_owned; [|rewrite Hfst; exact Ho].
      apply (Forall_below_mono _ (next_handle (device before)));
        [|exact Htexts0].
      destruct Hf4; [contradiction | assumption]. }
  assert (Hfin : device (if negb (is_null cb) then al_free cb h1 else h1)
                 = host w
                 /\ vertex_decls
                      (if negb (is_null cb) then al_free cb h1 else h1)
                    = vertex_decls h1).
  { destruct (negb _); split; (reflexivity || exact Hd1). }
  destruct Hfin as (-> & ->). rewrite Hbnew, Hcnew, Hvnew, Htnew.
  reflexivity.
Qed.

Lemma set_InputQueueCharacters_twice a b i :
  set_InputQueueCharacters a (set_InputQueueCharacters b i)
  = set_InputQueueCharacters a i.
Proof. destruct i. reflexivity. Qed.

Lemma set_InputQueueCharacters_same i :
  set_InputQueueCharacters (InputQueueCharacters i) i = i.
Proof. destruct i. reflexivity. Qed.

(** X6: text typed for the bound display reaches the text queue in the
    order of its key-char events: each character code that is not zero
    is appended, as an [unsigned int], the zero codes are dropped, and
    nothing else of the process changes; no such event fails. *)
Theorem key_chars_queue_in_order b :
  forall unichars p,
    ImGui_ImplAllegro5_GetBackendData p = Some b ->
    exists p',
      serve_all (key_char_requests (Display b) unichars) p = Returns p'
      /\ imgui_io p'
         = set_InputQueueCharacters
             (InputQueueCharacters (imgui_io p)
              ++ map to_uint (filter (fun c => c <> 0) unichars))
             (imgui_io p)
      /\ machine p' = machine p
      /\ backend_io p' = backend_io p.
Proof.
  induction unichars as [|c unichars IH]; intros p Hget;
    cbn [key_char_requests map serve_all].
  - exists p. rewrite filter_nil. cbn [map]. rewrite app_nil_r.
    rewrite set_InputQueueCharacters_same. repeat split.
  - destruct (GetBackendData_Some p b Hget) as [Hctx Hdata].
    cbn [serve]. unfold entry_ProcessEvent, ImGui_GetIO.
    rewrite Hctx, Hget. unfold ImGui_ImplAllegro5_ProcessEvent.
    cbn [key_event ev_type ev_keyboard keyboard_display keyboard_unichar].
    rewrite Z.eqb_refl.
    set (p1 := fun io' => mkProcess (machine p) true io' (backend_io p)).
    assert (Hget1 : forall io',
               ImGui_ImplAllegro5_GetBackendData (p1 io') = Some b).
    { intros io'. unfold ImGui_ImplAllegro5_GetBackendData, p1.
      cbn [has_context backend_io]. exact Hdata. }
    destruct (Z.eqb_spec c 0) as [-> | Hc]; cbn [negb then_].
    + destruct (IH (p1 (imgui_io p)) (Hget1 _)) as (p' & Hrun & Hio & Hm & Hb).
      exists p'. split; [exact Hrun|].
      rewrite filter_cons_False by (intros Hne; apply Hne; reflexivity).
      repeat split; assumption.
    + destruct (IH (p1 (AddInputCharacter (to_uint c) (imgui_io p)))
                  (Hget1 _)) as (p' & Hrun & Hio & Hm & Hb).
      exists p'. split; [exact Hrun|].
      rewrite filter_cons_True by exact Hc.
      split; [|split; assumption].
      rewrite Hio. unfold p1, AddInputCharacter. cbn [imgui_io map].
      rewrite set_InputQueueCharacters_twice.
      destruct (imgui_io p). cbn. rewrite <- app_assoc. reflexivity.
Qed.

(** X19: a session (initialisation on a process that has a context and no
    backend, any requests, shutdown) on a well-formed host ends in one of
    two ways.  Either an event stored a flag outside its array; or the
    session returns, and then the bitmaps, cursors, vertex declarations
    and text buffers alive are exactly those alive before it, and the
    process has no backend again.  No assertion fails on the way and the
    backend data is never dereferenced while [NULL]. *)
Theorem session_releases_everything display rs p :
  host_ok (machine p) ->
  has_context p = true ->
  BackendPlatformUserData (backend_io p) = None ->
  (exists p',
      session display rs p = Returns p'
      /\ resources (machine p') = resources (machine p)
      /\ ImGui_ImplAllegro5_GetBackendData p' = None)
  \/ (exists index, session display rs p = OutOfBoundsStore index).
Proof.
  intros Hok Hctx Hnone. unfold session.
  destruct (Init_owns display p Hctx Hnone Hok) as (p1 & -> & Hown & _).
  cbn [then_].
  destruct (serve_all_owns (machine p) rs p1 Hok Hown)
    as [(p2 & -> & Hown2) | (index & ->)]; cbn [then_]; [left | right; eauto].
  destruct (Shutdown_releases (machine p) p2 Hok Hown2)
    as (p' & -> & Hres & Hnob & _).
  exists p'. repeat split; assumption.
Qed.

(** X20: under a backend that keeps its books on a host that answers,
    text given to the clipboard hook is the text the next reading
    returns: a new buffer that holds it, the only buffer alive that was
    not alive before initialisation. *)
Theorem SetClipboardText_then_GetClipboardText before text p :
  host_ok before ->
  backend_owns before p ->
  answer (device (machine p)) 0 = true ->
  answer (device (machine p)) 1 = true ->
  exists p1 q p2,
    ImGui_ImplAllegro5_SetClipboardText text p = Returns p1
    /\ ImGui_ImplAllegro5_GetClipboardText p1 = Returns (q, p2)
    /\ q <> NULL
    /\ text_at q (machine p2) = Some text
    /\ text_buffers (machine p2) = text_buffers before ++ [(q, text)].
Proof.
  intros Hok0 Hown Ha0 Ha1.
  destruct (answer_hd (device (machine p))) as (Hh0 & Hh1 & _).
  rewrite Hh0 in Ha0. rewrite Hh1 in Ha1.
  destruct (SetClipboardText_owns before text p Hown) as (p1 & Hset & Hown1).
  assert (Hget : exists b, ImGui_ImplAllegro5_GetBackendData p = Some b)
    by (destruct Hown as (b & _ & Hb & _); eauto).
  destruct Hget as (b & Hget).
  destruct (SetClipboardText_effect text p b Hget)
    as (p1' & Hset' & Hclip & Hans & Hnh).
  rewrite Hset in Hset'. injection Hset' as <-. rewrite Ha0 in Hclip.
  destruct (GetClipboardText_owns before p1 Hok0 Hown1)
    as (q & p2 & Hread & Hown2 & Hat & _).
  assert (Hget1 : exists b1, ImGui_ImplAllegro5_GetBackendData p1 = Some b1)
    by (destruct Hown1 as (b1 & _ & Hb1 & _); eauto).
  destruct Hget1 as (b1 & Hget1).
  assert (Hnext1 : 0 < next_handle (device (machine p1))).
  { destruct Hown1 as (_ & _ & _ & ((Hn & _) & _) & _). exact Hn. }
  pose proof (GetClipboardText_non_null p1 b1 q p2 Hget1 Hnext1 Hread)
    as Hnull.
  rewrite Hclip, Hans, Ha1 in Hnull. cbn in Hnull.
  rewrite Hnull, Hclip in Hat.
  exists p1, q, p2. split; [exact Hset|]. split; [exact Hread|].
  assert (Hq : q <> NULL).
  { intros ->. discriminate Hnull. }
  split; [exact Hq|]. split; [exact Hat|].
  destruct Hown2 as (b2 & texts & Hget2 & _ & _ & _ & _ & _ & Hts & Hfst
                     & Hfr & _).
  assert (Hcb : ClipboardTextData b2 = q).
  { revert Hread Hget2. unfold ImGui_ImplAllegro5_GetClipboardText.
    rewrite Hget1.
    destruct (al_get_clipboard_text _ _) as [t h]. intros [= <- <-].
    unfold ImGui_ImplAllegro5_GetBackendData, put_host.
    cbn [has_context backend_io set_BackendPlatformUserData
         BackendPlatformUserData].
    destruct (has_context p1); [|discriminate]. intros [= <-]. reflexivity. }
  rewrite Hcb, (owned_non_null q Hq) in Hfst.
  destruct texts as [|[q' t'] [|? ?]]; try discriminate.
  cbn in Hfst. injection Hfst as ->.
  rewrite Hts. f_equal. f_equal. f_equal.
  unfold text_at in Hat. rewrite is_null_false in Hat by exact Hq.
  rewrite Hts in Hat.
  rewrite find_text_last in Hat.
  - cbn in Hat. congruence.
  - destruct Hok0 as (_ & _ & Htexts0).
    apply (Forall_below_mono _ (next_handle (device before)));
      [|exact Htexts0].
    apply Forall_cons in Hfr as [_ Hfr].
    apply Forall_cons in Hfr as [_ Hfr].
    apply Forall_cons in Hfr as [_ Hfr].
    apply Forall_cons in Hfr as [Hfr _].
    rewrite Hcb in Hfr. destruct Hfr; [contradiction | assumption].
Qed.

(** X21: once shutdown has returned there is no backend: a second
    shutdown and a refresh fail their assertions, and initialisation
    succeeds again.  The clipboard hooks and the backend flags are left
    as they were, so the hooks still point to the two clipboard
    functions, which dereference the backend data: calling them now, like
    delivering an event the translator has a case for, dereferences
    [NULL]. *)
Theorem Shutdown_then_use display p p' :
  ImGui_ImplAllegro5_Shutdown p = Returns p' ->
  ImGui_ImplAllegro5_Shutdown p'
  = AssertionFailure "No platform backend to shutdown, or already shutdown?"
  /\ entry_NewFrame p'
     = AssertionFailure "Did you call ImGui_ImplAllegro5_Init()?"
  /\ (exists p'', ImGui_ImplAllegro5_Init display p' = Returns (true, p''))
  /\ (SetClipboardTextFn (backend_io p'), GetClipboardTextFn (backend_io p'),
      BackendFlags (backend_io p'))
     = (SetClipboardTextFn (backend_io p), GetClipboardTextFn (backend_io p),
        BackendFlags (backend_io p))
  /\ ImGui_ImplAllegro5_GetClipboardText p' = NullDereference
  /\ (forall text,
        ImGui_ImplAllegro5_SetClipboardText text p' = NullDereference)
  /\ (forall ev, recognized (ev_type ev) = true ->
        entry_ProcessEvent ev p' = NullDereference).
Proof.
  unfold ImGui_ImplAllegro5_Shutdown.
  destruct (ImGui_ImplAllegro5_GetBackendData p) as [b|] eqn:Hget;
    [|discriminate].
  destruct (GetBackendData_Some p b Hget) as [Hctx _].
  intros [= <-].
  unfold entry_NewFrame, ImGui_ImplAllegro5_GetClipboardText,
    ImGui_ImplAllegro5_SetClipboardText, entry_ProcessEvent,
    ImGui_ImplAllegro5_Init, ImGui_GetIO, ImGui_ImplAllegro5_GetBackendData.
  cbn [has_context backend_io BackendPlatformUserData SetClipboardTextFn
       GetClipboardTextFn BackendFlags].
  rewrite Hctx. cbn [negb].
  split; [reflexivity|]. split; [reflexivity|].
  split; [destruct (al_create_vertex_decl _); eexists; reflexivity|].
  split; [reflexivity|]. split; [reflexivity|]. split; [reflexivity|].
  intros ev ->. reflexivity.
Qed.

(** The backend data initialisation leaves. *)
Lemma Init_data display p ok p1 :
  ImGui_ImplAllegro5_Init display p = Returns (ok, p1) ->
  exists b,
    ImGui_ImplAllegro5_GetBackendData p1 = Some b
    /\ Display b = display
    /\ Time b = double_zero.
Proof.
  unfold ImGui_ImplAllegro5_Init, ImGui_GetIO.
  destruct (has_context p) eqn:Hctx; [|discriminate].
  destruct (BackendPlatformUserData (backend_io p)); [discriminate|].
  unfold ImGui_ImplAllegro5_GetBackendData.
  destruct (al_create_vertex_decl (machine p)) as [decl h].
  destruct ALLEGRO_HAS_CLIPBOARD; intros [= <- <-];
    cbn [has_context backend_io BackendPlatformUserData];
    eexists; split; try reflexivity; split; reflexivity.
Qed.

(** X22: initialisation returns [true] whenever it returns, also when the
    vertex declaration could not be created; it binds the display it is
    given, leaves texture, cursor, clipboard buffer and timestamp at
    zero, puts the mouse position off screen and adds the mouse-cursor
    flag to the backend flags; and a second initialisation, for whatever
    display, fails its assertion. *)
Theorem Init_then_Init display display' p ok p1 :
  ImGui_ImplAllegro5_Init display p = Returns (ok, p1) ->
  ok = true
  /\ ImGui_ImplAllegro5_Init display' p1
     = AssertionFailure "Already initialized a platform backend!"
  /\ (exists b,
        ImGui_ImplAllegro5_GetBackendData p1 = Some b
        /\ Display b = display
        /\ (Texture b, MouseCursorInvisible b, ClipboardTextData b, Time b)
           = (NULL, NULL, NULL, double_zero)
        /\ (VertexDecl b = NULL
            \/ (VertexDecl b = next_handle (device (machine p))
                /\ vertex_decls (machine p1)
                   = vertex_decls (machine p) ++ [VertexDecl b])))
  /\ MousePos (imgui_io p1) = mkImVec2 (SFopp FLT_MAX) (SFopp FLT_MAX)
  /\ Z.lor (BackendFlags (backend_io p1)) ImGuiBackendFlags_HasMouseCursors
     = BackendFlags (backend_io p1).
Proof.
  unfold ImGui_ImplAllegro5_Init, ImGui_GetIO.
  destruct (has_context p) eqn:Hctx; [|discriminate].
  destruct (BackendPlatformUserData (backend_io p)); [discriminate|].
  unfold al_create_vertex_decl, ImGui_ImplAllegro5_GetBackendData.
  destruct (hd true (answers (device (machine p))));
    destruct ALLEGRO_HAS_CLIPBOARD; intros [= <- <-];
    cbn [has_context backend_io BackendPlatformUserData negb imgui_io
         BackendFlags machine vertex_decls];
    (split; [reflexivity|]); (split; [reflexivity|]);
    (split;
     [ eexists; split; [reflexivity|]; split; [reflexivity|];
       split; [reflexivity|]; cbn; auto
     | ]);
    (split; [destruct (imgui_io p); reflexivity|]);
    rewrite <- Z.lor_assoc, Z.lor_diag; reflexivity.
Qed.

(** X23: the first refresh after initialisation finds the timestamp at
    zero, as the constructor of the backend data left it: it writes the
    frame delta 1/60 (as a [float]), stores the clock reading, and still
    holds the display given to initialisation. *)
Theorem Init_then_NewFrame display p ok p1 :
  ImGui_ImplAllegro5_Init display p = Returns (ok, p1) ->
  exists p2 b,
    entry_NewFrame p1 = Returns p2
    /\ DeltaTime (imgui_io p2) = S754_finite false 8947849 (-29)
    /\ ImGui_ImplAllegro5_GetBackendData p2 = Some b
    /\ Time b = al_get_time (device (machine p1))
    /\ Display b = display.
Proof.
  intros Hinit.
  destruct (Init_data display p ok p1 Hinit) as (b & Hget & Hdisplay & Htime).
  destruct (GetBackendData_Some p1 b Hget) as [Hctx _].
  unfold entry_NewFrame. rewrite Hget.
  eexists _, _. split; [reflexivity|].
  destruct (NewFrame_time (world_of p1 b)) as [Hdelta Hstored].
  cbn [world_of bd host] in Hdelta, Hstored.
  unfold ImGui_ImplAllegro5_GetBackendData, put_world.
  cbn [has_context backend_io set_BackendPlatformUserData
       BackendPlatformUserData imgui_io].
  rewrite Hctx, Hdelta, Htime.
  split; [reflexivity|]. split; [reflexivity|]. split; [exact Hstored|].
  rewrite <- Hdisplay.
  unfold ImGui_ImplAllegro5_NewFrame.
  match goal with
  | |- context [ImGui_ImplAllegro5_UpdateMouseCursor ?x] =>
      destruct (UpdateMouseCursor_keeps_io_bd x) as [_ ->]
  end.
  cbn [bd world_of set_Time Display].
  destruct (is_null (Texture b)); [|reflexivity].
  destruct (CreateDeviceObjects_keeps_inputs (mkWorld (device (machine p1))
                                                (imgui_io p1) b))
    as (_ & _ & _ & Hd & _).
  exact Hd.
Qed.

Lemma foldl_assign_key_other (l : list (ImGuiKey * AllegroKeyName)) :
  forall m k, ~ In k (map fst l) -> foldl assign_key m l k = m k.
Proof.
  induction l as [|[k0 a0] l IH]; intros m k Hnot; cbn [foldl];
    [reflexivity|].
  rewrite IH by (intros Hin; apply Hnot; right; exact Hin).
  unfold assign_key. cbn [fst snd].
  destruct (decide (k = k0)) as [->|]; [|reflexivity].
  exfalso. apply Hnot. left. reflexivity.
Qed.

Lemma foldl_assign_key_lookup (l : list (ImGuiKey * AllegroKeyName)) :
  forall m k a,
    List.NoDup (map fst l) -> In (k, a) l ->
    foldl assign_key m l k = keycode a.
Proof.
  induction l as [|[k0 a0] l IH]; intros m k a Hnd Hin; [destruct Hin|].
  cbn [map fst] in Hnd. inversion Hnd as [|? ? Hnot Hnd']; subst.
  cbn [foldl]. destruct Hin as [[= -> ->] | Hin].
  - rewrite foldl_assign_key_other by exact Hnot.
    unfold assign_key. cbn [fst snd].
    destruct (decide (k = k)); [reflexivity | contradiction].
  - apply IH; assumption.
Qed.

End LifecycleFacts.

Lemma NoDup_snd_inj {A B} (l : list (A * B)) (k k' : A) (a : B) :
  List.NoDup (map snd l) -> In (k, a) l -> In (k', a) l -> k = k'.
Proof.
  induction l as [|[k0 a0] l IH]; intros Hnd Hin Hin'; [destruct Hin|].
  cbn [map snd] in Hnd. inversion Hnd as [|? ? Hnot Hnd']; subst.
  destruct Hin as [Heq | Hin]; destruct Hin' as [Heq' | Hin'].
  - congruence.
  - inversion Heq; subst. exfalso. apply Hnot. apply in_map_iff.
    exists (k', a). auto.
  - inversion Heq'; subst. exfalso. apply Hnot. apply in_map_iff.
    exists (k, a). auto.
  - apply IH; assumption.
Qed.

Lemma key_assignments_keys_once : List.NoDup (map fst key_assignments).
Proof.
  apply NoDup_ListNoDup. apply (bool_decide_unpack _). vm_compute. exact I.
Qed.

Lemma key_assignments_codes_once : List.NoDup (map snd key_assignments).
Proof.
  apply NoDup_ListNoDup. apply (bool_decide_unpack _). vm_compute. exact I.
Qed.

Lemma key_assignments_total (k : ImGuiKey) :
  exists a, In (k, a) key_assignments.
Proof.
  assert (Hin : In k (map fst key_assignments)).
  { apply list_elem_of_In. apply (bool_decide_unpack _).
    destruct k; vm_compute; exact I. }
  apply in_map_iff in Hin as ([k' a] & Hk & Hin). cbn in Hk. subst k'.
  exists a. exact Hin.
Qed.

Section KeyMapFacts.

Context `{Platform} `{Headers}.

(** X24: initialisation writes the key map once per key: each of the 105
    keys Dear ImGui names gets the value of the Allegro key constant that
    its statement names, no statement overwrites another, and no Allegro
    key constant is given to two keys.  So on headers that give
    different constants different values the key map after
    initialisation sends different keys to different key flags. *)
Theorem Init_KeyMap display p ok p1 :
  ImGui_ImplAllegro5_Init display p = Returns (ok, p1) ->
  (forall k a, In (k, a) key_assignments ->
               KeyMap (backend_io p1) k = keycode a)
  /\ ((forall a a', keycode a = keycode a' -> a = a') ->
      forall k k',
        KeyMap (backend_io p1) k = KeyMap (backend_io p1) k' -> k = k').
Proof.
  intros Hinit.
  assert (Hmap : KeyMap (backend_io p1)
                 = foldl assign_key (KeyMap (backend_io p)) key_assignments).
  { revert Hinit. unfold ImGui_ImplAllegro5_Init, ImGui_GetIO.
    destruct (has_context p); [|discriminate].
    destruct (BackendPlatformUserData (backend_io p)); [discriminate|].
    destruct (al_create_vertex_decl (machine p)) as [decl h].
    destruct ALLEGRO_HAS_CLIPBOARD; intros [= <- <-]; reflexivity. }
  assert (Hlookup : forall k a, In (k, a) key_assignments ->
                                KeyMap (backend_io p1) k = keycode a).
  { intros k a Hin. rewrite Hmap.
    apply foldl_assign_key_lookup;
      [exact key_assignments_keys_once | exact Hin]. }
  split; [exact Hlookup|].
  intros Hinj k k' Heq.
  destruct (key_assignments_total k) as (a & Hin).
  destruct (key_assignments_total k') as (a' & Hin').
  rewrite (Hlookup k a Hin), (Hlookup k' a' Hin') in Heq.
  apply Hinj in Heq. subst a'.
  exact (NoDup_snd_inj key_assignments k k' a key_assignments_codes_once
           Hin Hin').
Qed.

End KeyMapFacts.

Lemma example_host_ok ans copied : host_ok (example_host ans copied).
Proof.
  split; [apply example_device_handles_below|].
  split; repeat (apply List.Forall_cons; [cbn; lia|]); apply List.Forall_nil.
Qed.

(** A session with two refreshes around a loss of the device objects,
    three uses of the clipboard and a mouse click, on a host where
    bitmaps 20 and 21, cursor 30, vertex declaration 40 and text buffer
    50 are alive. *)
Lemma session_releases_everything_witness :
  exists p',
    @session example_platform example_headers 100
      [do_NewFrame; do_GetClipboardText; do_SetClipboardText "pasted";
       do_GetClipboardText;
       do_ProcessEvent (mouse_event ALLEGRO_EVENT_MOUSE_BUTTON_DOWN 100 1);
       do_InvalidateDeviceObjects; do_NewFrame; do_GetClipboardText]
      (example_process [] (Some "copied")) = Returns p'
    /\ resources (machine p') = ([20; 21], [30], [40], [(50, "kept")]).
Proof.
  pose proof (@session_releases_everything example_platform example_headers
                100
                [do_NewFrame; do_GetClipboardText;
                 do_SetClipboardText "pasted"; do_GetClipboardText;
                 do_ProcessEvent
                   (mouse_event ALLEGRO_EVENT_MOUSE_BUTTON_DOWN 100 1);
                 do_InvalidateDeviceObjects; do_NewFrame;
                 do_GetClipboardText]
                (example_process [] (Some "copied"))
                (example_host_ok [] (Some "copied")) eq_refl eq_refl)
    as Hthm.
  set (s := @session example_platform example_headers 100 _ _) in *.
  assert (Hret : match s with Returns _ => true | _ => false end = true)
    by (vm_compute; reflexivity).
  destruct Hthm as [(p' & Hrun & Hres & _) | (index & Hbad)].
  - exists p'. split; [exact Hrun | exact Hres].
  - rewrite Hbad in Hret. discriminate Hret.
Defined.

(** After initialisation on a host with an empty clipboard, the text
    [pasted] is set and read back. *)
Lemma SetClipboardText_then_GetClipboardText_witness :
  exists p1 p2 q p3,
    @ImGui_ImplAllegro5_Init example_platform example_headers 100
      (example_process [] None) = Returns (true, p1)
    /\ ImGui_ImplAllegro5_SetClipboardText "pasted" p1 = Returns p2
    /\ ImGui_ImplAllegro5_GetClipboardText p2 = Returns (q, p3)
    /\ text_at q (machine p3) = Some "pasted"
    /\ text_buffers (machine p3) = [(50, "kept"); (q, "pasted")].
Proof.
  destruct (@Init_owns example_platform example_headers 100
              (example_process [] None) eq_refl eq_refl
              (example_host_ok [] None)) as (p1 & Hinit & Hown & _).
  set (o := @ImGui_ImplAllegro5_Init example_platform example_headers 100 _)
    in *.
  assert (Hans : match o with
                 | Returns (_, q) =>
                     answer (device (machine q)) 0
                     && answer (device (machine q)) 1
                 | _ => false
                 end = true) by (vm_compute; reflexivity).
  rewrite Hinit in Hans. apply andb_prop in Hans as [Ha0 Ha1].
  destruct (SetClipboardText_then_GetClipboardText (example_host [] None)
              "pasted" p1 (example_host_ok [] None) Hown Ha0 Ha1)
    as (p2 & q & p3 & Hset & Hget & _ & Hat & Hbuf).
  exists p1, p2, q, p3.
  split; [exact Hinit|]. split; [exact Hset|]. split; [exact Hget|].
  split; [exact Hat | exact Hbuf].
Defined.

(** Initialisation, shutdown, and then a second shutdown and a reading of
    the clipboard through the hook that is still installed. *)
Lemma Shutdown_then_use_witness :
  exists p1 p',
    @ImGui_ImplAllegro5_Init example_platform example_headers 100
      (example_process [] None) = Returns (true, p1)
    /\ ImGui_ImplAllegro5_Shutdown p1 = Returns p'
    /\ ImGui_ImplAllegro5_Shutdown p'
       = AssertionFailure
           "No platform backend to shutdown, or already shutdown?"
    /\ GetClipboardTextFn (backend_io p')
       = Some fn_ImGui_ImplAllegro5_GetClipboardText
    /\ ImGui_ImplAllegro5_GetClipboardText p' = NullDereference.
Proof.
  destruct (@Init_owns example_platform example_headers 100
              (example_process [] None) eq_refl eq_refl
              (example_host_ok [] None)) as (p1 & Hinit & Hown & _).
  destruct (Shutdown_releases (example_host [] None) p1
              (example_host_ok [] None) Hown) as (p' & Hshut & _).
  destruct (@Shutdown_then_use example_platform example_headers 100 p1 p'
              Hshut) as (Hagain & _ & _ & Hhooks & Hread & _).
  set (o := @ImGui_ImplAllegro5_Init example_platform example_headers 100 _)
    in *.
  assert (Hfn : match o with
                | Returns (_, q) =>
                    match GetClipboardTextFn (backend_io q) with
                    | Some fn_ImGui_ImplAllegro5_GetClipboardText => true
                    | _ => false
                    end
                | _ => false
                end = true) by (vm_compute; reflexivity).
  rewrite Hinit in Hfn.
  exists p1, p'.
  split; [exact Hinit|]. split; [exact Hshut|]. split; [exact Hagain|].
  split; [|exact Hread].
  pose proof (f_equal (fun t => snd (fst t)) Hhooks) as Hsame.
  cbn [fst snd] in Hsame. rewrite Hsame.
  destruct (GetClipboardTextFn (backend_io p1)) as [[| |]|];
    try discriminate Hfn. reflexivity.
Defined.

(** Initialisation for display 100, then for display 101. *)
Lemma Init_then_Init_witness :
  exists p1,
    @ImGui_ImplAllegro5_Init example_platform example_headers 100
      (example_process [] None) = Returns (true, p1)
    /\ @ImGui_ImplAllegro5_Init example_platform example_headers 101 p1
       = AssertionFailure "Already initialized a platform backend!".
Proof.
  destruct (@Init_owns example_platform example_headers 100
              (example_process [] None) eq_refl eq_refl
              (example_host_ok [] None)) as (p1 & Hinit & _).
  destruct (@Init_then_Init example_platform example_headers 100 101
              (example_process [] None) true p1 Hinit) as (_ & Hsecond & _).
  exists p1. split; [exact Hinit | exact Hsecond].
Defined.

(** Initialisation and the first refresh. *)
Lemma Init_then_NewFrame_witness :
  exists p1 p2,
    @ImGui_ImplAllegro5_Init example_platform example_headers 100
      (example_process [] None) = Returns (true, p1)
    /\ @entry_NewFrame example_platform p1 = Returns p2
    /\ DeltaTime (imgui_io p2) = fdiv (float_of_int 1) (float_of_int 60).
Proof.
  destruct (@Init_owns example_platform example_headers 100
              (example_process [] None) eq_refl eq_refl
              (example_host_ok [] None)) as (p1 & Hinit & _).
  destruct (@Init_then_NewFrame example_platform example_headers 100
              (example_process [] None) true p1 Hinit)
    as (p2 & b & Hframe & Hdelta & _).
  exists p1, p2. split; [exact Hinit|]. split; [exact Hframe|].
  rewrite Hdelta. vm_compute. reflexivity.
Defined.

(** The key map after initialisation on the concrete build: the first
    two keys, and a modifier key, whose constant is the platform's. *)
Lemma Init_KeyMap_witness :
  exists p1,
    @ImGui_ImplAllegro5_Init example_platform example_headers 100
      (example_process [] None) = Returns (true, p1)
    /\ KeyMap (backend_io p1) ImGuiKey_Tab = 1
    /\ KeyMap (backend_io p1) ImGuiKey_LeftArrow = 2
    /\ KeyMap (backend_io p1) ImGuiKey_LeftControl = 217.
Proof.
  destruct (@Init_owns example_platform example_headers 100
              (example_process [] None) eq_refl eq_refl
              (example_host_ok [] None)) as (p1 & Hinit & _).
  destruct (@Init_KeyMap example_platform example_headers 100
              (example_process [] None) true p1 Hinit) as (Hkeys & _).
  exists p1. split; [exact Hinit|].
  split; [|split].
  - rewrite (Hkeys ImGuiKey_Tab KEY_TAB) by (left; reflexivity).
    vm_compute. reflexivity.
  - rewrite (Hkeys ImGuiKey_LeftArrow KEY_LEFT)
      by (right; left; reflexivity).
    vm_compute. reflexivity.
  - rewrite (Hkeys ImGuiKey_LeftControl KEY_LCTRL)
      by (apply list_elem_of_In; apply (bool_decide_unpack _);
          vm_compute; exact I).
    reflexivity.
Defined.

(** The codes of "Hi", a zero and -1 are delivered after
    initialisation. *)
Lemma key_chars_queue_in_order_witness :
  exists p1 p',
    @ImGui_ImplAllegro5_Init example_platform example_headers 100
      (example_process [] None) = Returns (true, p1)
    /\ @serve_all example_platform (key_char_requests 100 [72; 0; 105; -1]) p1
       = Returns p'
    /\ InputQueueCharacters (imgui_io p') = [72; 105; 4294967295].
Proof.
  destruct (@Init_owns example_platform example_headers 100
              (example_process [] None) eq_refl eq_refl
              (example_host_ok [] None)) as (p1 & Hinit & _).
  destruct (@Init_data example_platform example_headers 100
              (example_process [] None) true p1 Hinit)
    as (b & Hget & Hdisplay & _).
  destruct (@key_chars_queue_in_order example_platform b [72; 0; 105; -1]
              p1 Hget) as (p' & Hrun & Hio & _).
  rewrite Hdisplay in Hrun.
  set (o := @ImGui_ImplAllegro5_Init example_platform example_headers 100 _)
    in *.
  assert (Hempty : match o with
                   | Returns (_, q) =>
                       match InputQueueCharacters (imgui_io q) with
                       | [] => true
                       | _ => false
                       end
                   | _ => false
                   end = true) by (vm_compute; reflexivity).
  rewrite Hinit in Hempty.
  exists p1, p'. split; [exact Hinit|]. split; [exact Hrun|].
  rewrite Hio.
  destruct (InputQueueCharacters (imgui_io p1)) eqn:Hq;
    [|discriminate Hempty].
  destruct (imgui_io p1). cbn in Hq. subst. reflexivity.
Defined.
